(** * mcp-diagram-tools: the format adapters of [server.py]

    A shallow embedding of the parsers ([_read_drawio], [_read_excalidraw],
    [_read_svg]), the generators ([_create_drawio_xml],
    [_create_excalidraw_json], [_create_svg]), the connector geometry and the
    tools [diagram_write] and [diagram_convert], with the properties the
    specification states about them and further properties of the code.

    Conventions of the embedding.
    - A Python value is a [pyval]; JSON objects and the node / edge
      dictionaries are association lists with string keys ([pydict]).
    - Python numbers are [pynum]: an [int] is a [Z], a [float] is an exact
      rational ([Q]).  Rounding and the range of binary floating point are
      modelled where a property depends on them: for the curved path, in the
      module [Binary64].
    - An exception is an explicit outcome: [exc A] is [Return a] or
      [Raise e].
    - An [xml.etree] element is an [Element]; the functions of the Python
      library that map text to such trees and back ([ET.fromstring],
      [ET.tostring], [json.loads], [json.dumps], [unquote], [b64decode],
      [zlib.decompress], [bytes.decode]) are parameters of the development
      ([pylib]). *)

From Stdlib Require Import ZArith QArith Qabs Qround Qminmax String Ascii List Bool Lia Lqa DecimalString SpecFloat.
Import ListNotations.

Set Warnings "-register-all".

Open Scope string_scope.
Open Scope list_scope.

(** ** Python values *)

Inductive pynum : Type :=
| NInt (z : Z)
| NFloat (q : Q).

Inductive pyval : Type :=
| PNone
| PBool (b : bool)
| PNum (n : pynum)
| PStr (s : string)
| PList (l : list pyval)
| PDict (d : list (string * pyval)).

Definition pydict : Type := list (string * pyval).

Definition PInt (z : Z) : pyval := PNum (NInt z).
Definition PFloat (q : Q) : pyval := PNum (NFloat q).

(** ** Exceptions *)

Inductive exn : Type :=
| TypeError | ValueError | AttributeError | IndexError | KeyError | ParseError.

Inductive exc (A : Type) : Type :=
| Return (a : A)
| Raise (e : exn).
Arguments Return {A} a.
Arguments Raise {A} e.

Definition bind {A B : Type} (m : exc A) (k : A -> exc B) : exc B :=
  match m with
  | Return a => k a
  | Raise e => Raise e
  end.

Notation "x <- m ;; k" := (bind m (fun x => k))
  (at level 61, m at next level, right associativity).
Notation "' pat <- m ;; k" := (bind m (fun x => match x with pat => k end))
  (at level 61, pat pattern, m at next level, right associativity).

(** [try: body except Exception: handler]. *)
Definition try_except {A : Type} (body : exc A) (handler : exc A) : exc A :=
  match body with
  | Return a => Return a
  | Raise _ => handler
  end.

(** A loop whose body may raise: the first exception ends it. *)
Fixpoint for_each {A B : Type} (f : A -> exc B) (l : list A) : exc (list B) :=
  match l with
  | [] => Return []
  | a :: r => b <- f a ;; bs <- for_each f r ;; Return (b :: bs)
  end.

(** [for i, x in enumerate(l)]. *)
Fixpoint enumerate_from {A : Type} (i : nat) (l : list A) : list (nat * A) :=
  match l with
  | [] => []
  | a :: r => (i, a) :: enumerate_from (S i) r
  end.

Definition enumerate {A : Type} (l : list A) : list (nat * A) := enumerate_from 0 l.

(** ** Dictionaries *)

Fixpoint dict_get (d : pydict) (k : string) : option pyval :=
  match d with
  | [] => None
  | (k', v) :: r => if String.eqb k' k then Some v else dict_get r k
  end.

(** [d.get(k, dflt)] *)
Definition get_or (d : pydict) (k : string) (dflt : pyval) : pyval :=
  match dict_get d k with
  | Some v => v
  | None => dflt
  end.

(** [d.get(k)] *)
Definition get (d : pydict) (k : string) : pyval := get_or d k PNone.

(** [d[k] = v] *)
Fixpoint dict_set (d : pydict) (k : string) (v : pyval) : pydict :=
  match d with
  | [] => [(k, v)]
  | (k', v') :: r =>
      if String.eqb k' k then (k', v) :: r else (k', v') :: dict_set r k v
  end.

(** [v.get(k, dflt)] on a value that need not be a dictionary. *)
Definition py_get (v : pyval) (k : string) (dflt : pyval) : exc pyval :=
  match v with
  | PDict d => Return (get_or d k dflt)
  | _ => Raise AttributeError
  end.

(** ** Numbers *)

Definition numQ (n : pynum) : Q :=
  match n with
  | NInt z => inject_Z z
  | NFloat q => q
  end.

Definition num_add (a b : pynum) : pynum :=
  match a, b with
  | NInt x, NInt y => NInt (x + y)
  | _, _ => NFloat (numQ a + numQ b)
  end.

Definition num_sub (a b : pynum) : pynum :=
  match a, b with
  | NInt x, NInt y => NInt (x - y)
  | _, _ => NFloat (numQ a - numQ b)
  end.

Definition num_mul (a b : pynum) : pynum :=
  match a, b with
  | NInt x, NInt y => NInt (x * y)
  | _, _ => NFloat (numQ a * numQ b)
  end.

(** True division [a / b]; every division of the source is by the literal 2. *)
Definition num_div (a b : pynum) : pynum := NFloat (numQ a / numQ b).

Definition num_abs (a : pynum) : pynum :=
  match a with
  | NInt z => NInt (Z.abs z)
  | NFloat q => NFloat (Qabs q)
  end.

(** [a > b] and [a < b] *)
Definition num_gtb (a b : pynum) : bool := negb (Qle_bool (numQ a) (numQ b)).
Definition num_ltb (a b : pynum) : bool := num_gtb b a.

(** [max(a, b)] and [min(a, b)]: the first argument wins a tie. *)
Definition num_max (a b : pynum) : pynum := if num_gtb b a then b else a.
Definition num_min (a b : pynum) : pynum := if num_ltb b a then b else a.

Definition of_nat (n : nat) : pynum := NInt (Z.of_nat n).

(** The number a value stands for in arithmetic ([bool] is an [int]);
    arithmetic on anything else raises [TypeError]. *)
Definition as_num (v : pyval) : exc pynum :=
  match v with
  | PBool b => Return (NInt (if b then 1 else 0))
  | PNum n => Return n
  | _ => Raise TypeError
  end.

(** ** Truth value, equality with a string literal, hashing *)

Definition truthy (v : pyval) : bool :=
  match v with
  | PNone => false
  | PBool b => b
  | PNum n => negb (Qeq_bool (numQ n) 0)
  | PStr s => negb (String.eqb s "")
  | PList l => match l with [] => false | _ => true end
  | PDict d => match d with [] => false | _ => true end
  end.

(** [v == 'lit'] *)
Definition eq_str (v : pyval) (lit : string) : bool :=
  match v with
  | PStr s => String.eqb s lit
  | _ => false
  end.

Definition hashable (v : pyval) : bool :=
  match v with
  | PList _ | PDict _ => false
  | _ => true
  end.

Definition key_num (v : pyval) : option Q :=
  match v with
  | PBool b => Some (if b then 1 else 0)%Q
  | PNum n => Some (numQ n)
  | _ => None
  end.

(** Equality of two hashable values used as dictionary keys. *)
Definition key_eqb (a b : pyval) : bool :=
  match a, b with
  | PStr s, PStr t => String.eqb s t
  | PNone, PNone => true
  | _, _ =>
      match key_num a, key_num b with
      | Some x, Some y => Qeq_bool x y
      | _, _ => false
      end
  end.

(** A dictionary keyed by arbitrary hashable values ([node_lookup],
    [element_map]); a later entry for an equal key replaces the earlier. *)
Fixpoint kmap_get {V : Type} (m : list (pyval * V)) (k : pyval) : option V :=
  match m with
  | [] => None
  | (k', v) :: r => if key_eqb k' k then Some v else kmap_get r k
  end.

Fixpoint kmap_set {V : Type} (m : list (pyval * V)) (k : pyval) (v : V) : list (pyval * V) :=
  match m with
  | [] => [(k, v)]
  | (k', v') :: r =>
      if key_eqb k' k then (k', v) :: r else (k', v') :: kmap_set r k v
  end.

(** [k in m]; hashing an unhashable key raises [TypeError]. *)
Definition kmap_mem {V : Type} (m : list (pyval * V)) (k : pyval) : exc bool :=
  if hashable k
  then Return (match kmap_get m k with Some _ => true | None => false end)
  else Raise TypeError.

(** ** Strings: [str.strip], [float], [str] *)

(** The characters [str.strip()] removes (ASCII white space). *)
Definition is_space (c : ascii) : bool :=
  let n := nat_of_ascii c in
  ((9 <=? n) && (n <=? 13) || (28 <=? n) && (n <=? 32))%nat.

Fixpoint lstrip (s : string) : string :=
  match s with
  | String c r => if is_space c then lstrip r else s
  | EmptyString => EmptyString
  end.

Fixpoint rstrip (s : string) : string :=
  match s with
  | String c r =>
      let r' := rstrip r in
      if is_space c && String.eqb r' "" then "" else String c r'
  | EmptyString => EmptyString
  end.

Definition strip (s : string) : string := rstrip (lstrip s).

Definition is_digit (c : ascii) : bool :=
  let n := nat_of_ascii c in ((48 <=? n) && (n <=? 57))%nat.

Definition digit_val (c : ascii) : Z := Z.of_nat (nat_of_ascii c - 48).

(** Reads the leading decimal digits of [s]: the number read so far, how
    many digits were read, and the rest of the string. *)
Fixpoint read_digits (s : string) (acc : Z) (cnt : nat) : Z * nat * string :=
  match s with
  | String c r =>
      if is_digit c then read_digits r (10 * acc + digit_val c)%Z (S cnt)
      else (acc, cnt, s)
  | EmptyString => (acc, cnt, s)
  end.

Definition read_sign (s : string) : bool * string :=
  match s with
  | String "-" r => (true, r)
  | String "+" r => (false, r)
  | _ => (false, s)
  end.

Definition read_exponent (s : string) : option Z :=
  match s with
  | EmptyString => Some 0%Z
  | String c r =>
      if (Ascii.eqb c "e" || Ascii.eqb c "E")%bool then
        let '(neg, r1) := read_sign r in
        match read_digits r1 0 0 with
        | (_, O, _) => None
        | (e, S _, EmptyString) => Some (if neg then (- e)%Z else e)
        | _ => None
        end
      else None
  end.

Definition pow10 (e : Z) : Q :=
  match e with
  | Zneg p => / inject_Z (10 ^ Zpos p)
  | _ => inject_Z (10 ^ e)
  end.

(** [float(s)] on a string: [Some q] for a finite decimal literal
    ([[sign] digits [. digits] [e [sign] digits]], surrounded by optional
    white space), [None] where Python raises [ValueError].  The spellings of
    the infinities and of NaN, which denote no rational, and digit-group
    underscores are left out of the model. *)
Definition py_float (s : string) : option Q :=
  let '(neg, s1) := read_sign (strip s) in
  let '(ip, n1, s2) := read_digits s1 0 0 in
  let '(m, n2, s3) :=
    match s2 with
    | String "." r => let '(m, n, s3) := read_digits r ip 0 in (m, n, s3)
    | _ => (ip, O, s2)
    end in
  match (n1 + n2)%nat with
  | O => None
  | S _ =>
      match read_exponent s3 with
      | None => None
      | Some e =>
          let v := (inject_Z m * pow10 (e - Z.of_nat n2))%Q in
          Some (if neg then (- v)%Q else v)
      end
  end.

Definition str_nat (n : nat) : string := NilZero.string_of_uint (Nat.to_uint n).

Definition str_int (z : Z) : string :=
  match z with
  | Zneg p => "-" ++ str_nat (Pos.to_nat p)
  | _ => str_nat (Z.to_nat z)
  end.

(** The character of a decimal digit (a value outside 0..9 is brought
    back to the nearest digit). *)
Definition digit_char (d : Z) : ascii := ascii_of_nat (48 + Nat.min 9 (Z.to_nat d)).

(** The decimal digits of a fraction [0 <= f < 1], at most [fuel] of them. *)
Fixpoint frac_digits (fuel : nat) (f : Q) : string :=
  match fuel with
  | O => EmptyString
  | S fuel' =>
      if Qeq_bool f 0 then EmptyString
      else
        let d := Qfloor (f * 10) in
        String (digit_char d) (frac_digits fuel' (Qred (f * 10 - inject_Z d)))
  end.

(** [str(x)] of a float: sign, integer part, point, fraction (up to 17
    digits; Python switches to exponent notation for very large and very
    small magnitudes, which this rendering does not). *)
Definition str_float (q : Q) : string :=
  let a := Qabs q in
  let ip := Qfloor a in
  let fd := frac_digits 17 (Qred (a - inject_Z ip)) in
  (if Qle_bool 0 q then "" else "-") ++ str_nat (Z.to_nat ip) ++ "." ++
  (if String.eqb fd "" then "0" else fd).

Definition str_num (n : pynum) : string :=
  match n with
  | NInt z => str_int z
  | NFloat q => str_float q
  end.

Fixpoint join (sep : string) (l : list string) : string :=
  match l with
  | [] => ""
  | [s] => s
  | s :: r => s ++ sep ++ join sep r
  end.

(** [str(v)].  For a list or a dictionary Python prints the [repr] of the
    items; string items are rendered here between single quotes without the
    escapes [repr] would add. *)
Fixpoint py_repr (v : pyval) : string :=
  match v with
  | PNone => "None"
  | PBool b => if b then "True" else "False"
  | PNum n => str_num n
  | PStr s => "'" ++ s ++ "'"
  | PList l => "[" ++ join ", " (map py_repr l) ++ "]"
  | PDict d =>
      "{" ++ join ", " (map (fun kv => ("'" ++ fst kv ++ "': " ++ py_repr (snd kv))%string) d) ++ "}"
  end.

Definition py_str (v : pyval) : string :=
  match v with
  | PStr s => s
  | _ => py_repr v
  end.

(** ** XML element trees ([xml.etree.ElementTree]) *)

Inductive Element : Type :=
| Elem (tag : string) (attrib : list (string * string)) (text : option string)
       (children : list Element).

Definition tag (e : Element) : string := let 'Elem t _ _ _ := e in t.
Definition attrib (e : Element) : list (string * string) := let 'Elem _ a _ _ := e in a.
Definition text (e : Element) : option string := let 'Elem _ _ t _ := e in t.
Definition children (e : Element) : list Element := let 'Elem _ _ _ c := e in c.

Fixpoint assoc (a : list (string * string)) (k : string) : option string :=
  match a with
  | [] => None
  | (k', v) :: r => if String.eqb k' k then Some v else assoc r k
  end.

(** [e.get(k)] and [e.get(k, dflt)] *)
Definition attr (e : Element) (k : string) : option string := assoc (attrib e) k.
Definition attr_or (e : Element) (k : string) (dflt : string) : string :=
  match attr e k with Some v => v | None => dflt end.

(** The element and all its descendants, in document order. *)
Fixpoint iter_all (e : Element) : list Element :=
  match e with
  | Elem _ _ _ cs => e :: flat_map iter_all cs
  end.

Definition has_tag (t : string) (e : Element) : bool := String.eqb (tag e) t.

(** [e.iter(t)], [e.findall('.//t')], [e.find('.//t')], [e.find(t)] *)
Definition iter (t : string) (e : Element) : list Element :=
  filter (has_tag t) (iter_all e).
Definition findall_desc (t : string) (e : Element) : list Element :=
  filter (has_tag t) (flat_map iter_all (children e)).
Definition find_desc (t : string) (e : Element) : option Element :=
  hd_error (findall_desc t e).
Definition find_child (t : string) (e : Element) : option Element :=
  find (has_tag t) (children e).

(** ** The Python library at the text boundary

    A parser of the library returns a tree or a value ([Parsed]) or raises
    its own error, [ET.ParseError] or [json.JSONDecodeError] ([Malformed],
    with the message).  Other failures of a parser, such as [RecursionError]
    on deeply nested input, are outside the model: what is stated of a reader
    is stated for the texts on which the parser of the library does one of
    the two. *)

Inductive parsed (A : Type) : Type :=
| Parsed (a : A)
| Malformed (msg : string).
Arguments Parsed {A} a.
Arguments Malformed {A} msg.

Record pylib : Type := {
  ET_fromstring : string -> parsed Element;       (* ET.ParseError on [Malformed] *)
  ET_tostring : Element -> string;
  json_loads : string -> parsed pyval;            (* json.JSONDecodeError *)
  json_dumps : pyval -> string;
  unquote : string -> string;
  b64decode : string -> option (list Byte.byte);  (* binascii.Error on [None] *)
  zlib_decompress : list Byte.byte -> option (list Byte.byte);  (* wbits = -15 *)
  bytes_decode : list Byte.byte -> option string  (* UnicodeDecodeError *)
}.

(** ** draw.io parsing *)

Record Diagram : Type := {
  d_nodes : list pydict;
  d_edges : list pydict;
  d_name : string
}.

Record drawio_doc : Type := {
  diagrams : list Diagram;
  text_content : list pyval;
  diagram_count : nat;
  total_nodes : nat;
  total_edges : nat
}.

(** What a reader hands back: [{"error": msg}] or the parsed document. *)
Inductive read_result (D : Type) : Type :=
| ReadError (msg : string)
| ReadOk (doc : D).
Arguments ReadError {D} msg.
Arguments ReadOk {D} doc.

Definition mk_edge (cell_id source target value style : string) : pydict :=
  [("id", PStr cell_id); ("source", PStr source); ("target", PStr target);
   ("label", PStr value); ("style", PStr style)].

Definition mk_node (cell_id value style : string) (geo_data : pydict) : pydict :=
  [("id", PStr cell_id); ("label", PStr value); ("style", PStr style);
   ("geometry", PDict geo_data)].

(** [float(geometry.get(k, 0))] *)
Definition geo_float (geometry : Element) (k : string) : exc pyval :=
  match attr geometry k with
  | None => Return (PFloat 0)
  | Some s =>
      match py_float s with
      | Some q => Return (PFloat q)
      | None => Raise ValueError
      end
  end.

Definition read_geometry (cell : Element) : exc pydict :=
  match find_child "mxGeometry" cell with
  | None => Return []
  | Some geometry =>
      x <- geo_float geometry "x" ;;
      y <- geo_float geometry "y" ;;
      w <- geo_float geometry "width" ;;
      h <- geo_float geometry "height" ;;
      Return [("x", x); ("y", y); ("width", w); ("height", h)]
  end.

Definition nonempty (o : option string) : bool :=
  match o with
  | Some s => negb (String.eqb s "")
  | None => false
  end.

(** [o == 'lit'] for the result of [e.get(k)] *)
Definition is_lit (o : option string) (lit : string) : bool :=
  match o with
  | Some s => String.eqb s lit
  | None => false
  end.

(** One turn of the loop of [_parse_drawio_mxgraphmodel]: what the cell
    appends to [nodes] and to [edges]. *)
Definition parse_cell (cell : Element) : exc (list pydict * list pydict) :=
  let cell_id := attr_or cell "id" "" in
  let value := attr_or cell "value" "" in
  let style := attr_or cell "style" "" in
  if String.eqb cell_id "0" || String.eqb cell_id "1" then Return ([], [])
  else
    let source := attr cell "source" in
    let target := attr cell "target" in
    if nonempty source && nonempty target then
      Return ([], [mk_edge cell_id (attr_or cell "source" "") (attr_or cell "target" "") value style])
    else if negb (String.eqb value "") || is_lit (attr cell "vertex") "1" then
      geo_data <- read_geometry cell ;;
      Return ([mk_node cell_id value style geo_data], [])
    else Return ([], []).

Definition _parse_drawio_mxgraphmodel (root : Element) : exc (list pydict * list pydict) :=
  items <- for_each parse_cell (iter "mxCell" root) ;;
  Return (concat (map fst items), concat (map snd items)).

(** [all_text.add(v)]; the order of a Python set is unspecified, the model
    keeps the order of first insertion. *)
Definition set_add (s : list pyval) (v : pyval) : list pyval :=
  if existsb (key_eqb v) s then s else s ++ [v].

Definition add_labels (s : list pyval) (items : list pydict) : list pyval :=
  fold_left (fun acc item =>
               if truthy (get item "label") then set_add acc (get item "label") else acc)
            items s.

Definition collect_text (ds : list Diagram) : list pyval :=
  fold_left (fun acc d => add_labels (add_labels acc (d_nodes d)) (d_edges d)) ds [].

Definition count_with (f : Diagram -> list pydict) (ds : list Diagram) : nat :=
  fold_left (fun n d => (n + length (f d))%nat) ds O.

Definition summarize (ds : list Diagram) : drawio_doc :=
  {| diagrams := ds;
     text_content := collect_text ds;
     diagram_count := length ds;
     total_nodes := count_with d_nodes ds;
     total_edges := count_with d_edges ds |}.

Section Drawio_reader.

Variable lib : pylib.

Definition option_bind {A B : Type} (o : option A) (k : A -> option B) : option B :=
  match o with
  | Some a => k a
  | None => None
  end.

(** The three decoding steps of [_decode_drawio_data], in order; [None]
    when any of them raises. *)
Definition decode_chain (data : string) : option string :=
  option_bind (b64decode lib (unquote lib data)) (fun raw =>
  option_bind (zlib_decompress lib raw) (fun inflated =>
  bytes_decode lib inflated)).

Definition _decode_drawio_data (data : string) : string :=
  match decode_chain data with
  | Some decoded => decoded
  | None => data
  end.

(** [parsed = _parse_drawio_mxgraphmodel(g); parsed['name'] = name;
    diagrams.append(parsed)] *)
Definition parse_named (name : string) (g : Element) : exc (list Diagram) :=
  '(ns, es) <- _parse_drawio_mxgraphmodel g ;;
  Return [{| d_nodes := ns; d_edges := es; d_name := name |}].

Definition from_children (name : string) (diagram : Element) : exc (list Diagram) :=
  match find_desc "mxGraphModel" diagram with
  | Some mxgraph => parse_named name mxgraph
  | None => Return []
  end.

(** One turn of the loop over the [diagram] elements of an [mxfile]:
    the diagrams it appends. *)
Definition read_diagram (diagram : Element) : exc (list Diagram) :=
  let name := attr_or diagram "name" "Untitled" in
  if nonempty (text diagram) then
    let diagram_data := match text diagram with Some t => t | None => "" end in
    try_except
      (match ET_fromstring lib (_decode_drawio_data (strip diagram_data)) with
       | Parsed diagram_root => parse_named name diagram_root
       | Malformed _ => Raise ParseError
       end)
      (from_children name diagram)
  else from_children name diagram.

Definition read_root (root : Element) : exc (list Diagram) :=
  if String.eqb (tag root) "mxfile" then
    ds <- for_each read_diagram (findall_desc "diagram" root) ;;
    Return (concat ds)
  else if String.eqb (tag root) "mxGraphModel" then
    parse_named "Main" root
  else Return [].

Definition _read_drawio (content : string) : exc (read_result drawio_doc) :=
  match ET_fromstring lib content with
  | Malformed e => Return (ReadError ("Invalid XML: " ++ e))
  | Parsed root =>
      ds <- read_root root ;;
      Return (ReadOk (summarize ds))
  end.

End Drawio_reader.

(** ** draw.io generation *)

(** The attributes of the [mxCell] of a node and of its [mxGeometry], as
    the loop passes them to [ET.SubElement]. *)
Definition node_cell (i : nat) (node : pydict) : exc (pydict * pydict) :=
  let node_id := get_or node "id" (PStr ("node-" ++ str_nat (i + 2))) in
  let label := get_or node "label" (PStr "") in
  let style := get_or node "style" (PStr "rounded=1;whiteSpace=wrap;html=1;") in
  let geo := get_or node "geometry" (PDict []) in
  x <- py_get geo "x" (PInt (Z.of_nat i * 150)) ;;
  y <- py_get geo "y" (PInt 100) ;;
  w <- py_get geo "width" (PInt 120) ;;
  h <- py_get geo "height" (PInt 60) ;;
  Return ([("id", node_id); ("value", label); ("style", style);
           ("vertex", PStr "1"); ("parent", PStr "1")],
          [("x", PStr (py_str x)); ("y", PStr (py_str y));
           ("width", PStr (py_str w)); ("height", PStr (py_str h));
           ("as", PStr "geometry")]).

Definition edge_cell (i : nat) (edge : pydict) : pydict * pydict :=
  let edge_id := get_or edge "id" (PStr ("edge-" ++ str_nat (i + 100))) in
  let source := get_or edge "source" (PStr "") in
  let target := get_or edge "target" (PStr "") in
  let label := get_or edge "label" (PStr "") in
  let style := get_or edge "style"
    (PStr "edgeStyle=orthogonalEdgeStyle;rounded=0;orthogonalLoop=1;jettySize=auto;html=1;") in
  ([("id", edge_id); ("value", label); ("style", style); ("edge", PStr "1");
    ("parent", PStr "1"); ("source", source); ("target", target)],
   [("relative", PStr "1"); ("as", PStr "geometry")]).

(** Serialising an attribute that is not a [str] raises [TypeError]. *)
Definition str_attr (kv : string * pyval) : exc (string * string) :=
  match snd kv with
  | PStr s => Return (fst kv, s)
  | _ => Raise TypeError
  end.

(** An [mxCell] with its [mxGeometry] child. *)
Definition cell_of (a g : list (string * string)) : Element :=
  Elem "mxCell" a None [Elem "mxGeometry" g None []].

Definition cell_element (c : pydict * pydict) : exc Element :=
  a <- for_each str_attr (fst c) ;;
  g <- for_each str_attr (snd c) ;;
  Return (cell_of a g).

Definition mxfile_attrib : list (string * string) :=
  [("host", "mcp-diagram-tools"); ("modified", ""); ("agent", "MCP Diagram Tools");
   ("version", "1.0")].

Definition mxgraph_attrib : list (string * string) :=
  [("dx", "0"); ("dy", "0"); ("grid", "1"); ("gridSize", "10"); ("guides", "1");
   ("tooltips", "1"); ("connect", "1"); ("arrows", "1"); ("fold", "1"); ("page", "1");
   ("pageScale", "1"); ("pageWidth", "850"); ("pageHeight", "1100")].

Definition root_cells : list Element :=
  [Elem "mxCell" [("id", "0")] None [];
   Elem "mxCell" [("id", "1"); ("parent", "0")] None []].

Definition mxfile_of (name : string) (cells : list Element) : Element :=
  Elem "mxfile" mxfile_attrib None
    [Elem "diagram" [("name", name); ("id", "diagram-1")] None
       [Elem "mxGraphModel" mxgraph_attrib None
          [Elem "root" [] None (root_cells ++ cells)]]].

(** The element tree [_create_drawio_xml] builds and serialises. *)
Definition drawio_tree (nodes edges : list pydict) (name : string) : exc Element :=
  ncells <- for_each (fun '(i, node) => node_cell i node) (enumerate nodes) ;;
  let ecells := map (fun '(i, edge) => edge_cell i edge) (enumerate edges) in
  cells <- for_each cell_element (ncells ++ ecells) ;;
  Return (mxfile_of name cells).

Definition _create_drawio_xml (lib : pylib) (nodes edges : list pydict) (name : string)
  : exc string :=
  mxfile <- drawio_tree nodes edges name ;;
  Return (ET_tostring lib mxfile).

(** ** Excalidraw parsing *)

Record excalidraw_doc : Type := {
  x_nodes : list pydict;
  x_edges : list pydict;
  x_text_content : list pyval;
  x_app_state : pyval;
  x_element_count : nat;
  x_node_count : nat;
  x_edge_count : nat;
  x_version : pyval
}.

(** [for elem in v] *)
Definition py_iter (v : pyval) : exc (list pyval) :=
  match v with
  | PList l => Return l
  | PStr s => Return (map (fun c => PStr (String c "")) (list_ascii_of_string s))
  | PDict d => Return (map (fun kv => PStr (fst kv)) d)
  | _ => Raise TypeError
  end.

(** [binding.get('elementId') if binding else None] *)
Definition bound_id (binding : pyval) : exc pyval :=
  if truthy binding then py_get binding "elementId" PNone else Return PNone.

(** One turn of the loop of [_read_excalidraw]: what the element appends to
    [nodes], [edges] and [text_content]. *)
Definition read_element (elem : pyval) : exc (list pydict * list pydict * list pyval) :=
  elem_type <- py_get elem "type" (PStr "") ;;
  elem_id <- py_get elem "id" (PStr "") ;;
  if eq_str elem_type "arrow" || eq_str elem_type "line" then
    binding_start <- py_get elem "startBinding" (PDict []) ;;
    binding_end <- py_get elem "endBinding" (PDict []) ;;
    source <- bound_id binding_start ;;
    target <- bound_id binding_end ;;
    points <- py_get elem "points" (PList []) ;;
    Return ([], [[("id", elem_id); ("type", elem_type); ("source", source);
                  ("target", target); ("points", points)]], [])
  else if eq_str elem_type "text" then
    text <- py_get elem "text" (PStr "") ;;
    if truthy text then
      x <- py_get elem "x" (PInt 0) ;;
      y <- py_get elem "y" (PInt 0) ;;
      w <- py_get elem "width" (PInt 0) ;;
      h <- py_get elem "height" (PInt 0) ;;
      Return ([[("id", elem_id); ("type", elem_type); ("text", text);
                ("x", x); ("y", y); ("width", w); ("height", h)]], [], [text])
    else Return ([], [], [])
  else
    x <- py_get elem "x" (PInt 0) ;;
    y <- py_get elem "y" (PInt 0) ;;
    w <- py_get elem "width" (PInt 0) ;;
    h <- py_get elem "height" (PInt 0) ;;
    bg <- py_get elem "backgroundColor" PNone ;;
    stroke <- py_get elem "strokeColor" PNone ;;
    bound <- py_get elem "boundElements" (PList []) ;;
    Return ([[("id", elem_id); ("type", elem_type); ("x", x); ("y", y);
              ("width", w); ("height", h); ("backgroundColor", bg);
              ("strokeColor", stroke); ("boundElements", bound)]], [], []).

Definition read_data (data : pyval) : exc excalidraw_doc :=
  elements <- py_get data "elements" (PList []) ;;
  elems <- py_iter elements ;;
  items <- for_each read_element elems ;;
  let nodes := concat (map (fun it => fst (fst it)) items) in
  let edges := concat (map (fun it => snd (fst it)) items) in
  let text_content := concat (map snd items) in
  app_state <- py_get data "appState" (PDict []) ;;
  version <- py_get data "version" (PStr "unknown") ;;
  Return {| x_nodes := nodes; x_edges := edges; x_text_content := text_content;
            x_app_state := app_state; x_element_count := length elems;
            x_node_count := length nodes; x_edge_count := length edges;
            x_version := version |}.

Definition _read_excalidraw (lib : pylib) (content : string)
  : exc (read_result excalidraw_doc) :=
  match json_loads lib content with
  | Malformed e => Return (ReadError ("Invalid JSON: " ++ e))
  | Parsed data =>
      doc <- read_data data ;;
      Return (ReadOk doc)
  end.

(** ** Connector geometry *)

Definition pt (a b : pynum) : pyval := PList [PNum a; PNum b].
Definition origin : pyval := pt (NInt 0) (NInt 0).

(** The curved path over the number model, in which the offset is an exact
    fifth of the larger distance.  [Binary64._generate_curved_points] below
    has the rounding of the float product and the range of the format. *)
Definition _generate_curved_points (dx dy : pynum) (curve_direction : pyval) : pyval :=
  let mid_x := num_div dx (NInt 2) in
  let mid_y := num_div dy (NInt 2) in
  let offset := num_mul (num_max (num_abs dx) (num_abs dy)) (NFloat 0.2) in
  if eq_str curve_direction "up" then
    PList [origin; pt mid_x (num_sub mid_y offset); pt dx dy]
  else if eq_str curve_direction "down" then
    PList [origin; pt mid_x (num_add mid_y offset); pt dx dy]
  else if eq_str curve_direction "left" then
    PList [origin; pt (num_sub mid_x offset) mid_y; pt dx dy]
  else if eq_str curve_direction "right" then
    PList [origin; pt (num_add mid_x offset) mid_y; pt dx dy]
  else if num_gtb (num_abs dx) (num_abs dy) then
    PList [origin; pt mid_x (num_add mid_y offset); pt dx dy]
  else
    PList [origin; pt (num_sub mid_x offset) mid_y; pt dx dy].

Definition _generate_step_points (dx dy : pynum) : pyval :=
  if num_gtb (num_abs dy) (num_abs dx) then
    PList [origin; pt (NInt 0) dy; pt dx dy]
  else
    PList [origin; pt dx (NInt 0); pt dx dy].

(** The bounding box of a node as the edge loop reads it. *)
Record box : Type := { bx : pynum; by_ : pynum; bw : pynum; bh : pynum }.

Definition center_x (b : box) : pynum := num_add (bx b) (num_div (bw b) (NInt 2)).
Definition center_y (b : box) : pynum := num_add (by_ b) (num_div (bh b) (NInt 2)).

Definition zero : pynum := NInt 0.

(** Start point of an arrow on the source box ([arrow_start_x],
    [arrow_start_y]); [dx], [dy] run from the source centre to the target
    centre. *)
Definition arrow_start (start_side : pyval) (src : box) (dx dy : pynum) : pynum * pynum :=
  if eq_str start_side "bottom" then (center_x src, num_add (by_ src) (bh src))
  else if eq_str start_side "top" then (center_x src, by_ src)
  else if eq_str start_side "left" then (bx src, center_y src)
  else if eq_str start_side "right" then (num_add (bx src) (bw src), center_y src)
  else if num_gtb (num_abs dx) (num_abs dy) then
    (if num_gtb dx zero then num_add (bx src) (bw src) else bx src, center_y src)
  else
    (center_x src, if num_gtb dy zero then num_add (by_ src) (bh src) else by_ src).

(** End point of an arrow on the target box ([arrow_end_x], [arrow_end_y]). *)
Definition arrow_end (end_side : pyval) (tgt : box) (dx dy : pynum) : pynum * pynum :=
  if eq_str end_side "top" then (center_x tgt, by_ tgt)
  else if eq_str end_side "bottom" then (center_x tgt, num_add (by_ tgt) (bh tgt))
  else if eq_str end_side "left" then (bx tgt, center_y tgt)
  else if eq_str end_side "right" then (num_add (bx tgt) (bw tgt), center_y tgt)
  else if num_gtb (num_abs dx) (num_abs dy) then
    (if num_gtb dx zero then bx tgt else num_add (bx tgt) (bw tgt), center_y tgt)
  else
    (center_x tgt, if num_gtb dy zero then by_ tgt else num_add (by_ tgt) (bh tgt)).

(** [(start_focus, end_focus)] of the two bindings. *)
Definition binding_focus (dx dy : pynum) : Q * Q :=
  if num_gtb (num_abs dx) (num_abs dy) then
    (if num_gtb dx zero then 0.5 else -0.5, if num_gtb dx zero then -0.5 else 0.5)
  else
    (if num_gtb dy zero then 0.5 else -0.5, if num_gtb dy zero then -0.5 else 0.5).

(** ** Sequences: [len], [v[-1]], [v[n]] *)

Definition py_len (v : pyval) : exc nat :=
  match v with
  | PStr s => Return (String.length s)
  | PList l => Return (length l)
  | PDict d => Return (length d)
  | _ => Raise TypeError
  end.

Definition chars (s : string) : list pyval :=
  map (fun c => PStr (String c "")) (list_ascii_of_string s).

Definition last_of (l : list pyval) : exc pyval :=
  match rev l with
  | x :: _ => Return x
  | [] => Raise IndexError
  end.

Definition nth_of (l : list pyval) (n : nat) : exc pyval :=
  match nth_error l n with
  | Some x => Return x
  | None => Raise IndexError
  end.

Definition py_last (v : pyval) : exc pyval :=
  match v with
  | PList l => last_of l
  | PStr s => last_of (chars s)
  | PDict _ => Raise KeyError
  | _ => Raise TypeError
  end.

Definition py_nth (v : pyval) (n : nat) : exc pyval :=
  match v with
  | PList l => nth_of l n
  | PStr s => nth_of (chars s) n
  | PDict _ => Raise KeyError
  | _ => Raise TypeError
  end.

(** [points[-1][n]] as a number, for [abs(...)] and [... / 2]. *)
Definition last_coord (points : pyval) (n : nat) : exc pynum :=
  p <- py_last points ;;
  c <- py_nth p n ;;
  as_num c.

(** [min(a, b)] on values: the first argument wins a tie, the value comes
    back as it went in. *)
Definition py_min (a b : pyval) : exc pyval :=
  na <- as_num a ;;
  nb <- as_num b ;;
  Return (if num_ltb nb na then b else a).

(** ** Excalidraw generation *)

(** Where a random draw is made: while node [i] or edge [i] is processed. *)
Inductive site : Type :=
| NodeSite (i : nat)
| EdgeSite (i : nat).

Section Excalidraw_writer.

(** [int(time.time() * 1000)], and the oracles standing for [gen_id()] and
    [random.randint]: the [k]-th draw made at a site. *)
Variable timestamp : Z.
Variable gen_id : site -> nat -> string.
Variable randint : site -> nat -> Z.

Definition text_element (s : site) (slot : nat) (elem_id x y w h label font stroke container : pyval)
  : pydict :=
  [("id", elem_id); ("type", PStr "text"); ("x", x); ("y", y);
   ("width", w); ("height", h); ("text", label); ("fontSize", font);
   ("fontFamily", PInt 1); ("textAlign", PStr "center");
   ("verticalAlign", PStr "middle"); ("strokeColor", stroke);
   ("backgroundColor", PStr "transparent"); ("fillStyle", PStr "solid");
   ("strokeWidth", PInt 1); ("roughness", PInt 1); ("opacity", PInt 100);
   ("angle", PInt 0); ("seed", PInt (randint s slot)); ("version", PInt 1);
   ("versionNonce", PInt (randint s (S slot))); ("isDeleted", PBool false);
   ("groupIds", PList []); ("frameId", PNone); ("boundElements", PList []);
   ("updated", PInt timestamp); ("link", PNone); ("locked", PBool false);
   ("containerId", container); ("originalText", label);
   ("autoResize", PBool true); ("lineHeight", PFloat 1.25)].

Definition shape_element (i : nat) (node : pydict) (elem_id node_type text_id : pyval)
  : pydict :=
  [("id", elem_id); ("type", node_type);
   ("x", get_or node "x" (PInt (Z.of_nat i * 150)));
   ("y", get_or node "y" (PInt 100));
   ("width", get_or node "width" (PInt 120));
   ("height", get_or node "height" (PInt 60));
   ("strokeColor", get_or node "strokeColor" (PStr "#1e1e1e"));
   ("backgroundColor", get_or node "backgroundColor" (PStr "transparent"));
   ("fillStyle", get_or node "fillStyle" (PStr "solid"));
   ("strokeWidth", get_or node "strokeWidth" (PInt 2));
   ("roughness", get_or node "roughness" (PInt 1));
   ("opacity", PInt 100); ("angle", PInt 0);
   ("seed", PInt (randint (NodeSite i) 0)); ("version", PInt 1);
   ("versionNonce", PInt (randint (NodeSite i) 1)); ("isDeleted", PBool false);
   ("strokeStyle", get_or node "strokeStyle" (PStr "solid"));
   ("groupIds", PList []); ("frameId", PNone);
   ("roundness",
     if truthy (get_or node "rounded" (PBool true)) && eq_str node_type "rectangle"
     then PDict [("type", PInt 3)] else PNone);
   ("boundElements",
     if truthy text_id then PList [PDict [("type", PStr "text"); ("id", text_id)]]
     else PList []);
   ("updated", PInt timestamp); ("link", PNone); ("locked", PBool false)].

(** Font size of the text bound to a shape. *)
Definition label_font_size (node : pydict) (label : pyval) : exc pyval :=
  let base_font_size := get_or node "fontSize" (PInt 16) in
  n <- py_len label ;;
  if (30 <? n)%nat then py_min base_font_size (PInt 12)
  else if (50 <? n)%nat then py_min base_font_size (PInt 10)
  else Return base_font_size.

(** One turn of the loop over the nodes: the element entered in
    [element_map] under its id, and the elements appended after it. *)
Definition node_elements (i : nat) (node : pydict) : exc (pyval * pydict * list pydict) :=
  let elem_id := get_or node "id" (PStr (gen_id (NodeSite i) 0)) in
  let node_type := get_or node "type" (PStr "rectangle") in
  let label := get_or node "label" (get_or node "text" (PStr "")) in
  if eq_str node_type "text" then
    let text_elem :=
      text_element (NodeSite i) 0 elem_id
        (get_or node "x" (PInt (Z.of_nat i * 150))) (get_or node "y" (PInt 100))
        (get_or node "width" (PInt 100)) (get_or node "height" (PInt 25))
        label (get_or node "fontSize" (PInt 16))
        (get_or node "strokeColor" (PStr "#1e1e1e")) PNone in
    if hashable elem_id then Return (elem_id, text_elem, []) else Raise TypeError
  else
    let text_id := if truthy label then PStr (py_str elem_id ++ "_text") else PNone in
    let shape_elem := shape_element i node elem_id node_type text_id in
    if hashable elem_id then
      if truthy label then
        font <- label_font_size node label ;;
        Return (elem_id, shape_elem,
                [text_element (NodeSite i) 2 text_id
                   (get_or node "x" (PInt (Z.of_nat i * 150)))
                   (get_or node "y" (PInt 100))
                   (get_or node "width" (PInt 120))
                   (get_or node "height" (PInt 60))
                   label font (get_or node "textColor" (PStr "#1e1e1e")) elem_id])
      else Return (elem_id, shape_elem, [])
    else Raise TypeError.

(** [{n.get('id'): n for n in nodes if n.get('id')}] *)
Definition build_lookup (nodes : list pydict) : exc (list (pyval * pydict)) :=
  fold_left (fun acc n =>
               m <- acc ;;
               if truthy (get n "id") then
                 if hashable (get n "id") then Return (kmap_set m (get n "id") n)
                 else Raise TypeError
               else Return m)
            nodes (Return []).

Definition node_box (n : pydict) : exc box :=
  x <- as_num (get_or n "x" (PInt 0)) ;;
  y <- as_num (get_or n "y" (PInt 0)) ;;
  w <- as_num (get_or n "width" (PInt 120)) ;;
  h <- as_num (get_or n "height" (PInt 60)) ;;
  Return {| bx := x; by_ := y; bw := w; bh := h |}.

(** [source_id and target_id and source_id in node_lookup and target_id
    in node_lookup]: the two nodes when the test holds. *)
Definition resolve (node_lookup : list (pyval * pydict)) (source_id target_id : pyval)
  : exc (option (pydict * pydict)) :=
  if truthy source_id && truthy target_id then
    s_in <- kmap_mem node_lookup source_id ;;
    if s_in then
      t_in <- kmap_mem node_lookup target_id ;;
      Return (match kmap_get node_lookup source_id, kmap_get node_lookup target_id with
              | Some src, Some tgt => Some (src, tgt)
              | _, _ => None
              end)
    else Return None
  else Return None.

Definition default_points : pyval := PList [origin; pt (NInt 100) (NInt 0)].

(** Position, waypoints and centre distance of an arrow whose two ends
    resolve to the nodes [src] and [tgt]. *)
Definition bound_route (edge src tgt : pydict)
  : exc (pyval * pyval * pyval * pynum * pynum) :=
  sb <- node_box src ;;
  tb <- node_box tgt ;;
  let dx := num_sub (center_x tb) (center_x sb) in
  let dy := num_sub (center_y tb) (center_y sb) in
  let '(arrow_start_x, arrow_start_y) := arrow_start (get edge "startSide") sb dx dy in
  let '(arrow_end_x, arrow_end_y) := arrow_end (get edge "endSide") tb dx dy in
  let end_dx := num_sub arrow_end_x arrow_start_x in
  let end_dy := num_sub arrow_end_y arrow_start_y in
  let points :=
    if negb (truthy (get edge "points")) then
      let curve_style := get_or edge "curveStyle" (PStr "straight") in
      let curve_direction := get_or edge "curveDirection" (PStr "auto") in
      if eq_str curve_style "curved" then
        _generate_curved_points end_dx end_dy curve_direction
      else if eq_str curve_style "step" then
        _generate_step_points end_dx end_dy
      else PList [origin; pt end_dx end_dy]
    else get_or edge "points" default_points in
  Return (PNum arrow_start_x, PNum arrow_start_y, points, dx, dy).

Definition arrow_element (i : nat) (edge : pydict)
    (arrow_id arrow_x arrow_y width height points edge_text_id : pyval)
    (is_curved : bool) (start_binding end_binding : pyval) : pydict :=
  [("id", arrow_id); ("type", PStr "arrow"); ("x", arrow_x); ("y", arrow_y);
   ("width", width); ("height", height);
   ("strokeColor", get_or edge "strokeColor" (PStr "#1e1e1e"));
   ("backgroundColor", PStr "transparent"); ("fillStyle", PStr "solid");
   ("strokeWidth", get_or edge "strokeWidth" (PInt 2));
   ("roughness", PInt 1); ("opacity", PInt 100); ("angle", PInt 0);
   ("seed", PInt (randint (EdgeSite i) 0)); ("version", PInt 1);
   ("versionNonce", PInt (randint (EdgeSite i) 1)); ("isDeleted", PBool false);
   ("strokeStyle", get_or edge "strokeStyle" (PStr "solid"));
   ("groupIds", PList []); ("frameId", PNone);
   ("roundness", if is_curved then PDict [("type", PInt 2)] else PNone);
   ("boundElements",
     if truthy edge_text_id then PList [PDict [("id", edge_text_id); ("type", PStr "text")]]
     else PList []);
   ("updated", PInt timestamp); ("link", PNone); ("locked", PBool false);
   ("points", points); ("startBinding", start_binding); ("endBinding", end_binding);
   ("startArrowhead", get_or edge "startArrowhead" PNone);
   ("endArrowhead", get_or edge "endArrowhead" (PStr "arrow"));
   ("elbowed", PBool false)].

(** The text element carrying the label of an edge. *)
Definition edge_label_element (i : nat) (arrow_id arrow_x arrow_y points edge_label edge_text_id : pyval)
  : exc pydict :=
  mid_x <- (if truthy points then
              c <- last_coord points 0 ;;
              ax <- as_num arrow_x ;;
              Return (num_add ax (num_div c (NInt 2)))
            else
              ax <- as_num arrow_x ;;
              Return (num_add ax (NInt 50))) ;;
  mid_y <- (if truthy points then
              c <- last_coord points 1 ;;
              ay <- as_num arrow_y ;;
              Return (num_sub (num_add ay (num_div c (NInt 2))) (NInt 15))
            else
              ay <- as_num arrow_y ;;
              Return (num_sub ay (NInt 15))) ;;
  n <- py_len edge_label ;;
  Return (text_element (EdgeSite i) 2 edge_text_id (PNum mid_x) (PNum mid_y)
            (PInt (Z.of_nat n * 8)) (PInt 20) edge_label (PInt 14)
            (PStr "#1e1e1e") arrow_id).

(** One turn of the loop over the edges: the elements it appends, and
    the entry it adds to [arrow_bindings]. *)
Definition edge_elements (node_lookup : list (pyval * pydict)) (i : nat) (edge : pydict)
  : exc (list pydict * list (pyval * pyval * pyval)) :=
  let arrow_id := get_or edge "id" (PStr (gen_id (EdgeSite i) 0)) in
  let edge_label := get_or edge "label" (PStr "") in
  let source_id := get edge "source" in
  let target_id := get edge "target" in
  bound <- resolve node_lookup source_id target_id ;;
  '(arrow_x, arrow_y, points, dx, dy) <-
    match bound with
    | Some (src, tgt) => bound_route edge src tgt
    | None =>
        Return (get_or edge "x" (PInt 0), get_or edge "y" (PInt 130),
                get_or edge "points" default_points, zero, zero)
    end ;;
  let edge_text_id := if truthy edge_label then PStr (gen_id (EdgeSite i) 1) else PNone in
  let '(start_binding, end_binding, bindings) :=
    match bound with
    | Some _ =>
        let '(start_focus, end_focus) := binding_focus dx dy in
        (PDict [("elementId", source_id); ("focus", PFloat start_focus); ("gap", PInt 8)],
         PDict [("elementId", target_id); ("focus", PFloat end_focus); ("gap", PInt 8)],
         [(arrow_id, source_id, target_id)])
    | None => (PNone, PNone, [])
    end in
  let curve_style := get_or edge "curveStyle" (PStr "straight") in
  is_curved <- (if eq_str curve_style "curved" then Return true
                else n <- py_len points ;; Return (2 <? n)%nat) ;;
  width <- (if truthy points then c <- last_coord points 0 ;; Return (PNum (num_abs c))
            else Return (PInt 100)) ;;
  height <- (if truthy points then c <- last_coord points 1 ;; Return (PNum (num_abs c))
             else Return (PInt 0)) ;;
  let arrow := arrow_element i edge arrow_id arrow_x arrow_y width height points
                 edge_text_id is_curved start_binding end_binding in
  if truthy edge_label then
    edge_text <- edge_label_element i arrow_id arrow_x arrow_y points edge_label edge_text_id ;;
    Return ([arrow; edge_text], bindings)
  else Return ([arrow], bindings).

(** [e["boundElements"].append(ref)] *)
Definition append_bound (ref : pyval) (e : pydict) : pydict :=
  match dict_get e "boundElements" with
  | Some (PList l) => dict_set e "boundElements" (PList (l ++ [ref]))
  | _ => e
  end.

Fixpoint update_nth {A : Type} (n : nat) (f : A -> A) (l : list A) : list A :=
  match l, n with
  | [], _ => []
  | a :: r, O => f a :: r
  | a :: r, S n' => a :: update_nth n' f r
  end.

(** [if key and key in element_map:
       element_map[key]["boundElements"].append({"type": "arrow", "id": arrow_id})].
    [element_map] holds, for an id, the index of the node whose element it
    refers to; [mains] are those elements, one per node. *)
Definition add_ref (element_map : list (pyval * nat)) (key arrow_id : pyval)
    (mains : list pydict) : list pydict :=
  if truthy key then
    match kmap_get element_map key with
    | Some j => update_nth j (append_bound (PDict [("type", PStr "arrow"); ("id", arrow_id)])) mains
    | None => mains
    end
  else mains.

Definition add_refs (element_map : list (pyval * nat))
    (arrow_bindings : list (pyval * pyval * pyval)) (mains : list pydict) : list pydict :=
  fold_left (fun ms '(arrow_id, source_id, target_id) =>
               add_ref element_map target_id arrow_id
                 (add_ref element_map source_id arrow_id ms))
            arrow_bindings mains.

Definition build_element_map (ids : list pyval) : list (pyval * nat) :=
  fold_left (fun m '(i, k) => kmap_set m k i) (enumerate ids) [].

(** The list [elements] at the end of [_create_excalidraw_json]. *)
Definition excalidraw_elements (nodes edges : list pydict) : exc (list pydict) :=
  ns <- for_each (fun '(i, node) => node_elements i node) (enumerate nodes) ;;
  node_lookup <- build_lookup nodes ;;
  es <- for_each (fun '(i, edge) => edge_elements node_lookup i edge) (enumerate edges) ;;
  let element_map := build_element_map (map (fun n => fst (fst n)) ns) in
  let mains := add_refs element_map (concat (map snd es)) (map (fun n => snd (fst n)) ns) in
  Return (concat (map (fun '(m, n) => m :: snd n) (combine mains ns))
          ++ concat (map fst es)).

Definition excalidraw_document (elements : list pydict) : pyval :=
  PDict [("type", PStr "excalidraw"); ("version", PInt 2);
         ("source", PStr "mcp-diagram-tools");
         ("elements", PList (map PDict elements));
         ("appState", PDict [("gridSize", PNone); ("viewBackgroundColor", PStr "#ffffff")]);
         ("files", PDict [])].

Definition _create_excalidraw_json (lib : pylib) (nodes edges : list pydict) : exc string :=
  elements <- excalidraw_elements nodes edges ;;
  Return (json_dumps lib (excalidraw_document elements)).

End Excalidraw_writer.

(** ** SVG generation *)

(** The lines [_create_svg] joins: a literal line, or one of its f-string
    templates with the values it interpolates. *)
Inductive svg_part : Type :=
| SvgLiteral (line : string)
| SvgOpen (view_width view_height : pynum)
| SvgEllipse (cx cy rx ry : pynum) (fill stroke : pyval)
| SvgPolygon (points : list (pynum * pynum)) (fill stroke : pyval)
| SvgRect (x y w h : pynum) (fill stroke : pyval)
| SvgNodeLabel (text_x text_y : pynum) (label : pyval)
| SvgLine (x1 y1 x2 y2 : pynum)
| SvgEdgeLabel (mid_x mid_y : pynum) (label : pyval).

(** [min(items, default=d)] and [max(items, default=d)] *)
Definition min_default (items : list pynum) (d : pynum) : pynum :=
  match items with
  | [] => d
  | a :: r => fold_left (fun cur x => if num_ltb x cur then x else cur) r a
  end.

Definition max_default (items : list pynum) (d : pynum) : pynum :=
  match items with
  | [] => d
  | a :: r => fold_left (fun cur x => if num_gtb x cur then x else cur) r a
  end.

Definition num_field (n : pydict) (k : string) (dflt : Z) : exc pynum :=
  as_num (get_or n k (PInt dflt)).

Definition padding : pynum := NInt 50.
Definition two : pynum := NInt 2.

Definition svg_node (min_x min_y : pynum) (i : nat) (node : pydict) : exc (list svg_part) :=
  x0 <- num_field node "x" (Z.of_nat i * 150) ;;
  y0 <- num_field node "y" 100 ;;
  let x := num_add (num_sub x0 min_x) padding in
  let y := num_add (num_sub y0 min_y) padding in
  w <- num_field node "width" 120 ;;
  h <- num_field node "height" 60 ;;
  let label := get_or node "label" (get_or node "text" (PStr "")) in
  let fill := get_or node "backgroundColor" (PStr "#e1f5fe") in
  let stroke := get_or node "strokeColor" (PStr "#0288d1") in
  let node_type := get_or node "type" (PStr "rectangle") in
  let shape :=
    if eq_str node_type "ellipse" || eq_str node_type "circle" then
      SvgEllipse (num_add x (num_div w two)) (num_add y (num_div h two))
                 (num_div w two) (num_div h two) fill stroke
    else if eq_str node_type "diamond" then
      SvgPolygon [(num_add x (num_div w two), y);
                  (num_add x w, num_add y (num_div h two));
                  (num_add x (num_div w two), num_add y h);
                  (x, num_add y (num_div h two))] fill stroke
    else SvgRect x y w h fill stroke in
  if truthy label then
    Return [shape;
            SvgNodeLabel (num_add x (num_div w two))
                         (num_add (num_add y (num_div h two)) (NInt 5)) label]
  else Return [shape].

(** [{n.get('id', f'node-{i}'): n for i, n in enumerate(nodes)}] *)
Definition svg_node_id (i : nat) (n : pydict) : pyval :=
  get_or n "id" (PStr ("node-" ++ str_nat i)).

Definition svg_lookup (nodes : list pydict) : exc (list (pyval * pydict)) :=
  fold_left (fun acc '(i, n) =>
               m <- acc ;;
               if hashable (svg_node_id i n) then Return (kmap_set m (svg_node_id i n) n)
               else Raise TypeError)
            (enumerate nodes) (Return []).

Definition svg_edge (min_x min_y : pynum) (node_lookup : list (pyval * pydict))
    (edge : pydict) : exc (list svg_part) :=
  let source_id := get edge "source" in
  let target_id := get edge "target" in
  let label := get_or edge "label" (PStr "") in
  bound <- resolve node_lookup source_id target_id ;;
  match bound with
  | Some (src, tgt) =>
      sx <- num_field src "x" 0 ;;
      sw <- num_field src "width" 120 ;;
      let x1 := num_add (num_add (num_sub sx min_x) padding) sw in
      sy <- num_field src "y" 100 ;;
      sh <- num_field src "height" 60 ;;
      let y1 := num_add (num_add (num_sub sy min_y) padding) (num_div sh two) in
      tx <- num_field tgt "x" 0 ;;
      let x2 := num_add (num_sub tx min_x) padding in
      ty <- num_field tgt "y" 100 ;;
      th <- num_field tgt "height" 60 ;;
      let y2 := num_add (num_add (num_sub ty min_y) padding) (num_div th two) in
      if truthy label then
        Return [SvgLine x1 y1 x2 y2;
                SvgEdgeLabel (num_div (num_add x1 x2) two)
                             (num_sub (num_div (num_add y1 y2) two) (NInt 10)) label]
      else Return [SvgLine x1 y1 x2 y2]
  | None => Return []
  end.

(** A double-quoted attribute value. *)
Definition dq (s : string) : string :=
  String (ascii_of_nat 34) s ++ String (ascii_of_nat 34) "".

Definition svg_header (view_width view_height : pynum) : list svg_part :=
  [SvgLiteral ("<?xml version=" ++ dq "1.0" ++ " encoding=" ++ dq "UTF-8" ++ "?>");
   SvgOpen view_width view_height;
   SvgLiteral "  <defs>";
   SvgLiteral ("    <marker id=" ++ dq "arrowhead" ++ " markerWidth=" ++ dq "10"
               ++ " markerHeight=" ++ dq "7" ++ " refX=" ++ dq "9" ++ " refY=" ++ dq "3.5"
               ++ " orient=" ++ dq "auto" ++ ">");
   SvgLiteral ("      <polygon points=" ++ dq "0 0, 10 3.5, 0 7" ++ " fill=" ++ dq "#333" ++ "/>");
   SvgLiteral "    </marker>";
   SvgLiteral "  </defs>";
   SvgLiteral ("  <rect width=" ++ dq "100%" ++ " height=" ++ dq "100%" ++ " fill="
               ++ dq "white" ++ "/>")].

(** The list [svg_parts] that [_create_svg] joins with newlines.  An operand
    of the bounds that is not a number ends in [TypeError], at the operation
    itself or at the subtraction [max_x - min_x] that follows. *)
Definition _create_svg (nodes edges : list pydict) (width height : pynum)
  : exc (list svg_part) :=
  xs <- for_each (fun n => num_field n "x" 0) nodes ;;
  ys <- for_each (fun n => num_field n "y" 0) nodes ;;
  rights <- for_each (fun n => x <- num_field n "x" 0 ;; w <- num_field n "width" 120 ;;
                               Return (num_add x w)) nodes ;;
  bottoms <- for_each (fun n => y <- num_field n "y" 0 ;; h <- num_field n "height" 60 ;;
                                Return (num_add y h)) nodes ;;
  let min_x := min_default xs (NInt 0) in
  let min_y := min_default ys (NInt 0) in
  let max_x := max_default rights width in
  let max_y := max_default bottoms height in
  let view_width := num_max width (num_add (num_sub max_x min_x) (num_mul padding two)) in
  let view_height := num_max height (num_add (num_sub max_y min_y) (num_mul padding two)) in
  node_parts <- for_each (fun '(i, node) => svg_node min_x min_y i node) (enumerate nodes) ;;
  node_lookup <- svg_lookup nodes ;;
  edge_parts <- for_each (svg_edge min_x min_y node_lookup) edges ;;
  Return (svg_header view_width view_height ++ concat node_parts ++ concat edge_parts
          ++ [SvgLiteral "</svg>"]).

(** ** Conversion *)

(** What [diagram_convert] writes to the target file. *)
Inductive written : Type :=
| WText (content : string)
| WSvg (svg_parts : list svg_part).

(** The JSON object [diagram_convert] returns.  [Converted] is the success
    record with [nodes_converted] and [edges_converted], returned after a
    generator has written the target.  [Rasterised] stands for what the route
    from SVG to PNG returns, which hands the file to an external rasteriser:
    the error that the rasteriser is not installed, or a success record
    without counts.  The others are the error object of a reader, an error
    [diagram_convert] reports itself, and an exception caught by its
    handlers. *)
Inductive convert_result : Type :=
| Converted (out : written) (nodes_converted edges_converted : nat)
| Rasterised
| ParseFailed (msg : string)
| Refused (msg : string)
| Caught (e : exn).

Section Convert.

Variable lib : pylib.
Variable timestamp : Z.
Variable gen_id : site -> nat -> string.
Variable randint : site -> nat -> Z.

Definition is_drawio_ext (ext : string) : bool :=
  String.eqb ext ".drawio" || String.eqb ext ".xml".

(** The first half of [diagram_convert]: the nodes and edges read from
    the source, or the result returned early. *)
Definition read_source (source_ext target_ext content : string)
  : exc (convert_result + list pydict * list pydict) :=
  if is_drawio_ext source_ext then
    result <- _read_drawio lib content ;;
    match result with
    | ReadError msg => Return (inl (ParseFailed msg))
    | ReadOk doc =>
        Return (inr (concat (map d_nodes (diagrams doc)),
                     concat (map d_edges (diagrams doc))))
    end
  else if String.eqb source_ext ".excalidraw" then
    result <- _read_excalidraw lib content ;;
    match result with
    | ReadError msg => Return (inl (ParseFailed msg))
    | ReadOk doc => Return (inr (x_nodes doc, x_edges doc))
    end
  else if String.eqb source_ext ".svg" then
    if negb (String.eqb target_ext ".png")
    then Return (inl (Refused "SVG can only be converted to PNG"))
    else Return (inl Rasterised)
  else Return (inl (Refused ("Unsupported source format: " ++ source_ext))).

Definition write_target (target_ext : string) (all_nodes all_edges : list pydict)
  : exc convert_result :=
  if is_drawio_ext target_ext then
    content <- _create_drawio_xml lib all_nodes all_edges "Page-1" ;;
    Return (Converted (WText content) (length all_nodes) (length all_edges))
  else if String.eqb target_ext ".excalidraw" then
    content <- _create_excalidraw_json timestamp gen_id randint lib all_nodes all_edges ;;
    Return (Converted (WText content) (length all_nodes) (length all_edges))
  else if String.eqb target_ext ".svg" then
    parts <- _create_svg all_nodes all_edges (NInt 800) (NInt 600) ;;
    Return (Converted (WSvg parts) (length all_nodes) (length all_edges))
  else if String.eqb target_ext ".png" then
    Return (Refused "For PNG output, use diagram_render tool instead")
  else Return (Refused ("Unsupported target format: " ++ target_ext)).

(** [diagram_convert] on an existing source file with the given content;
    the extensions are the lower-cased suffixes of the two paths. *)
Definition diagram_convert (source_ext target_ext content : string) : convert_result :=
  let body :=
    r <- read_source source_ext target_ext content ;;
    match r with
    | inl early => Return early
    | inr (all_nodes, all_edges) => write_target target_ext all_nodes all_edges
    end in
  match body with
  | Return r => r
  | Raise e => Caught e
  end.

End Convert.

(** ** Reading results back *)

(** The pair of numbers [p] is the point [(x, y)]. *)
Definition at_point (p : pynum * pynum) (x y : Q) : Prop :=
  numQ (fst p) == x /\ numQ (snd p) == y.

(** Coordinates of a box as rationals, and the midpoints of its edges. *)
Definition qx (b : box) : Q := numQ (bx b).
Definition qy (b : box) : Q := numQ (by_ b).
Definition qw (b : box) : Q := numQ (bw b).
Definition qh (b : box) : Q := numQ (bh b).

Definition at_top (p : pynum * pynum) (b : box) : Prop :=
  at_point p (qx b + qw b / 2) (qy b).
Definition at_bottom (p : pynum * pynum) (b : box) : Prop :=
  at_point p (qx b + qw b / 2) (qy b + qh b).
Definition at_left (p : pynum * pynum) (b : box) : Prop :=
  at_point p (qx b) (qy b + qh b / 2).
Definition at_right (p : pynum * pynum) (b : box) : Prop :=
  at_point p (qx b + qw b) (qy b + qh b / 2).


(** The rule for a side chosen from the direction of travel [(dx, dy)]:
    the right or left edge when [|dx| > |dy|] (right when [dx > 0]), the
    bottom or top edge otherwise (bottom when [dy > 0]). *)
Definition faces_travel (p : pynum * pynum) (b : box) (dx dy : pynum) : Prop :=
  if Qlt_le_dec (Qabs (numQ dy)) (Qabs (numQ dx))
  then (if Qlt_le_dec 0 (numQ dx) then at_right p b else at_left p b)
  else (if Qlt_le_dec 0 (numQ dy) then at_bottom p b else at_top p b).

(** The cell carries both a [source] and a [target], neither empty. *)
Definition has_both_ends (cell : Element) : Prop :=
  exists s t, attr cell "source" = Some s /\ attr cell "target" = Some t /\
              s <> "" /\ t <> "".

(** The cell is one of the two root cells the parser skips. *)
Definition reserved (cell : Element) : Prop :=
  attr_or cell "id" "" = "0" \/ attr_or cell "id" "" = "1".

(** A cell used in examples: a value and a source, no target. *)
Definition half_bound_cell : Element :=
  Elem "mxCell" [("id", "n7"); ("value", "A"); ("source", "n2")] None [].

(** ** Sample oracles and inputs for the examples *)

Definition sample_id (s : site) (k : nat) : string :=
  match s with
  | NodeSite i => "node" ++ str_nat i ++ "-" ++ str_nat k
  | EdgeSite i => "edge" ++ str_nat i ++ "-" ++ str_nat k
  end.

Definition sample_int (s : site) (k : nat) : Z := Z.of_nat (S k).

Definition sample_time : Z := 1700000000000.

(** A label of [n] characters. *)
Fixpoint label_of_length (n : nat) : string :=
  match n with
  | O => EmptyString
  | S n' => String "x" (label_of_length n')
  end.

(** A free-floating edge with a label of [n] characters. *)
Definition labelled_edge (n : nat) : pydict :=
  [("id", PStr "e1"); ("label", PStr (label_of_length n))].

(** The font size of the text element emitted for the label of an edge. *)
Definition edge_label_font (edge : pydict) : exc pyval :=
  '(els, _) <- edge_elements sample_time sample_id sample_int [] 0 edge ;;
  match els with
  | [_; edge_text] => Return (get edge_text "fontSize")
  | _ => Raise IndexError
  end.

(** ** Well-formed input of the generators *)

Definition is_number (v : pyval) : Prop := exists n, as_num v = Return n.

(** The field is a number when the dictionary has it. *)
Definition numeric_field (d : pydict) (k : string) : Prop :=
  match dict_get d k with
  | Some v => is_number v
  | None => True
  end.

(** A well-formed node: position and size are numbers and the id can be
    hashed, where given. *)
Definition well_formed_node (n : pydict) : Prop :=
  numeric_field n "x" /\ numeric_field n "y" /\
  numeric_field n "width" /\ numeric_field n "height" /\
  hashable (get n "id") = true.

(** A well-formed edge: its two references can be hashed. *)
Definition well_formed_edge (e : pydict) : Prop :=
  hashable (get e "source") = true /\ hashable (get e "target") = true.

(** The source of the edge is the id of no node, as [_create_svg] indexes
    them. *)
Definition dangling_source (nodes : list pydict) (e : pydict) : Prop :=
  forall i n, nth_error nodes i = Some n ->
              key_eqb (svg_node_id i n) (get e "source") = false.

(** Every entry of the lookup table of [_create_svg] is a node under its
    id. *)
Definition lookup_sound (nodes : list pydict) (m : list (pyval * pydict)) : Prop :=
  forall k v, In (k, v) m ->
    In v nodes /\ exists i n, nth_error nodes i = Some n /\ k = svg_node_id i n.

(** Two nodes without positions, an edge between them, and an edge whose
    source names no node. *)
Definition sample_nodes : list pydict := [[("id", PStr "a")]; [("id", PStr "b")]].
Definition sample_edge : pydict :=
  [("id", PStr "e1"); ("source", PStr "a"); ("target", PStr "b")].
Definition ghost_edge : pydict :=
  [("id", PStr "e2"); ("source", PStr "ghost"); ("target", PStr "b"); ("label", PStr "lost")].

(** ** A library for the examples

    [sample_lib] agrees with the Python library on the documents used in
    the examples: a printer for element trees and one for JSON values, and
    the parsers and decoders given by the table of the texts they are
    applied to. *)

Definition xml_escape_char (c : ascii) : string :=
  if Ascii.eqb c "&" then "&amp;"
  else if Ascii.eqb c "<" then "&lt;"
  else if Ascii.eqb c ">" then "&gt;"
  else if Ascii.eqb c (ascii_of_nat 34) then "&quot;"
  else String c EmptyString.

Fixpoint xml_escape (s : string) : string :=
  match s with
  | EmptyString => EmptyString
  | String c r => xml_escape_char c ++ xml_escape r
  end.

Fixpoint xml_text (e : Element) : string :=
  match e with
  | Elem t a tx cs =>
      let attrs := String.concat "" (map (fun kv => (" " ++ fst kv ++ "=" ++ dq (xml_escape (snd kv)))%string) a) in
      let body := (match tx with Some s => xml_escape s | None => "" end
                   ++ String.concat "" (map xml_text cs))%string in
      (if String.eqb body "" then "<" ++ t ++ attrs ++ " />"
       else "<" ++ t ++ attrs ++ ">" ++ body ++ "</" ++ t ++ ">")%string
  end.

Fixpoint json_text (v : pyval) : string :=
  match v with
  | PNone => "null"
  | PBool b => if b then "true" else "false"
  | PNum n => str_num n
  | PStr s => dq s
  | PList l => "[" ++ join ", " (map json_text l) ++ "]"
  | PDict d =>
      "{" ++ join ", " (map (fun kv => (dq (fst kv) ++ ": " ++ json_text (snd kv))%string) d) ++ "}"
  end.

Fixpoint table_get {V : Type} (t : list (string * V)) (k : string) : option V :=
  match t with
  | [] => None
  | (k', v) :: r => if String.eqb k' k then Some v else table_get r k
  end.

Fixpoint bytes_eqb (a b : list Byte.byte) : bool :=
  match a, b with
  | [], [] => true
  | x :: a', y :: b' => Byte.eqb x y && bytes_eqb a' b'
  | _, _ => false
  end.

Fixpoint bytes_get {V : Type} (t : list (list Byte.byte * V)) (k : list Byte.byte) : option V :=
  match t with
  | [] => None
  | (k', v) :: r => if bytes_eqb k' k then Some v else bytes_get r k
  end.

Record samples : Type := {
  xml_documents : list (string * Element);
  json_documents : list (string * pyval);
  base64_texts : list (string * list Byte.byte);
  deflated : list (list Byte.byte * list Byte.byte);
  utf8_texts : list (list Byte.byte * string)
}.

Definition lib_of (s : samples) : pylib :=
  {| ET_fromstring c :=
       match table_get (xml_documents s) c with
       | Some t => Parsed t
       | None => Malformed "syntax error: line 1, column 0"
       end;
     ET_tostring := xml_text;
     json_loads c :=
       match table_get (json_documents s) c with
       | Some v => Parsed v
       | None => Malformed "Expecting value: line 1 column 1 (char 0)"
       end;
     json_dumps := json_text;
     unquote c := c;
     b64decode c := table_get (base64_texts s) c;
     zlib_decompress b := bytes_get (deflated s) b;
     bytes_decode b := bytes_get (utf8_texts s) b |}.

(** A bare graph model whose only cell has a geometry that is no number. *)
Definition bad_geometry_xml : string :=
  "<mxGraphModel><root><mxCell id='2' value='A' vertex='1'><mxGeometry x='abc' as='geometry'/></mxCell></root></mxGraphModel>".

Definition bad_geometry_tree : Element :=
  Elem "mxGraphModel" [] None
    [Elem "root" [] None
       [Elem "mxCell" [("id", "2"); ("value", "A"); ("vertex", "1")] None
          [Elem "mxGeometry" [("x", "abc"); ("as", "geometry")] None []]]].

(** A JSON document that is a list, not an object. *)
Definition list_json : string := "[]".

Definition faulty_samples : samples :=
  {| xml_documents := [(bad_geometry_xml, bad_geometry_tree)];
     json_documents := [(list_json, PList [])];
     base64_texts := [];
     deflated := [];
     utf8_texts := [] |}.

Definition raises_only {A : Type} (P : exn -> Prop) (m : exc A) : Prop :=
  forall e, m = Raise e -> P e.

Definition is_value_error (e : exn) : Prop := e = ValueError.
Definition is_lookup_error (e : exn) : Prop := e = AttributeError \/ e = TypeError.

(** A graph model of two nodes and an edge, as plain XML; the same text
    deflated and Base64-encoded, as draw.io stores it; and what the
    decoding steps of Python make of the two. *)
Definition plain_payload : string :=
  "<mxGraphModel><root><mxCell id='0'/><mxCell id='1' parent='0'/><mxCell id='2' value='A' vertex='1' parent='1'/><mxCell id='3' value='B' vertex='1' parent='1'/><mxCell id='4' value='to' edge='1' parent='1' source='2' target='3'/></root></mxGraphModel>".





Definition cell (a : list (string * string)) : Element := Elem "mxCell" a None [].

Definition payload_tree : Element :=
  Elem "mxGraphModel" [] None
    [Elem "root" [] None
       [cell [("id", "0")];
        cell [("id", "1"); ("parent", "0")];
        cell [("id", "2"); ("value", "A"); ("vertex", "1"); ("parent", "1")];
        cell [("id", "3"); ("value", "B"); ("vertex", "1"); ("parent", "1")];
        cell [("id", "4"); ("value", "to"); ("edge", "1"); ("parent", "1");
              ("source", "2"); ("target", "3")]]].

(** A container with one diagram whose payload is the given text. *)
Definition container (payload : string) : Element :=
  Elem "mxfile" [] None [Elem "diagram" [("name", "P")] (Some payload) []].



(** An Excalidraw document with a single text element labelled Hello. *)
Definition hello_document : pyval :=
  PDict [("type", PStr "excalidraw"); ("version", PInt 2);
         ("elements",
          PList [PDict [("id", PStr "n1"); ("type", PStr "text"); ("text", PStr "Hello");
                        ("x", PInt 0); ("y", PInt 0); ("width", PInt 100);
                        ("height", PInt 25)]])].

(** A rectangle with Hello as its bound text. *)
Definition hello_box_document : pyval :=
  PDict [("elements",
          PList [PDict [("id", PStr "r1"); ("type", PStr "rectangle");
                        ("x", PInt 0); ("y", PInt 0); ("width", PInt 120);
                        ("height", PInt 60);
                        ("boundElements", PList [PDict [("type", PStr "text"); ("id", PStr "t1")]])];
                 PDict [("id", PStr "t1"); ("type", PStr "text"); ("text", PStr "Hello");
                        ("containerId", PStr "r1")]])].

(** The [value] attributes of the cells of a draw.io tree that carry one,
    and its cells with an [edge] attribute. *)
Definition cell_values (t : Element) : list string :=
  flat_map (fun c => match attr c "value" with Some v => [v] | None => [] end)
           (iter "mxCell" t).

Definition edge_cells (t : Element) : list Element :=
  filter (fun c => match attr c "edge" with Some _ => true | None => false end)
         (iter "mxCell" t).

(** Excalidraw to draw.io, from the parsed JSON to the element tree. *)
Definition excalidraw_to_drawio (data : pyval) : exc Element :=
  doc <- read_data data ;;
  drawio_tree (x_nodes doc) (x_edges doc) "Page-1".

(** A node that states its position and size, the size not negative. *)
Definition placed_node (n : pydict) (b : box) : Prop :=
  dict_get n "x" = Some (PNum (bx b)) /\ dict_get n "y" = Some (PNum (by_ b)) /\
  dict_get n "width" = Some (PNum (bw b)) /\ dict_get n "height" = Some (PNum (bh b)) /\
  0 <= qw b /\ 0 <= qh b.




(** Two placed nodes and an edge between them that states its own position
    and waypoints. *)
Definition number_node (id : string) (x y w h : Z) : pydict :=
  [("id", PStr id); ("x", PInt x); ("y", PInt y); ("width", PInt w); ("height", PInt h)].

Definition placed_nodes : list pydict :=
  [number_node "a" 0 0 100 50; number_node "b" 300 0 100 50].



Definition box_a : box := {| bx := NInt 0; by_ := NInt 0; bw := NInt 100; bh := NInt 50 |}.
Definition box_b : box := {| bx := NInt 300; by_ := NInt 0; bw := NInt 100; bh := NInt 50 |}.


(** ** Shape of the parsed documents *)




(** The geometry the draw.io reader gives a node: none, or four floats. *)
Definition read_geo (geo : pydict) : Prop :=
  geo = [] \/
  exists x y w h, geo = [("x", PFloat x); ("y", PFloat y); ("width", PFloat w);
                         ("height", PFloat h)].

(** The nodes and edges the draw.io reader produces. *)
Definition drawio_node (n : pydict) : Prop :=
  exists id value style geo,
    n = mk_node id value style geo /\ id <> "0" /\ id <> "1" /\ read_geo geo.

Definition drawio_edge (e : pydict) : Prop :=
  exists id s t value style,
    e = mk_edge id s t value style /\ id <> "0" /\ id <> "1" /\ s <> "" /\ t <> "".


Definition drawio_diagram (d : Diagram) : Prop :=
  Forall drawio_node (d_nodes d) /\ Forall drawio_edge (d_edges d).




Definition edge_attrib (id value style s t : string) : list (string * string) :=
  [("id", id); ("value", value); ("style", style); ("edge", "1"); ("parent", "1");
   ("source", s); ("target", t)].





(** The nodes and edges the Excalidraw reader produces. *)
Definition x_text_node (n : pydict) : Prop :=
  exists id tx x y w h,
    n = [("id", id); ("type", PStr "text"); ("text", tx); ("x", x); ("y", y);
         ("width", w); ("height", h)] /\ truthy tx = true.

Definition x_shape_node (n : pydict) : Prop :=
  exists id ty x y w h bg stroke bound,
    n = [("id", id); ("type", ty); ("x", x); ("y", y); ("width", w); ("height", h);
         ("backgroundColor", bg); ("strokeColor", stroke); ("boundElements", bound)] /\
    eq_str ty "arrow" = false /\ eq_str ty "line" = false /\ eq_str ty "text" = false.

Definition x_node (n : pydict) : Prop := x_text_node n \/ x_shape_node n.

Definition x_edge (e : pydict) : Prop :=
  exists id ty s t p,
    e = [("id", id); ("type", ty); ("source", s); ("target", t); ("points", p)] /\
    (ty = PStr "arrow" \/ ty = PStr "line").


(** A binding of a generated arrow. *)
Definition binding_shape (b : pyval) : Prop :=
  b = PNone \/ exists s f, b = PDict [("elementId", s); ("focus", f); ("gap", PInt 8)].

(** Two elements that differ at most in their bound elements. *)
Definition same_but_bound (m m' : pydict) : Prop :=
  forall k, k <> "boundElements" -> dict_get m' k = dict_get m k.



Definition edge_id (e : pydict) : pyval := get e "id".

(** ** Documents read, written and read again *)

(** A rectangle, a text, and a line from the one to the other. *)
Definition line_document : pyval :=
  PDict [("type", PStr "excalidraw"); ("version", PInt 2);
         ("elements",
          PList [PDict [("id", PStr "r1"); ("type", PStr "rectangle");
                        ("x", PInt 0); ("y", PInt 0); ("width", PInt 120);
                        ("height", PInt 60)];
                 PDict [("id", PStr "t1"); ("type", PStr "text"); ("text", PStr "Hello");
                        ("x", PInt 300); ("y", PInt 0); ("width", PInt 100);
                        ("height", PInt 25)];
                 PDict [("id", PStr "l1"); ("type", PStr "line");
                        ("x", PInt 120); ("y", PInt 30);
                        ("points", PList [pt (NInt 0) (NInt 0); pt (NInt 180) (NInt 0)]);
                        ("startBinding", PDict [("elementId", PStr "r1")]);
                        ("endBinding", PDict [("elementId", PStr "t1")])]])].

Definition line_json : string := json_text line_document.

(** The document [_create_excalidraw_json] serialises for what was read
    from [data] (the clock at one second), and the tree [_create_drawio_xml] serialises for what was
    read from the graph model [g]. *)
Definition first_second : Z := 1000.

Definition excalidraw_written (data : pyval) : pyval :=
  match (doc <- read_data data ;;
         excalidraw_elements first_second sample_id sample_int (x_nodes doc) (x_edges doc)) with
  | Return els => excalidraw_document els
  | Raise _ => PNone
  end.

Definition drawio_written (g : Element) : Element :=
  match ('(ns, es) <- _parse_drawio_mxgraphmodel g ;; drawio_tree ns es "Page-1") with
  | Return t => t
  | Raise _ => g
  end.

Definition round_trip_samples : samples :=
  {| xml_documents :=
       [(plain_payload, payload_tree);
        (xml_text (drawio_written payload_tree), drawio_written payload_tree)];
     json_documents :=
       [(line_json, line_document);
        (json_text (excalidraw_written line_document), excalidraw_written line_document)];
     base64_texts := [];
     deflated := [];
     utf8_texts := [] |}.


Definition nodes_read (r : exc (read_result excalidraw_doc)) : list pydict :=
  match r with
  | Return (ReadOk doc) => x_nodes doc
  | _ => []
  end.


Section Again.

Variable lib : pylib.
Variable timestamp : Z.
Variable gen_id : site -> nat -> string.
Variable randint : site -> nat -> Z.


End Again.

(** What the two readers make of the example documents. *)
Definition sample_drawio_doc : drawio_doc :=
  match _read_drawio (lib_of round_trip_samples) plain_payload with
  | Return (ReadOk doc) => doc
  | _ => summarize []
  end.

Definition sample_excalidraw_doc : excalidraw_doc :=
  match read_data line_document with
  | Return doc => doc
  | Raise _ =>
      {| x_nodes := []; x_edges := []; x_text_content := []; x_app_state := PDict [];
         x_element_count := 0; x_node_count := 0; x_edge_count := 0;
         x_version := PStr "unknown" |}
  end.

(** The items of a diagram, nodes before edges, and the label of an item. *)
Definition items_of (d : Diagram) : list pydict := d_nodes d ++ d_edges d.

Definition label_of (item : pydict) : pyval := get item "label".

(** The label [v] is the label of an item of one of the diagrams. *)
Definition labels (ds : list Diagram) (v : pyval) : Prop :=
  exists d item, In d ds /\ In item (items_of d) /\ label_of item = v.

Definition string_label (item : pydict) : Prop := exists v, label_of item = PStr v.

(** ** Conversion examples *)

(** An Excalidraw document with a rectangle and an arrow that starts at no
    shape. *)
Definition loose_arrow_document : pyval :=
  PDict [("type", PStr "excalidraw"); ("version", PInt 2);
         ("elements",
          PList [PDict [("id", PStr "r1"); ("type", PStr "rectangle");
                        ("x", PInt 0); ("y", PInt 0); ("width", PInt 120);
                        ("height", PInt 60)];
                 PDict [("id", PStr "a1"); ("type", PStr "arrow");
                        ("x", PInt 200); ("y", PInt 30);
                        ("points", PList [pt (NInt 0) (NInt 0); pt (NInt 80) (NInt 0)]);
                        ("startBinding", PNone);
                        ("endBinding", PDict [("elementId", PStr "r1")])]])].

Definition loose_arrow_json : string := json_text loose_arrow_document.

Definition conversion_samples : samples :=
  {| xml_documents := [(plain_payload, payload_tree)];
     json_documents := [(loose_arrow_json, loose_arrow_document)];
     base64_texts := [];
     deflated := [];
     utf8_texts := [] |}.

Definition loose_arrow_doc : excalidraw_doc :=
  match read_data loose_arrow_document with
  | Return doc => doc
  | Raise _ => sample_excalidraw_doc
  end.

(** What the conversion of the example draw.io text to SVG writes. *)
Definition converted_svg : written :=
  match diagram_convert (lib_of conversion_samples) sample_time sample_id sample_int
          ".drawio" ".svg" plain_payload with
  | Converted out _ _ => out
  | _ => WText ""
  end.

(** An edge one of whose ends is [None]. *)
Definition loose_end (e : pydict) : Prop := get e "source" = PNone \/ get e "target" = PNone.

(** ** The drawing of a node in the SVG *)

(** Left, top, right and bottom of the shape drawn for a node: of a
    rectangle, of an ellipse, and of a diamond (its corners are listed as top,
    right, bottom, left). *)
Definition shape_box (p : svg_part) : option (Q * Q * Q * Q) :=
  match p with
  | SvgRect x y w h _ _ =>
      Some (numQ x, numQ y, numQ x + numQ w, numQ y + numQ h)
  | SvgEllipse cx cy rx ry _ _ =>
      Some (numQ cx - numQ rx, numQ cy - numQ ry, numQ cx + numQ rx, numQ cy + numQ ry)
  | SvgPolygon [p_top; p_right; p_bottom; p_left] _ _ =>
      Some (numQ (fst p_left), numQ (snd p_top), numQ (fst p_right), numQ (snd p_bottom))
  | _ => None
  end.

Definition is_shape (p : svg_part) : bool :=
  match p with
  | SvgRect _ _ _ _ _ _ | SvgEllipse _ _ _ _ _ _ | SvgPolygon _ _ _ => true
  | _ => false
  end.

Definition is_line (p : svg_part) : bool :=
  match p with
  | SvgLine _ _ _ _ => true
  | _ => false
  end.

(** The text written for the label of a node or of an edge. *)
Definition is_label (p : svg_part) : bool :=
  match p with
  | SvgNodeLabel _ _ _ | SvgEdgeLabel _ _ _ => true
  | _ => false
  end.

(** The size of the canvas, from the opening tag. *)
Definition canvas (parts : list svg_part) : option (Q * Q) :=
  match parts with
  | _ :: SvgOpen view_width view_height :: _ => Some (numQ view_width, numQ view_height)
  | _ => None
  end.

(** The node states the field, as a number. *)
Definition states (n : pydict) (k : string) (v : pynum) : Prop :=
  exists x, dict_get n k = Some x /\ as_num x = Return v.

(** The parts drawn for a node within a canvas: a shape first, then no
    further shape; the shape keeps the padding to the left and to the top,
    and to the right and to the bottom if the node states its position. *)
Definition drawn_inside (view_width view_height : Q) (n : pydict)
    (node_parts : list svg_part) : Prop :=
  exists shape rest l t r b,
    node_parts = shape :: rest /\ is_shape shape = true /\
    Forall (fun p => is_shape p = false /\ is_line p = false) rest /\
    shape_box shape = Some (l, t, r, b) /\
    50 <= l /\ 50 <= t /\
    ((exists x, states n "x" x) -> r + 50 <= view_width) /\
    ((exists y, states n "y" y) -> b + 50 <= view_height).

(** ** SVG parsing *)

(** What [_read_svg] reports. *)
Record svg_doc : Type := {
  s_width : string;
  s_height : string;
  s_viewbox : string;
  s_text_content : list string;
  s_shape_counts : list (string * nat);
  s_total_elements : nat
}.

Fixpoint has_brace (s : string) : bool :=
  match s with
  | EmptyString => false
  | String c r => Ascii.eqb c "}" || has_brace r
  end.

(** [tag.split('}')[-1]]: what follows the last closing brace. *)
Fixpoint local_name (t : string) : string :=
  match t with
  | EmptyString => EmptyString
  | String c r =>
      if has_brace r then local_name r
      else if Ascii.eqb c "}" then r else t
  end.

Definition shape_tags : list string :=
  ["rect"; "circle"; "ellipse"; "line"; "polyline"; "polygon"; "path"; "text"; "g"].

Definition is_shape_tag (t : string) : bool := existsb (String.eqb t) shape_tags.

(** [shape_counts[t] = shape_counts.get(t, 0) + 1]; a new key goes to the
    end. *)
Fixpoint bump (t : string) (counts : list (string * nat)) : list (string * nat) :=
  match counts with
  | [] => [(t, 1%nat)]
  | (k, n) :: r => if String.eqb k t then (k, S n) :: r else (k, n) :: bump t r
  end.

(** One turn of the loop that counts the shapes. *)
Definition count_step (counts : list (string * nat)) (e : Element) : list (string * nat) :=
  let t := local_name (tag e) in
  if is_shape_tag t then bump t counts else counts.

Definition count_shapes (elems : list Element) : list (string * nat) :=
  fold_left count_step elems [].

(** [text_content.append(...)] followed by [list(set(text_content))]; the
    order of a Python set is unspecified, the model keeps the order of first
    occurrence. *)
Definition add_text (s : list string) (v : string) : list string :=
  if existsb (String.eqb v) s then s else s ++ [v].

(** [elem.text and elem.text.strip()] *)
Definition shown_text (e : Element) : option string :=
  match text e with
  | Some s => if negb (String.eqb s "") && negb (String.eqb (strip s) "")
              then Some (strip s) else None
  | None => None
  end.

(** One turn of the loop that collects the texts. *)
Definition text_step (texts : list string) (e : Element) : list string :=
  match shown_text e with
  | Some s => add_text texts s
  | None => texts
  end.

Definition collect_svg_text (elems : list Element) : list string :=
  fold_left text_step elems [].

Definition sum_values (counts : list (string * nat)) : nat :=
  fold_left (fun n kv => (n + snd kv)%nat) counts O.

Definition read_svg_root (root : Element) : svg_doc :=
  let shape_counts := count_shapes (iter_all root) in
  {| s_width := attr_or root "width" "unknown";
     s_height := attr_or root "height" "unknown";
     s_viewbox := attr_or root "viewBox" "";
     s_text_content := collect_svg_text (iter_all root);
     s_shape_counts := shape_counts;
     s_total_elements := sum_values shape_counts |}.

Definition _read_svg (lib : pylib) (content : string) : read_result svg_doc :=
  match ET_fromstring lib content with
  | Malformed e => ReadError ("Invalid SVG: " ++ e)
  | Parsed root => ReadOk (read_svg_root root)
  end.

(** The number recorded for a tag, 0 if there is none, and the elements
    with a given local name. *)
Definition count_of (counts : list (string * nat)) (t : string) : nat :=
  match table_get counts t with
  | Some n => n
  | None => O
  end.

Definition named (t : string) (e : Element) : bool := String.eqb (local_name (tag e)) t.

Definition counted (e : Element) : bool := is_shape_tag (local_name (tag e)).

(** An SVG with a namespace: a group with a rectangle, and two texts, one
    of them blank. *)
Definition sample_svg : Element :=
  Elem "{http://www.w3.org/2000/svg}svg" [("width", "200"); ("height", "100")] None
    [Elem "{http://www.w3.org/2000/svg}g" [] None
       [Elem "{http://www.w3.org/2000/svg}rect" [("width", "10")] None []];
     Elem "{http://www.w3.org/2000/svg}text" [] (Some " Hello ") [];
     Elem "{http://www.w3.org/2000/svg}text" [] (Some "  ") [];
     Elem "{http://www.w3.org/2000/svg}desc" [] (Some "Hello") []].

Definition sample_svg_text : string :=
  "<svg xmlns='http://www.w3.org/2000/svg' width='200' height='100'><g><rect width='10'/></g><text> Hello </text><text>  </text><desc>Hello</desc></svg>".

Definition svg_samples : samples :=
  {| xml_documents := [(sample_svg_text, sample_svg)];
     json_documents := [];
     base64_texts := [];
     deflated := [];
     utf8_texts := [] |}.

(** ** The writing tool *)

(** What [diagram_write] returns: the success record with what was written
    to the file, the error of [json.loads], the refusal of a suffix, or the
    error object of one of its two handlers. *)
Inductive write_report : Type :=
| Wrote (out : written) (format : string) (node_count edge_count : nat)
| WriteInvalid (msg : string)
| WriteUnsupported (suffix : string)
| WriteFailed.

(** The nodes or edges a generator loops over, each read with [.get]:
    iterating what is no sequence raises [TypeError], [.get] on what is no
    dictionary raises [AttributeError]. *)
Definition dicts_of (v : pyval) : exc (list pydict) :=
  items <- py_iter v ;;
  for_each (fun x => match x with
                     | PDict d => Return d
                     | _ => Raise AttributeError
                     end) items.

(** [suffix.lstrip('.')] *)
Fixpoint lstrip_dots (s : string) : string :=
  match s with
  | String c r => if Ascii.eqb c "." then lstrip_dots r else s
  | EmptyString => EmptyString
  end.

(** [name or "Page-1"] *)
Definition page_name (name : option string) : string :=
  match name with
  | Some n => if String.eqb n "" then "Page-1" else n
  | None => "Page-1"
  end.

Section Write.

Variable lib : pylib.
Variable timestamp : Z.
Variable gen_id : site -> nat -> string.
Variable randint : site -> nat -> Z.

(** [diagram_write] for a path inside the project directory with the given
    lower-cased suffix, on a file system that accepts the file.  An exception
    of a generator ends in one of the two handlers; which generator step
    raises first is not told apart. *)
Definition diagram_write (suffix nodes edges : string) (name : option string)
  : write_report :=
  match json_loads lib nodes with
  | Malformed e => WriteInvalid ("Invalid JSON: " ++ e)
  | Parsed nodes_list =>
      match json_loads lib edges with
      | Malformed e => WriteInvalid ("Invalid JSON: " ++ e)
      | Parsed edges_list =>
          let finish (content : list pydict -> list pydict -> exc written) :=
            match (ns <- dicts_of nodes_list ;;
                   es <- dicts_of edges_list ;;
                   out <- content ns es ;;
                   Return (out, length ns, length es)) with
            | Return (out, n, e) => Wrote out (lstrip_dots suffix) n e
            | Raise _ => WriteFailed
            end in
          if is_drawio_ext suffix then
            finish (fun ns es =>
                      c <- _create_drawio_xml lib ns es (page_name name) ;;
                      Return (WText c))
          else if String.eqb suffix ".excalidraw" then
            finish (fun ns es =>
                      c <- _create_excalidraw_json timestamp gen_id randint lib ns es ;;
                      Return (WText c))
          else if String.eqb suffix ".svg" then
            finish (fun ns es =>
                      parts <- _create_svg ns es (NInt 800) (NInt 600) ;;
                      Return (WSvg parts))
          else WriteUnsupported suffix
      end
  end.

End Write.

(** The JSON texts of the nodes and the edges of the example document. *)
Definition sample_nodes_json : string := json_text (PList (map PDict sample_nodes)).
Definition sample_edges_json : string := json_text (PList [PDict sample_edge]).

Definition write_samples : samples :=
  {| xml_documents := [(bad_geometry_xml, bad_geometry_tree); (sample_svg_text, sample_svg)];
     json_documents := [(sample_nodes_json, PList (map PDict sample_nodes));
                        (sample_edges_json, PList [PDict sample_edge]);
                        (list_json, PList []);
                        ("7", PInt 7)];
     base64_texts := [];
     deflated := [];
     utf8_texts := [] |}.

(** The nodes and edges read from the example draw.io text, and their JSON. *)
Definition read_nodes : list pydict := concat (map d_nodes (diagrams sample_drawio_doc)).
Definition read_edges : list pydict := concat (map d_edges (diagrams sample_drawio_doc)).
Definition read_nodes_json : string := json_text (PList (map PDict read_nodes)).
Definition read_edges_json : string := json_text (PList (map PDict read_edges)).

Definition reread_samples : samples :=
  {| xml_documents := [(plain_payload, payload_tree)];
     json_documents := [(read_nodes_json, PList (map PDict read_nodes));
                        (read_edges_json, PList (map PDict read_edges))];
     base64_texts := [];
     deflated := [];
     utf8_texts := [] |}.

(** The geometry written for the node at index [i] when none is read. *)
Definition default_geometry (i : nat) : pydict :=
  [("x", PStr (str_int (Z.of_nat i * 150))); ("y", PStr "100"); ("width", PStr "120");
   ("height", PStr "60"); ("as", PStr "geometry")].

(** ** Bindings of the arrows in an Excalidraw document *)

(** A binding to the element [s], as the generator writes it. *)
Definition binding_to (b s : pyval) : Prop :=
  exists f, b = PDict [("elementId", s); ("focus", f); ("gap", PInt 8)].

(** The element is bound, at its start or at its end, to [s]. *)
Definition binds_to (a : pydict) (s : pyval) : Prop :=
  binding_to (get a "startBinding") s \/ binding_to (get a "endBinding") s.

(** The element has no binding of its own. *)
Definition unbound (a : pydict) : Prop :=
  get a "startBinding" = PNone /\ get a "endBinding" = PNone.

(** The elements written for the example with the line, and the arrow
    among them. *)
Definition line_elements : list pydict :=
  match excalidraw_elements first_second sample_id sample_int
          (x_nodes sample_excalidraw_doc) (x_edges sample_excalidraw_doc) with
  | Return els => els
  | Raise _ => []
  end.

Definition line_arrow : pydict := nth 2 line_elements [].

(** ** Edges in a draw.io file *)

(** An edge given by strings: id, ends, label and style as the draw.io
    generator reads them for the edge at index [i]. *)
Definition string_edge (i : nat) (e : pydict) (id s t value style : string) : Prop :=
  get_or e "id" (PStr ("edge-" ++ str_nat (i + 100))) = PStr id /\
  get_or e "source" (PStr "") = PStr s /\ get_or e "target" (PStr "") = PStr t /\
  get_or e "label" (PStr "") = PStr value /\
  get_or e "style"
    (PStr "edgeStyle=orthogonalEdgeStyle;rounded=0;orthogonalLoop=1;jettySize=auto;html=1;")
    = PStr style.

(** The geometry read from a cell whose [mxGeometry] states no number. *)
Definition zero_geometry : pydict :=
  [("x", PFloat 0); ("y", PFloat 0); ("width", PFloat 0); ("height", PFloat 0)].

(** A document that is XML but no draw.io file. *)
Definition foreign_xml : string := "<html><body>text</body></html>".
Definition foreign_tree : Element :=
  Elem "html" [] None [Elem "body" [] (Some "text") []].

Definition foreign_samples : samples :=
  {| xml_documents := [(foreign_xml, foreign_tree)];
     json_documents := [];
     base64_texts := [];
     deflated := [];
     utf8_texts := [] |}.

(** ** Numbers within the range of the float arithmetic

    An [int] that meets a float in an operation, or that is divided by 2,
    is converted to a binary64 float; beyond the range of the format the
    conversion raises [OverflowError].  The number model has no such outcome,
    so the statements about the SVG generator and about the anchors are made
    for ints within [int_bound]. *)

Definition int_bound : Z := 2 ^ 40.

(** A float, or an int within the bound. *)
Definition within_bound (n : pynum) : Prop :=
  match n with
  | NInt z => (Z.abs z <= int_bound)%Z
  | NFloat _ => True
  end.

(** An int within the bound.  The sums, differences and halves that the
    generators form of a few such ints are binary64 floats, so the float
    arithmetic on them is exact. *)
Definition small_int (n : pynum) : Prop :=
  exists z, n = NInt z /\ (Z.abs z <= int_bound)%Z.

(** The field is a number with the property [P] when the dictionary has
    it. *)
Definition field_is (P : pynum -> Prop) (d : pydict) (k : string) : Prop :=
  match dict_get d k with
  | Some v => exists n, as_num v = Return n /\ P n
  | None => True
  end.

(** A node whose position and size are numbers with the property [P] and
    whose id can be hashed, where given. *)
Definition node_with (P : pynum -> Prop) (n : pydict) : Prop :=
  field_is P n "x" /\ field_is P n "y" /\
  field_is P n "width" /\ field_is P n "height" /\
  hashable (get n "id") = true.

(** A box whose position and size are ints within the bound. *)
Definition small_box (b : box) : Prop :=
  small_int (bx b) /\ small_int (by_ b) /\ small_int (bw b) /\ small_int (bh b).

(** ** Sides of the anchors *)

(** The side is none of the four names: no side is given, or the side is
    [auto]. *)
Definition no_side (side : pyval) : Prop :=
  eq_str side "top" = false /\ eq_str side "bottom" = false /\
  eq_str side "left" = false /\ eq_str side "right" = false.

(** The rule of the end anchor, which takes the edge of the target that
    faces the source: the left or right edge when [|dx| > |dy|] (left when
    [dx > 0]), the top or bottom edge otherwise (top when [dy > 0]). *)
Definition faces_source (p : pynum * pynum) (b : box) (dx dy : pynum) : Prop :=
  if Qlt_le_dec (Qabs (numQ dy)) (Qabs (numQ dx))
  then (if Qlt_le_dec 0 (numQ dx) then at_left p b else at_right p b)
  else (if Qlt_le_dec 0 (numQ dy) then at_top p b else at_bottom p b).

(** ** Strings of ASCII characters

    A string of the model is a sequence of 8-bit characters; a character
    outside ASCII takes several of them.  On a string of ASCII characters
    [len] is the length of the sequence and [str.strip] removes the white
    space [is_space] knows. *)

Fixpoint ascii_only (s : string) : bool :=
  match s with
  | EmptyString => true
  | String c r => (nat_of_ascii c <? 128)%nat && ascii_only r
  end.

(** Every text of the tree is a string of ASCII characters. *)
Definition ascii_texts (root : Element) : Prop :=
  Forall (fun e => forall s, text e = Some s -> ascii_only s = true) (iter_all root).

(** ** An edge that starts at no node *)


(** ** Binary64 arithmetic

    The number model above takes a float for the rational it denotes.  Where
    a property depends on the rounding of a product or on the range of the
    format, the function is modelled again over IEEE 754 binary64 numbers,
    with the operations of [SpecFloat] at precision 53 and maximal exponent
    1024: rounding to nearest, ties to even. *)

Module Binary64.

Definition prec : Z := 53.
Definition emax : Z := 1024.

(** A Python number: an [int] of any size or a [float]. *)
Inductive number : Type :=
| Int (z : Z)
| Float (f : spec_float).

(** The arithmetic of the curved path raises nothing but [OverflowError]. *)
Inductive outcome (A : Type) : Type :=
| Value (a : A)
| OverflowError.
Arguments Value {A} a.
Arguments OverflowError {A}.

Definition and_then {A B : Type} (m : outcome A) (k : A -> outcome B) : outcome B :=
  match m with
  | Value a => k a
  | OverflowError => OverflowError
  end.

Notation "x <-- m ;; k" := (and_then m (fun x => k))
  (at level 61, m at next level, right associativity).

(** The float nearest to [m * 2 ^ e]; [OverflowError] when that is beyond
    the largest float. *)
Definition rounded (m e : Z) : outcome spec_float :=
  match binary_normalize prec emax m e false with
  | S754_infinity _ => OverflowError
  | f => Value f
  end.

(** The conversion of an operand to [float]: [float(z)] for an [int]. *)
Definition to_float (n : number) : outcome spec_float :=
  match n with
  | Int z => rounded z 0
  | Float f => Value f
  end.

(** The floats [2.0] and [0.2]; the latter is
    [7205759403792794 * 2 ^ -55], the float nearest to one fifth and a
    little above it. *)
Definition two : spec_float := S754_finite false 4503599627370496 (-51).
Definition fifth : spec_float := S754_finite false 7205759403792794 (-55).

(** [n / 2]: the quotient of an [int] by 2 is rounded once, from the exact
    value; a [float] is divided by [2.0]. *)
Definition halve (n : number) : outcome spec_float :=
  match n with
  | Int z => rounded z (-1)
  | Float f => Value (SFdiv prec emax f two)
  end.

(** [abs(n)] *)
Definition abs (n : number) : number :=
  match n with
  | Int z => Int (Z.abs z)
  | Float f => Float (SFabs f)
  end.

Definition signed (s : bool) (m : positive) : Z := if s then Zneg m else Zpos m.

(** An [int] is compared with a [float] by value, without conversion. *)
Definition compare_int_float (x : Z) (f : spec_float) : option comparison :=
  match f with
  | S754_nan => None
  | S754_infinity s => Some (if s then Gt else Lt)
  | S754_zero _ => Some (x ?= 0)%Z
  | S754_finite s m e =>
      Some (match e with
            | Zneg p => (x * 2 ^ Zpos p ?= signed s m)%Z
            | _ => (x ?= signed s m * 2 ^ e)%Z
            end)
  end.

Definition compare (a b : number) : option comparison :=
  match a, b with
  | Int x, Int y => Some (x ?= y)%Z
  | Float f, Float g => SFcompare f g
  | Int x, Float g => compare_int_float x g
  | Float f, Int y => option_map CompOpp (compare_int_float y f)
  end.

(** [a > b]; false when one of them is NaN. *)
Definition gt (a b : number) : bool :=
  match compare a b with
  | Some Gt => true
  | _ => false
  end.

(** [max(a, b)]: the first argument wins a tie. *)
Definition max (a b : number) : number := if gt b a then b else a.

(** [a * c] for a float [c]: an [int] is converted first. *)
Definition times (a : number) (c : spec_float) : outcome spec_float :=
  f <-- to_float a ;; Value (SFmul prec emax f c).

Definition point : Type := number * number.
Definition origin : point := (Int 0, Int 0).

Definition _generate_curved_points (dx dy : number) (curve_direction : pyval)
  : outcome (list point) :=
  mid_x <-- halve dx ;;
  mid_y <-- halve dy ;;
  offset <-- times (max (abs dx) (abs dy)) fifth ;;
  if eq_str curve_direction "up" then
    Value [origin; (Float mid_x, Float (SFsub prec emax mid_y offset)); (dx, dy)]
  else if eq_str curve_direction "down" then
    Value [origin; (Float mid_x, Float (SFadd prec emax mid_y offset)); (dx, dy)]
  else if eq_str curve_direction "left" then
    Value [origin; (Float (SFsub prec emax mid_x offset), Float mid_y); (dx, dy)]
  else if eq_str curve_direction "right" then
    Value [origin; (Float (SFadd prec emax mid_x offset), Float mid_y); (dx, dy)]
  else if gt (abs dx) (abs dy) then
    Value [origin; (Float mid_x, Float (SFadd prec emax mid_y offset)); (dx, dy)]
  else
    Value [origin; (Float (SFsub prec emax mid_x offset), Float mid_y); (dx, dy)].

(** A number within the range of the format: a float of the format, or an
    [int] that [float] converts. *)
Definition in_range (n : number) : Prop :=
  match n with
  | Int z => exists f, rounded z 0 = Value f
  | Float f => valid_binary prec emax f = true
  end.

(** The float of an [int] that it represents exactly. *)
Definition float_of (z : Z) : spec_float := binary_normalize prec emax z 0 false.

(** The result of a rounding is a float of the format or a zero, not an
    infinity. *)
Definition finite_result (f : spec_float) : Prop :=
  match f with
  | S754_infinity _ => False
  | _ => True
  end.

(** The rational a finite float denotes, in lowest terms. *)
Definition real (f : spec_float) : option Q :=
  match f with
  | S754_zero _ => Some 0%Q
  | S754_finite s m e =>
      Some (Qred (match e with
                  | Zneg p => signed s m # 2 ^ p
                  | _ => inject_Z (signed s m * 2 ^ e)
                  end))
  | _ => None
  end.

(** The middle point of a three-point path. *)
Definition middle (path : outcome (list point)) : option (spec_float * spec_float) :=
  match path with
  | Value [_; (Float x, Float y); _] => Some (x, y)
  | _ => None
  end.

End Binary64.

(** * Properties *)

(** ** Arithmetic of the number model *)

Lemma numQ_add (a b : pynum) : numQ (num_add a b) == numQ a + numQ b.
Proof.
  destruct a, b; simpl; first [reflexivity | unfold Qeq; simpl; lia].
Qed.

Lemma numQ_sub (a b : pynum) : numQ (num_sub a b) == numQ a - numQ b.
Proof.
  destruct a, b; simpl; first [reflexivity | unfold Qeq; simpl; lia].
Qed.

Lemma numQ_mul (a b : pynum) : numQ (num_mul a b) == numQ a * numQ b.
Proof.
  destruct a, b; simpl; first [reflexivity | unfold Qeq; simpl; lia].
Qed.

Lemma numQ_div (a b : pynum) : numQ (num_div a b) == numQ a / numQ b.
Proof. reflexivity. Qed.

Lemma numQ_half (a : pynum) : numQ (num_div a (NInt 2)) == numQ a / 2.
Proof. reflexivity. Qed.

Lemma numQ_abs (a : pynum) : numQ (num_abs a) == Qabs (numQ a).
Proof. destruct a; reflexivity. Qed.

Lemma num_gtb_lt (a b : pynum) : num_gtb a b = true <-> numQ b < numQ a.
Proof.
  unfold num_gtb. rewrite negb_true_iff, <- not_true_iff_false, Qle_bool_iff.
  split; intro H; [apply Qnot_le_lt | apply Qlt_not_le]; exact H.
Qed.

Lemma num_gtb_le (a b : pynum) : num_gtb a b = false <-> numQ a <= numQ b.
Proof.
  unfold num_gtb. rewrite negb_false_iff. apply Qle_bool_iff.
Qed.

Lemma numQ_max (a b : pynum) : numQ (num_max a b) == Qmax (numQ a) (numQ b).
Proof.
  unfold num_max. destruct (num_gtb b a) eqn:E.
  - apply num_gtb_lt in E. symmetry. apply Q.max_r. apply Qlt_le_weak, E.
  - apply num_gtb_le in E. symmetry. apply Q.max_l, E.
Qed.

Lemma gtb_abs (a b : pynum) :
  num_gtb (num_abs a) (num_abs b) = true <-> Qabs (numQ b) < Qabs (numQ a).
Proof. rewrite num_gtb_lt, !numQ_abs. reflexivity. Qed.

Lemma gtb_zero (a : pynum) : num_gtb a zero = true <-> 0 < numQ a.
Proof. apply num_gtb_lt. Qed.

(** ** Curved paths *)

(** *** The range of the format *)

Lemma Zdigits2_nonneg (m : Z) : (0 <= Zdigits2 m)%Z.
Proof. destruct m; simpl; lia. Qed.

Lemma fexp_high (x : Z) :
  (-1021 <= x)%Z -> fexp Binary64.prec Binary64.emax x = (x - 53)%Z.
Proof. intro H. unfold fexp, emin, Binary64.prec, Binary64.emax. lia. Qed.

(** Lowering the exponent by one moves the result of a shift by one. *)
Lemma shr_fexp_shift (m e : Z) (l : location) :
  (-1000 <= e)%Z ->
  exists r n, (0 <= n)%Z /\
    shr_fexp Binary64.prec Binary64.emax m e l = (r, (e + n)%Z) /\
    shr_fexp Binary64.prec Binary64.emax m (e - 1) l = (r, (e - 1 + n)%Z).
Proof.
  intro He. unfold shr_fexp.
  pose proof (Zdigits2_nonneg m) as Hd.
  rewrite !fexp_high by lia.
  replace (Zdigits2 m + e - 53 - e)%Z with (Zdigits2 m - 53)%Z by lia.
  replace (Zdigits2 m + (e - 1) - 53 - (e - 1))%Z with (Zdigits2 m - 53)%Z by lia.
  unfold shr. destruct (Zdigits2 m - 53)%Z as [|p|p].
  - exists (shr_record_of_loc m l), 0%Z. repeat split; try lia; f_equal; lia.
  - eexists _, (Zpos p). repeat split; try lia; reflexivity.
  - exists (shr_record_of_loc m l), 0%Z. repeat split; try lia; f_equal; lia.
Qed.

Lemma round_aux_shift (s : bool) (m e : Z) (l : location) :
  (-1000 <= e)%Z ->
  Binary64.finite_result (binary_round_aux Binary64.prec Binary64.emax s m e l) ->
  Binary64.finite_result (binary_round_aux Binary64.prec Binary64.emax s m (e - 1) l).
Proof.
  intros He. unfold binary_round_aux.
  destruct (shr_fexp_shift m e l He) as (r & n & Hn & -> & ->).
  set (m2 := round_nearest_even (shr_m r) (loc_of_shr_record r)).
  destruct (shr_fexp_shift m2 (e + n) loc_Exact ltac:(lia)) as (r2 & n2 & Hn2 & E1 & E2).
  replace (e - 1 + n)%Z with (e + n - 1)%Z by lia.
  rewrite E1, E2. destruct (shr_m r2); simpl; auto.
  destruct (Z.leb (e + n + n2) 971) eqn:L; simpl; [|intros []].
  intros _. apply Z.leb_le in L.
  destruct (Z.leb (e + n - 1 + n2) 971) eqn:L'; simpl; auto.
  apply Z.leb_gt in L'. lia.
Qed.

(** Halving a number that rounds to a float rounds to a float. *)
Lemma round_shift (s : bool) (m : positive) :
  Binary64.finite_result (binary_round Binary64.prec Binary64.emax s m 0) ->
  Binary64.finite_result (binary_round Binary64.prec Binary64.emax s m (-1)).
Proof.
  unfold binary_round.
  assert (Hd : (1 <= Zpos (digits2_pos m))%Z) by lia.
  rewrite !fexp_high by lia. unfold shl_align.
  replace (Z.pos (digits2_pos m) + 0 - 53 - 0)%Z with (Z.pos (digits2_pos m) - 53)%Z by lia.
  replace (Z.pos (digits2_pos m) + -1 - 53 - -1)%Z with (Z.pos (digits2_pos m) - 53)%Z by lia.
  destruct (Z.pos (digits2_pos m) - 53)%Z as [|p|p] eqn:E.
  - apply (round_aux_shift s (Zpos m) 0 loc_Exact). lia.
  - apply (round_aux_shift s (Zpos m) 0 loc_Exact). lia.
  - replace (Z.pos (digits2_pos m) + -1 - 53)%Z
      with (Z.pos (digits2_pos m) + 0 - 53 - 1)%Z by lia.
    apply round_aux_shift. lia.
Qed.

(** The sign plays no part in the range. *)
Lemma round_sign (s : bool) (m : positive) (e : Z) :
  Binary64.finite_result (binary_round Binary64.prec Binary64.emax s m e) ->
  Binary64.finite_result (binary_round Binary64.prec Binary64.emax (negb s) m e).
Proof.
  unfold binary_round, binary_round_aux.
  destruct (shl_align _ _ _) as [mz ez].
  destruct (shr_fexp _ _ _ _ _) as [r e1].
  destruct (shr_fexp _ _ _ _ _) as [r2 e2].
  destruct (shr_m r2); simpl; auto. destruct (Z.leb _ _); simpl; auto.
Qed.

Lemma rounded_finite (m e : Z) :
  (exists f, Binary64.rounded m e = Binary64.Value f) <->
  Binary64.finite_result (binary_normalize Binary64.prec Binary64.emax m e false).
Proof.
  unfold Binary64.rounded.
  destruct (binary_normalize Binary64.prec Binary64.emax m e false); simpl; split;
    try (intros; eexists; reflexivity); try tauto; intros [f H]; discriminate H.
Qed.

Lemma halve_in_range (n : Binary64.number) :
  Binary64.in_range n -> exists h, Binary64.halve n = Binary64.Value h.
Proof.
  destruct n as [z|f]; simpl; [|intros _; eexists; reflexivity].
  rewrite !rounded_finite. destruct z as [|m|m]; simpl; auto; apply round_shift.
Qed.

Lemma abs_in_range (n : Binary64.number) :
  Binary64.in_range n -> Binary64.in_range (Binary64.abs n).
Proof.
  destruct n as [z|f]; simpl.
  - rewrite !rounded_finite. destruct z as [|m|m]; simpl; auto.
    apply (round_sign true m 0).
  - destruct f; simpl; auto.
Qed.

Lemma max_in_range (a b : Binary64.number) :
  Binary64.in_range a -> Binary64.in_range b -> Binary64.in_range (Binary64.max a b).
Proof. intros Ha Hb. unfold Binary64.max. destruct (Binary64.gt b a); assumption. Qed.

Lemma times_in_range (n : Binary64.number) (c : spec_float) :
  Binary64.in_range n -> exists p, Binary64.times n c = Binary64.Value p.
Proof.
  unfold Binary64.times. destruct n as [z|f]; simpl.
  - intros [f ->]. simpl. eexists; reflexivity.
  - intros _. eexists; reflexivity.
Qed.

(** The range ends between [2 ^ 1023] and [2 ^ 1024]: the largest float is
    [2 ^ 1024 - 2 ^ 971], and an int from [2 ^ 1024 - 2 ^ 970] on has no
    float. *)
Lemma range_of_ints :
  Binary64.in_range (Binary64.Int (2 ^ 1024 - 2 ^ 970 - 1)) /\
  ~ Binary64.in_range (Binary64.Int (2 ^ 1024 - 2 ^ 970)) /\
  Binary64.in_range (Binary64.Int (- (2 ^ 1024 - 2 ^ 970 - 1))) /\
  ~ Binary64.in_range (Binary64.Int (10 ^ 400)).
Proof.
  repeat split.
  - eexists. vm_compute. reflexivity.
  - intros [f H]. vm_compute in H. discriminate H.
  - eexists. vm_compute. reflexivity.
  - intros [f H]. vm_compute in H. discriminate H.
Qed.

(** The claim of C4 fails in two ways.  For an int beyond the range of a
    float the function raises [OverflowError] and returns no path.  And the
    offset is the float product with the float 0.2, not a fifth of the
    larger distance: for (3, 0) the middle point is (1.5, 0.6000000000000001),
    the second coordinate being [1351079888211149 / 2 ^ 51], above 3/5 and not
    the float nearest to 3/5. *)
Lemma curved_points_overflow_and_rounding :
  Binary64._generate_curved_points (Binary64.Int (10 ^ 400)) (Binary64.Int 0) (PStr "auto")
    = Binary64.OverflowError /\
  exists x y,
    Binary64.middle
      (Binary64._generate_curved_points (Binary64.Int 3) (Binary64.Int 0) (PStr "auto"))
      = Some (x, y) /\
    Binary64.real x = Some (3 # 2) /\
    Binary64.real y = Some (1351079888211149 # 2251799813685248) /\
    3 # 5 < 1351079888211149 # 2251799813685248 /\
    y <> SFdiv Binary64.prec Binary64.emax (Binary64.float_of 3) (Binary64.float_of 5).
Proof.
  split; [vm_compute; reflexivity|].
  eexists _, _. split; [vm_compute; reflexivity|].
  split; [vm_compute; reflexivity|].
  split; [vm_compute; reflexivity|].
  split; [reflexivity|]. vm_compute. discriminate.
Qed.

(** C4, as amended. For all [dx], [dy] within the range of a float the
    curved path has three points, from the origin to [(dx, dy)]; its middle
    point is [(dx/2, dy/2)] moved by the offset [max(|dx|, |dy|) * 0.2], the
    float product with the float 0.2: up subtracts it from the vertical
    coordinate, down adds it, left subtracts it from the horizontal
    coordinate, right adds it, and auto adds it to the vertical coordinate
    when [|dx| > |dy|] and subtracts it from the horizontal one otherwise.
    For (100, 0) with auto the middle point is (50, 20), for (0, 100) it is
    (-20, 50). *)
Theorem curved_points_midpoint (dx dy : Binary64.number) :
  Binary64.in_range dx -> Binary64.in_range dy ->
  exists mid_x mid_y offset,
    Binary64.halve dx = Binary64.Value mid_x /\
    Binary64.halve dy = Binary64.Value mid_y /\
    Binary64.times (Binary64.max (Binary64.abs dx) (Binary64.abs dy)) Binary64.fifth
      = Binary64.Value offset /\
    (forall dir, exists m,
       Binary64._generate_curved_points dx dy dir
       = Binary64.Value [Binary64.origin; m; (dx, dy)]) /\
    Binary64.middle (Binary64._generate_curved_points dx dy (PStr "up"))
      = Some (mid_x, SFsub Binary64.prec Binary64.emax mid_y offset) /\
    Binary64.middle (Binary64._generate_curved_points dx dy (PStr "down"))
      = Some (mid_x, SFadd Binary64.prec Binary64.emax mid_y offset) /\
    Binary64.middle (Binary64._generate_curved_points dx dy (PStr "left"))
      = Some (SFsub Binary64.prec Binary64.emax mid_x offset, mid_y) /\
    Binary64.middle (Binary64._generate_curved_points dx dy (PStr "right"))
      = Some (SFadd Binary64.prec Binary64.emax mid_x offset, mid_y) /\
    Binary64.middle (Binary64._generate_curved_points dx dy (PStr "auto"))
      = Some (if Binary64.gt (Binary64.abs dx) (Binary64.abs dy)
              then (mid_x, SFadd Binary64.prec Binary64.emax mid_y offset)
              else (SFsub Binary64.prec Binary64.emax mid_x offset, mid_y)) /\
    Binary64.middle
      (Binary64._generate_curved_points (Binary64.Int 100) (Binary64.Int 0) (PStr "auto"))
      = Some (Binary64.float_of 50, Binary64.float_of 20) /\
    Binary64.middle
      (Binary64._generate_curved_points (Binary64.Int 0) (Binary64.Int 100) (PStr "auto"))
      = Some (Binary64.float_of (-20), Binary64.float_of 50) /\
    Binary64.real (Binary64.float_of 50) = Some 50 /\
    Binary64.real (Binary64.float_of 20) = Some 20 /\
    Binary64.real (Binary64.float_of (-20)) = Some (-20).
Proof.
  intros Hx Hy.
  destruct (halve_in_range dx Hx) as (mid_x & Ex).
  destruct (halve_in_range dy Hy) as (mid_y & Ey).
  destruct (times_in_range (Binary64.max (Binary64.abs dx) (Binary64.abs dy)) Binary64.fifth
              (max_in_range _ _ (abs_in_range _ Hx) (abs_in_range _ Hy))) as (offset & Eo).
  exists mid_x, mid_y, offset.
  split; [exact Ex|]. split; [exact Ey|]. split; [exact Eo|].
  unfold Binary64._generate_curved_points. rewrite Ex, Ey, Eo. cbn [Binary64.and_then].
  split.
  { intro dir.
    repeat match goal with |- context [if ?c then _ else _] => destruct c end;
      eexists; reflexivity. }
  repeat (split; [reflexivity|]).
  split; [destruct (Binary64.gt _ _); reflexivity|].
  repeat split; vm_compute; reflexivity.
Qed.

Lemma curved_points_midpoint_witness :
  exists mid_x mid_y offset,
    Binary64.halve (Binary64.Int 7) = Binary64.Value mid_x /\
    Binary64.halve (Binary64.Float (Binary64.float_of (-3))) = Binary64.Value mid_y /\
    Binary64.middle
      (Binary64._generate_curved_points (Binary64.Int 7)
         (Binary64.Float (Binary64.float_of (-3))) (PStr "up"))
      = Some (mid_x, SFsub Binary64.prec Binary64.emax mid_y offset).
Proof.
  destruct (curved_points_midpoint (Binary64.Int 7) (Binary64.Float (Binary64.float_of (-3))))
    as (mid_x & mid_y & offset & Ex & Ey & _ & _ & Eu & _).
  - eexists. vm_compute. reflexivity.
  - vm_compute. reflexivity.
  - exists mid_x, mid_y, offset. auto.
Defined.

(** ** Anchors *)

Lemma at_point_intro (a b : pynum) (x y : Q) :
  numQ a == x -> numQ b == y -> at_point (a, b) x y.
Proof. intros; split; assumption. Qed.

Lemma center_x_val (b : box) : numQ (center_x b) == qx b + qw b / 2.
Proof. unfold center_x. rewrite numQ_add, numQ_half. reflexivity. Qed.

Lemma center_y_val (b : box) : numQ (center_y b) == qy b + qh b / 2.
Proof. unfold center_y. rewrite numQ_add, numQ_half. reflexivity. Qed.

Lemma right_val (b : box) : numQ (num_add (bx b) (bw b)) == qx b + qw b.
Proof. apply numQ_add. Qed.

Lemma bottom_val (b : box) : numQ (num_add (by_ b) (bh b)) == qy b + qh b.
Proof. apply numQ_add. Qed.

Ltac anchor_point :=
  apply at_point_intro;
  first [ apply center_x_val | apply center_y_val | apply right_val
        | apply bottom_val | reflexivity ].

(** The automatic start anchor, for any side that is none of the four
    names: the right or left edge when [|dx| > |dy|], the bottom or top
    edge otherwise. *)
Lemma arrow_start_auto (side : pyval) (b : box) (dx dy : pynum) :
  eq_str side "bottom" = false -> eq_str side "top" = false ->
  eq_str side "left" = false -> eq_str side "right" = false ->
  let p := arrow_start side b dx dy in
  if Qlt_le_dec (Qabs (numQ dy)) (Qabs (numQ dx))
  then (if Qlt_le_dec 0 (numQ dx) then at_right p b else at_left p b)
  else (if Qlt_le_dec 0 (numQ dy) then at_bottom p b else at_top p b).
Proof.
  intros Hb Ht Hl Hr p. subst p. unfold arrow_start. rewrite Hb, Ht, Hl, Hr.
  destruct (num_gtb (num_abs dx) (num_abs dy)) eqn:E.
  - apply gtb_abs in E.
    destruct (Qlt_le_dec _ _) as [_|H]; [|exfalso; apply (Qlt_not_le _ _ E H)].
    destruct (num_gtb dx zero) eqn:F.
    + apply gtb_zero in F.
      destruct (Qlt_le_dec 0 _) as [_|H]; [|exfalso; apply (Qlt_not_le _ _ F H)].
      anchor_point.
    + destruct (Qlt_le_dec 0 _) as [H|_]; [apply gtb_zero in H; congruence|].
      anchor_point.
  - destruct (Qlt_le_dec _ _) as [H|_]; [apply gtb_abs in H; congruence|].
    destruct (num_gtb dy zero) eqn:F.
    + apply gtb_zero in F.
      destruct (Qlt_le_dec 0 _) as [_|H]; [|exfalso; apply (Qlt_not_le _ _ F H)].
      anchor_point.
    + destruct (Qlt_le_dec 0 _) as [H|_]; [apply gtb_zero in H; congruence|].
      anchor_point.
Qed.

(** The automatic end anchor faces the source: the left or right edge of
    the target when [|dx| > |dy|] (left when [dx > 0]), its top or bottom edge
    otherwise (top when [dy > 0]). *)
Lemma arrow_end_auto (side : pyval) (b : box) (dx dy : pynum) :
  eq_str side "top" = false -> eq_str side "bottom" = false ->
  eq_str side "left" = false -> eq_str side "right" = false ->
  let p := arrow_end side b dx dy in
  if Qlt_le_dec (Qabs (numQ dy)) (Qabs (numQ dx))
  then (if Qlt_le_dec 0 (numQ dx) then at_left p b else at_right p b)
  else (if Qlt_le_dec 0 (numQ dy) then at_top p b else at_bottom p b).
Proof.
  intros Ht Hb Hl Hr p. subst p. unfold arrow_end. rewrite Hb, Ht, Hl, Hr.
  destruct (num_gtb (num_abs dx) (num_abs dy)) eqn:E.
  - apply gtb_abs in E.
    destruct (Qlt_le_dec _ _) as [_|H]; [|exfalso; apply (Qlt_not_le _ _ E H)].
    destruct (num_gtb dx zero) eqn:F.
    + apply gtb_zero in F.
      destruct (Qlt_le_dec 0 _) as [_|H]; [|exfalso; apply (Qlt_not_le _ _ F H)].
      anchor_point.
    + destruct (Qlt_le_dec 0 _) as [H|_]; [apply gtb_zero in H; congruence|].
      anchor_point.
  - destruct (Qlt_le_dec _ _) as [H|_]; [apply gtb_abs in H; congruence|].
    destruct (num_gtb dy zero) eqn:F.
    + apply gtb_zero in F.
      destruct (Qlt_le_dec 0 _) as [_|H]; [|exfalso; apply (Qlt_not_le _ _ F H)].
      anchor_point.
    + destruct (Qlt_le_dec 0 _) as [H|_]; [apply gtb_zero in H; congruence|].
      anchor_point.
Qed.

(** The claim of C5 fails for the end anchor.  With the target 300 to the
    right of the source ([dx > 0], [|dx| > |dy|]) the automatic end anchor is
    the midpoint (300, 25) of the left edge of the target box, the edge that
    faces the source, and not the midpoint (400, 25) of its right edge. *)
Lemma end_anchor_faces_source :
  at_point (arrow_end (PStr "auto") box_b (NInt 300) (NInt 0)) 300 25 /\
  at_left (arrow_end (PStr "auto") box_b (NInt 300) (NInt 0)) box_b /\
  ~ at_right (arrow_end (PStr "auto") box_b (NInt 300) (NInt 0)) box_b.
Proof.
  split; [split; reflexivity|]. split; [split; reflexivity|].
  intros [H _]. vm_compute in H. discriminate H.
Qed.

(** C5, as amended. For a box of ints within the bound, on which the
    arithmetic of the anchors is exact: with an explicit
    side the anchor is the midpoint of that edge of the box, whatever the
    direction [(dx, dy)], for the start anchor on the source box and for the
    end anchor on the target box alike; for the box at (0, 0) of width 100 and
    height 50 the top anchor is (50, 0).  With any other side (none given, or
    auto) the start anchor is the midpoint of the right or left edge when
    [|dx| > |dy|] (right exactly when [dx > 0]) and of the bottom or top edge
    otherwise (bottom exactly when [dy > 0]); the end anchor is the midpoint
    of the mirrored edge, the left or right edge when [|dx| > |dy|] (left
    exactly when [dx > 0]) and the top or bottom edge otherwise (top exactly
    when [dy > 0]).  [|dx| = |dy|] falls in the second case of both. *)
Theorem anchor_resolution (b : box) (dx dy : pynum) :
  small_box b ->
  (at_top (arrow_start (PStr "top") b dx dy) b /\
   at_bottom (arrow_start (PStr "bottom") b dx dy) b /\
   at_left (arrow_start (PStr "left") b dx dy) b /\
   at_right (arrow_start (PStr "right") b dx dy) b) /\
  (at_top (arrow_end (PStr "top") b dx dy) b /\
   at_bottom (arrow_end (PStr "bottom") b dx dy) b /\
   at_left (arrow_end (PStr "left") b dx dy) b /\
   at_right (arrow_end (PStr "right") b dx dy) b) /\
  at_point (arrow_start (PStr "top") box_a dx dy) 50 0 /\
  at_point (arrow_end (PStr "top") box_a dx dy) 50 0 /\
  (forall side, no_side side ->
     faces_travel (arrow_start side b dx dy) b dx dy /\
     faces_source (arrow_end side b dx dy) b dx dy) /\
  no_side PNone /\ no_side (PStr "auto").
Proof.
  intros _.
  refine (conj (conj _ (conj _ (conj _ _)))
            (conj (conj _ (conj _ (conj _ _))) (conj _ (conj _ (conj _ (conj _ _))))));
    try (unfold arrow_start, arrow_end; simpl eq_str; cbv iota; anchor_point).
  - intros side (Ht & Hb & Hl & Hr). split.
    + apply arrow_start_auto; assumption.
    + apply arrow_end_auto; assumption.
  - repeat split.
  - repeat split.
Qed.

Lemma anchor_resolution_witness :
  faces_travel (arrow_start (PStr "auto") box_a (NInt 300) (NInt 0)) box_a (NInt 300) (NInt 0) /\
  faces_source (arrow_end (PStr "auto") box_b (NInt 300) (NInt 0)) box_b (NInt 300) (NInt 0).
Proof.
  assert (Ha : small_box box_a).
  { repeat split; eexists; (split; [reflexivity | vm_compute; discriminate]). }
  assert (Hb : small_box box_b).
  { repeat split; eexists; (split; [reflexivity | vm_compute; discriminate]). }
  split.
  - apply (proj1 (proj2 (proj2 (proj2 (proj2 (anchor_resolution box_a (NInt 300) (NInt 0) Ha)))))).
    repeat split.
  - apply (proj1 (proj2 (proj2 (proj2 (proj2 (anchor_resolution box_b (NInt 300) (NInt 0) Hb)))))).
    repeat split.
Defined.

(** ** Classification of draw.io cells *)

Lemma nonempty_true (o : option string) :
  nonempty o = true <-> exists s, o = Some s /\ s <> "".
Proof.
  destruct o as [s|]; simpl.
  - rewrite negb_true_iff, String.eqb_neq. split.
    + intro H. exists s. split; [reflexivity | exact H].
    + intros (s' & E & H). inversion E; subst; exact H.
  - split; [discriminate | intros (s & E & _); discriminate].
Qed.

Lemma both_ends_true (cell : Element) :
  nonempty (attr cell "source") && nonempty (attr cell "target") = true
  <-> has_both_ends cell.
Proof.
  rewrite andb_true_iff, !nonempty_true. unfold has_both_ends. split.
  - intros [(s & Es & Hs) (t & Et & Ht)]. exists s, t. auto.
  - intros (s & t & Es & Et & Hs & Ht). split; eauto.
Qed.

Lemma both_ends_false (cell : Element) :
  ~ has_both_ends cell ->
  nonempty (attr cell "source") && nonempty (attr cell "target") = false.
Proof.
  intro H. apply not_true_iff_false. intro E. apply H, both_ends_true, E.
Qed.

Lemma not_reserved_false (cell : Element) :
  ~ reserved cell ->
  String.eqb (attr_or cell "id" "") "0" || String.eqb (attr_or cell "id" "") "1" = false.
Proof.
  intro H. apply orb_false_iff. split; apply String.eqb_neq; intro E; apply H;
    [left | right]; exact E.
Qed.

(** C10. A cell yields an Edge only when it has both a source and a target,
    neither empty, and the Edge then carries both.  A cell that lacks one of
    them (or has it empty) and is not a root cell yields a Node when its
    value is not empty or its vertex flag is "1", and nothing otherwise; in
    neither case does it yield an Edge. *)
Theorem cell_classification (cell : Element) :
  (forall ns es e, parse_cell cell = Return (ns, es) -> In e es ->
     has_both_ends cell /\ ns = [] /\
     get e "source" = PStr (attr_or cell "source" "") /\
     get e "target" = PStr (attr_or cell "target" "")) /\
  (has_both_ends cell -> ~ reserved cell ->
     exists e, parse_cell cell = Return ([], [e]) /\
               get e "id" = PStr (attr_or cell "id" "")) /\
  (~ has_both_ends cell -> ~ reserved cell ->
     attr_or cell "value" "" <> "" \/ attr cell "vertex" = Some "1" ->
     forall geo_data, read_geometry cell = Return geo_data ->
     parse_cell cell =
       Return ([mk_node (attr_or cell "id" "") (attr_or cell "value" "")
                        (attr_or cell "style" "") geo_data], [])) /\
  (~ has_both_ends cell ->
     attr_or cell "value" "" = "" -> attr cell "vertex" <> Some "1" ->
     parse_cell cell = Return ([], [])).
Proof.
  refine (conj _ (conj _ (conj _ _))).
  - intros ns es e H Hin. unfold parse_cell in H.
    destruct (String.eqb _ "0" || String.eqb _ "1").
    { inversion H; subst. destruct Hin. }
    destruct (nonempty (attr cell "source") && nonempty (attr cell "target")) eqn:B.
    + inversion H; subst. destruct Hin as [<- | []].
      split; [apply both_ends_true, B | repeat split].
    + destruct (negb _ || _).
      * destruct (read_geometry cell); simpl in H; inversion H; subst. destruct Hin.
      * inversion H; subst. destruct Hin.
  - intros Hb Hr. unfold parse_cell. rewrite (not_reserved_false _ Hr).
    apply both_ends_true in Hb. rewrite Hb. eexists. split; reflexivity.
  - intros Hb Hr Hv geo_data Hg. unfold parse_cell.
    rewrite (not_reserved_false _ Hr), (both_ends_false _ Hb), Hg.
    replace (negb (String.eqb (attr_or cell "value" "") "")
             || is_lit (attr cell "vertex") "1") with true; [reflexivity|].
    symmetry. apply orb_true_iff. destruct Hv as [Hv | Hv].
    + left. apply negb_true_iff, String.eqb_neq, Hv.
    + right. rewrite Hv. reflexivity.
  - intros Hb Hv Hx. unfold parse_cell.
    destruct (String.eqb _ "0" || String.eqb _ "1"); [reflexivity|].
    rewrite (both_ends_false _ Hb), Hv. simpl.
    destruct (attr cell "vertex") as [v|] eqn:E; simpl; [|reflexivity].
    destruct (String.eqb v "1") eqn:F; [|reflexivity].
    apply String.eqb_eq in F. subst. congruence.
Qed.

Lemma cell_classification_witness :
  parse_cell half_bound_cell = Return ([mk_node "n7" "A" "" []], []).
Proof.
  apply (proj1 (proj2 (proj2 (cell_classification half_bound_cell)))).
  - intros (s & t & _ & Et & _). discriminate Et.
  - intros [E | E]; discriminate E.
  - left. discriminate.
  - reflexivity.
Defined.

(** ** Labels of edges *)

Lemma bind_return {A B : Type} (m : exc A) (k : A -> exc B) (b : B) :
  bind m k = Return b -> exists a, m = Return a /\ k a = Return b.
Proof.
  destruct m as [a|e]; simpl; intro H; [exists a; auto | discriminate].
Qed.

Ltac bind_inv H :=
  let a := fresh "a" in
  let E := fresh "E" in
  apply bind_return in H; destruct H as (a & E & H).

(** The claim of C3 fails on the font size: labels of 2, 31 and 51
    characters all get the font size 14. *)
Lemma edge_label_font_not_reduced :
  edge_label_font (labelled_edge 2) = Return (PInt 14) /\
  edge_label_font (labelled_edge 31) = Return (PInt 14) /\
  edge_label_font (labelled_edge 51) = Return (PInt 14).
Proof. repeat split; vm_compute; reflexivity. Qed.

Lemma sample_id_nonempty (s : site) (k : nat) : sample_id s k <> "".
Proof. destruct s; discriminate. Qed.

Section Edge_labels.

Variable timestamp : Z.
Variable gen_id : site -> nat -> string.
Variable randint : site -> nat -> Z.

(** [gen_id()] returns 21 characters. *)
Hypothesis gen_id_nonempty : forall s k, gen_id s k <> "".

(** C3, as amended. For every edge with a label, once the arrow is
    generated: the label is a text element after the arrow, it has the
    label as its text, the arrow as its container and is listed among the
    bound elements of the arrow; its font size is 14 whatever the length of
    the label; it sits at half the offset of the last waypoint from the
    position of the arrow, 15 units higher (50 units to the right when the
    arrow has no waypoints). *)
Theorem edge_label_spec (node_lookup : list (pyval * pydict)) (i : nat) (edge : pydict)
    (els : list pydict) (bs : list (pyval * pyval * pyval)) :
  truthy (get_or edge "label" (PStr "")) = true ->
  edge_elements timestamp gen_id randint node_lookup i edge = Return (els, bs) ->
  exists arrow t ax ay tx ty,
    els = [arrow; t] /\
    get t "type" = PStr "text" /\
    get t "text" = get_or edge "label" (PStr "") /\
    get t "containerId" = get arrow "id" /\
    get arrow "boundElements" = PList [PDict [("id", get t "id"); ("type", PStr "text")]] /\
    get t "fontSize" = PInt 14 /\
    as_num (get arrow "x") = Return ax /\ as_num (get arrow "y") = Return ay /\
    get t "x" = PNum tx /\ get t "y" = PNum ty /\
    if truthy (get arrow "points")
    then exists lx ly,
           last_coord (get arrow "points") 0 = Return lx /\
           last_coord (get arrow "points") 1 = Return ly /\
           numQ tx == numQ ax + numQ lx / 2 /\
           numQ ty == numQ ay + numQ ly / 2 - 15
    else numQ tx == numQ ax + 50 /\ numQ ty == numQ ay - 15.
Proof.
  intros Hl H. unfold edge_elements in H. rewrite Hl in H.
  bind_inv H. rename a into bound. bind_inv H.
  destruct a as [[[[arrow_x arrow_y] points] dx] dy].
  assert (exists sb eb bnd,
             (is_curved <- (if eq_str (get_or edge "curveStyle" (PStr "straight")) "curved"
                            then Return true
                            else n <- py_len points ;; Return (2 <? n)%nat) ;;
              width <- (if truthy points
                        then c <- last_coord points 0 ;; Return (PNum (num_abs c))
                        else Return (PInt 100)) ;;
              height <- (if truthy points
                         then c <- last_coord points 1 ;; Return (PNum (num_abs c))
                         else Return (PInt 0)) ;;
              edge_text <- edge_label_element timestamp randint i
                             (get_or edge "id" (PStr (gen_id (EdgeSite i) 0)))
                             arrow_x arrow_y points (get_or edge "label" (PStr ""))
                             (PStr (gen_id (EdgeSite i) 1)) ;;
              Return ([arrow_element timestamp randint i edge
                         (get_or edge "id" (PStr (gen_id (EdgeSite i) 0)))
                         arrow_x arrow_y width height points
                         (PStr (gen_id (EdgeSite i) 1)) is_curved sb eb; edge_text], bnd))
             = Return (els, bs)) as (sb & eb & bnd & H').
  { destruct bound as [[src tgt]|]; [destruct (binding_focus dx dy)|];
      do 3 eexists; exact H. }
  clear H. rename H' into H.
  bind_inv H. rename a into is_curved. bind_inv H. rename a into width.
  bind_inv H. rename a into height. bind_inv H. rename a into edge_text.
  inversion H; subst els bs. clear H.
  unfold edge_label_element in E4.
  bind_inv E4. rename a into mid_x. bind_inv E4. rename a into mid_y.
  bind_inv E4. inversion E4; subst edge_text. clear E4.
  assert (exists ax, as_num arrow_x = Return ax /\
            if truthy points
            then exists lx, last_coord points 0 = Return lx /\
                            numQ mid_x == numQ ax + numQ lx / 2
            else numQ mid_x == numQ ax + 50) as (ax & Hax & Hx).
  { destruct (truthy points).
    - bind_inv E5. bind_inv E5. inversion E5; subst.
      eexists; split; [eassumption|]. eexists; split; [eassumption|].
      rewrite numQ_add, numQ_half. reflexivity.
    - bind_inv E5. inversion E5; subst.
      eexists; split; [eassumption|]. rewrite numQ_add. reflexivity. }
  assert (exists ay, as_num arrow_y = Return ay /\
            if truthy points
            then exists ly, last_coord points 1 = Return ly /\
                            numQ mid_y == numQ ay + numQ ly / 2 - 15
            else numQ mid_y == numQ ay - 15) as (ay & Hay & Hy).
  { destruct (truthy points).
    - bind_inv E6. bind_inv E6. inversion E6; subst.
      eexists; split; [eassumption|]. eexists; split; [eassumption|].
      rewrite numQ_sub, numQ_add, numQ_half. reflexivity.
    - bind_inv E6. inversion E6; subst.
      eexists; split; [eassumption|]. rewrite numQ_sub. reflexivity. }
  do 2 eexists. exists ax, ay, mid_x, mid_y.
  split; [reflexivity|].
  assert (Hid : truthy (PStr (gen_id (EdgeSite i) 1)) = true)
    by (apply negb_true_iff, String.eqb_neq, gen_id_nonempty).
  unfold arrow_element. rewrite Hid.
  repeat (split; [first [reflexivity | eassumption]|]).
  match goal with |- context [truthy (get ?a "points")] =>
    change (get a "points") with points end.
  destruct (truthy points).
  - destruct Hx as (lx & Hlx & Hx). destruct Hy as (ly & Hly & Hy).
    exists lx, ly. auto.
  - auto.
Qed.

End Edge_labels.

Lemma edge_label_spec_witness :
  exists els bs arrow t,
    edge_elements sample_time sample_id sample_int [] 0 (labelled_edge 51)
      = Return (els, bs) /\
    els = [arrow; t] /\
    get t "fontSize" = PInt 14 /\ get t "containerId" = get arrow "id".
Proof.
  destruct (edge_elements sample_time sample_id sample_int [] 0 (labelled_edge 51))
    as [[els bs]|e] eqn:E; [|vm_compute in E; discriminate E].
  destruct (edge_label_spec sample_time sample_id sample_int sample_id_nonempty
              [] 0 (labelled_edge 51) els bs eq_refl E)
    as (arrow & t & ax & ay & tx & ty & Hels & _ & _ & Hc & _ & Hf & _).
  exists els, bs, arrow, t. repeat split; assumption.
Defined.

(** ** Loops *)

Lemma for_each_all {A B : Type} (f : A -> exc B) (l : list A) :
  Forall (fun a => exists b, f a = Return b) l ->
  exists bs, for_each f l = Return bs.
Proof.
  induction 1 as [|a l (b & Hb) _ (bs & Hbs)]; simpl.
  - eexists; reflexivity.
  - rewrite Hb. simpl. rewrite Hbs. simpl. eexists; reflexivity.
Qed.



Lemma for_each_ext {A B : Type} (f g : A -> exc B) (l : list A) :
  (forall a, In a l -> f a = g a) -> for_each f l = for_each g l.
Proof.
  induction l as [|a l IH]; simpl; intro H; [reflexivity|].
  rewrite (H a (or_introl eq_refl)), IH; [reflexivity|].
  intros x Hx. apply H. right. exact Hx.
Qed.

Lemma for_each_length {A B : Type} (f : A -> exc B) (l : list A) (bs : list B) :
  for_each f l = Return bs -> length bs = length l.
Proof.
  revert bs. induction l as [|a l IH]; simpl; intros bs H.
  - inversion H. reflexivity.
  - bind_inv H. bind_inv H. inversion H; subst. simpl. f_equal. apply IH, E0.
Qed.

Lemma enumerate_from_nth {A : Type} (l : list A) (s i : nat) (a : A) :
  In (i, a) (enumerate_from s l) -> (s <= i)%nat /\ nth_error l (i - s) = Some a.
Proof.
  revert s. induction l as [|x l IH]; simpl; intros s H; [destruct H|].
  destruct H as [H | H].
  - inversion H; subst. rewrite Nat.sub_diag. split; [lia | reflexivity].
  - apply IH in H. destruct H as [Hle Hn]. split; [lia|].
    replace (i - s)%nat with (S (i - S s)) by lia. exact Hn.
Qed.

Lemma enumerate_nth {A : Type} (l : list A) (i : nat) (a : A) :
  In (i, a) (enumerate l) -> nth_error l i = Some a.
Proof.
  intro H. apply enumerate_from_nth in H. rewrite Nat.sub_0_r in H. apply H.
Qed.

Lemma enumerate_from_app {A : Type} (l1 l2 : list A) (s : nat) :
  enumerate_from s (l1 ++ l2) =
  enumerate_from s l1 ++ enumerate_from (s + length l1) l2.
Proof.
  revert s. induction l1 as [|a l1 IH]; simpl; intro s.
  - rewrite Nat.add_0_r. reflexivity.
  - rewrite IH. replace (S s + length l1)%nat with (s + S (length l1))%nat by lia.
    reflexivity.
Qed.

(** ** Keyed dictionaries *)

Lemma kmap_get_in {V : Type} (m : list (pyval * V)) (k : pyval) (v : V) :
  kmap_get m k = Some v -> exists k', In (k', v) m /\ key_eqb k' k = true.
Proof.
  induction m as [|[k0 v0] m IH]; simpl; [discriminate|].
  destruct (key_eqb k0 k) eqn:E; intro H.
  - inversion H; subst. exists k0. auto.
  - destruct (IH H) as (k' & Hin & Hk). exists k'. auto.
Qed.

Lemma kmap_set_in {V : Type} (m : list (pyval * V)) (k k0 : pyval) (v v0 : V) :
  In (k0, v0) (kmap_set m k v) ->
  In (k0, v0) m \/ v0 = v /\ (k0 = k \/ exists v', In (k0, v') m).
Proof.
  induction m as [|[k1 v1] m IH]; simpl.
  - intros [H | []]. inversion H; subst. right. auto.
  - destruct (key_eqb k1 k); simpl.
    + intros [H | H]; [inversion H; subst; right; split; [reflexivity|]|left; auto].
      right. exists v1. auto.
    + intros [H | H]; [left; auto|].
      destruct (IH H) as [Hin | (-> & [-> | (v' & Hin)])]; [left; auto| |].
      * right. auto.
      * right. split; [reflexivity|]. right. exists v'. auto.
Qed.

(** ** SVG generation on well-formed input *)

Lemma num_field_ok (n : pydict) (k : string) (d : Z) :
  numeric_field n k -> exists m, num_field n k d = Return m.
Proof.
  unfold numeric_field, num_field, get_or.
  destruct (dict_get n k); intro H; [exact H | eexists; reflexivity].
Qed.

Ltac field_ok H k d :=
  let m := fresh "m" in
  let E := fresh "E" in
  destruct (num_field_ok _ k d H) as (m & E); rewrite E; simpl bind.

Lemma svg_node_ok (min_x min_y : pynum) (i : nat) (n : pydict) :
  well_formed_node n -> exists parts, svg_node min_x min_y i n = Return parts.
Proof.
  intros (Hx & Hy & Hw & Hh & _). unfold svg_node.
  field_ok Hx "x" (Z.of_nat i * 150)%Z. field_ok Hy "y" 100%Z.
  field_ok Hw "width" 120%Z. field_ok Hh "height" 60%Z.
  destruct (truthy _); eexists; reflexivity.
Qed.

Lemma svg_node_id_hashable (i : nat) (n : pydict) :
  well_formed_node n -> hashable (svg_node_id i n) = true.
Proof.
  intros (_ & _ & _ & _ & H). unfold svg_node_id, get, get_or in *.
  destruct (dict_get n "id"); [exact H | reflexivity].
Qed.

Section Svg_lookup.

Variable nodes : list pydict.

Lemma svg_lookup_fold (L : list (nat * pydict)) (m : list (pyval * pydict)) :
  (forall i n, In (i, n) L -> nth_error nodes i = Some n /\ well_formed_node n) ->
  lookup_sound nodes m ->
  exists m',
    fold_left (fun acc '(i, n) =>
                 m <- acc ;;
                 if hashable (svg_node_id i n) then Return (kmap_set m (svg_node_id i n) n)
                 else Raise TypeError) L (Return m) = Return m'
    /\ lookup_sound nodes m'.
Proof.
  revert m. induction L as [|[i n] L IH]; simpl; intros m HL Hm.
  - exists m. auto.
  - destruct (HL i n (or_introl eq_refl)) as [Hn Hwf].
    rewrite (svg_node_id_hashable i n Hwf). apply IH.
    + intros j x Hj. apply HL. right. exact Hj.
    + intros k v Hin. apply kmap_set_in in Hin.
      destruct Hin as [Hin | (-> & [-> | (v' & Hin)])].
      * apply Hm, Hin.
      * split; [eapply nth_error_In, Hn | eauto].
      * split; [eapply nth_error_In, Hn | apply (Hm _ _ Hin)].
Qed.

Lemma svg_lookup_ok :
  Forall well_formed_node nodes ->
  exists m, svg_lookup nodes = Return m /\ lookup_sound nodes m.
Proof.
  intro Hwf. apply svg_lookup_fold.
  - intros i n Hin. apply enumerate_nth in Hin. split; [exact Hin|].
    rewrite Forall_forall in Hwf. eapply Hwf, nth_error_In, Hin.
  - intros k v [].
Qed.

Lemma resolve_ok (m : list (pyval * pydict)) (e : pydict) :
  lookup_sound nodes m -> well_formed_edge e ->
  exists r, resolve m (get e "source") (get e "target") = Return r /\
            (forall s t, r = Some (s, t) -> In s nodes /\ In t nodes) /\
            (dangling_source nodes e -> r = None).
Proof.
  intros Hm [Hs Ht]. unfold resolve, kmap_mem. rewrite Hs, Ht.
  destruct (truthy (get e "source") && truthy (get e "target")).
  2:{ eexists. split; [reflexivity|]. split; [discriminate | reflexivity]. }
  simpl. destruct (kmap_get m (get e "source")) as [s|] eqn:Es; simpl.
  - destruct (kmap_get m (get e "target")) as [t|] eqn:Et; simpl.
    + eexists. split; [reflexivity|]. split.
      * intros s' t' H. inversion H; subst.
        apply kmap_get_in in Es. apply kmap_get_in in Et.
        destruct Es as (ks & Hins & _). destruct Et as (kt & Hint & _).
        split; [apply (Hm _ _ Hins) | apply (Hm _ _ Hint)].
      * intro Hd. apply kmap_get_in in Es. destruct Es as (ks & Hins & Hk).
        destruct (Hm _ _ Hins) as (_ & i & n & Hn & ->).
        rewrite (Hd i n Hn) in Hk. discriminate.
    + eexists. split; [reflexivity|]. split; [discriminate | reflexivity].
  - eexists. split; [reflexivity|]. split; [discriminate | reflexivity].
Qed.

Lemma svg_edge_ok (min_x min_y : pynum) (m : list (pyval * pydict)) (e : pydict) :
  Forall well_formed_node nodes -> lookup_sound nodes m -> well_formed_edge e ->
  (exists parts, svg_edge min_x min_y m e = Return parts) /\
  (dangling_source nodes e -> svg_edge min_x min_y m e = Return []).
Proof.
  intros Hwf Hm He. unfold svg_edge.
  destruct (resolve_ok m e Hm He) as (r & Hr & Hin & Hd). rewrite Hr. simpl bind.
  split.
  - destruct r as [[s t]|]; [|eexists; reflexivity].
    destruct (Hin s t eq_refl) as [Hs Ht]. rewrite Forall_forall in Hwf.
    destruct (Hwf s Hs) as (Sx & Sy & Sw & Sh & _).
    destruct (Hwf t Ht) as (Tx & Ty & _ & Th & _).
    field_ok Sx "x" 0%Z. field_ok Sw "width" 120%Z. field_ok Sy "y" 100%Z.
    field_ok Sh "height" 60%Z. field_ok Tx "x" 0%Z. field_ok Ty "y" 100%Z.
    field_ok Th "height" 60%Z.
    destruct (truthy _); eexists; reflexivity.
  - intro H. rewrite (Hd H). reflexivity.
Qed.

End Svg_lookup.

Lemma node_with_well_formed (P : pynum -> Prop) (n : pydict) :
  node_with P n -> well_formed_node n.
Proof.
  assert (F : forall k, field_is P n k -> numeric_field n k).
  { intros k. unfold field_is, numeric_field, is_number.
    destruct (dict_get n k); [|auto]. intros (m & E & _). exists m. exact E. }
  intros (Hx & Hy & Hw & Hh & Hid). repeat split; auto.
Qed.

Lemma nodes_with_well_formed (P : pynum -> Prop) (nodes : list pydict) :
  Forall (node_with P) nodes -> Forall well_formed_node nodes.
Proof. apply Forall_impl. intro n. apply node_with_well_formed. Qed.




(** ** Exceptions that leave the readers *)

Lemma raises_only_bind {A B : Type} (P : exn -> Prop) (m : exc A) (k : A -> exc B) :
  raises_only P m -> (forall a, raises_only P (k a)) -> raises_only P (bind m k).
Proof.
  intros Hm Hk e. destruct m as [a|e']; simpl.
  - apply Hk.
  - intro H. inversion H; subst. apply Hm. reflexivity.
Qed.

Lemma raises_only_return {A : Type} (P : exn -> Prop) (a : A) : raises_only P (Return a).
Proof. intros e H. discriminate H. Qed.

Lemma raises_only_raise {A : Type} (P : exn -> Prop) (e : exn) :
  P e -> raises_only P (@Raise A e).
Proof. intros H e' E. inversion E; subst. exact H. Qed.

Lemma raises_only_for_each {A B : Type} (P : exn -> Prop) (f : A -> exc B) (l : list A) :
  (forall a, raises_only P (f a)) -> raises_only P (for_each f l).
Proof.
  intro Hf. induction l as [|a l IH]; simpl.
  - apply raises_only_return.
  - apply raises_only_bind; [apply Hf|]. intro b.
    apply raises_only_bind; [exact IH|]. intro bs. apply raises_only_return.
Qed.

Ltac raises :=
  repeat first
    [ apply raises_only_return
    | apply raises_only_raise; auto; fail
    | apply raises_only_bind; [|intro]
    | apply raises_only_for_each; intro
    | match goal with
      | |- raises_only _ (match ?x with _ => _ end) => destruct x
      | |- raises_only _ (if ?c then _ else _) => destruct c
      end ].

Lemma parse_cell_raises (cell : Element) : raises_only is_value_error (parse_cell cell).
Proof.
  unfold parse_cell, read_geometry, geo_float, is_value_error. raises.
Qed.

Lemma parse_model_raises (root : Element) :
  raises_only is_value_error (_parse_drawio_mxgraphmodel root).
Proof.
  unfold _parse_drawio_mxgraphmodel. raises. apply parse_cell_raises.
Qed.

Lemma parse_named_raises (name : string) (g : Element) :
  raises_only is_value_error (parse_named name g).
Proof.
  unfold parse_named. apply raises_only_bind; [apply parse_model_raises|].
  intros [ns es]. apply raises_only_return.
Qed.

Lemma read_root_raises (lib : pylib) (root : Element) :
  raises_only is_value_error (read_root lib root).
Proof.
  assert (Hc : forall name d, raises_only is_value_error (from_children name d)).
  { intros name d. unfold from_children.
    destruct (find_desc _ d); [apply parse_named_raises | apply raises_only_return]. }
  unfold read_root.
  destruct (String.eqb (tag root) "mxfile").
  - apply raises_only_bind; [|intro; apply raises_only_return].
    apply raises_only_for_each. intro d. unfold read_diagram.
    destruct (nonempty (text d)); [|apply Hc].
    unfold try_except. destruct (ET_fromstring lib _).
    + destruct (parse_named _ a) eqn:E; [apply raises_only_return | apply Hc].
    + apply Hc.
  - destruct (String.eqb (tag root) "mxGraphModel");
      [apply parse_named_raises | apply raises_only_return].
Qed.

Lemma read_element_raises (elem : pyval) :
  raises_only is_lookup_error (read_element elem).
Proof.
  unfold read_element, bound_id, py_get, is_lookup_error. raises.
Qed.

Lemma read_data_raises (data : pyval) : raises_only is_lookup_error (read_data data).
Proof.
  unfold read_data, py_iter, is_lookup_error.
  apply raises_only_bind; [unfold py_get; raises|]. intro elements.
  apply raises_only_bind; [raises|]. intro elems.
  apply raises_only_bind; [apply raises_only_for_each, read_element_raises|]. intro items.
  unfold py_get. raises.
Qed.

(** The claim of C8 fails: a draw.io document with a geometry attribute
    that is no number makes [_read_drawio] raise [ValueError], and a JSON
    document that is no object makes [_read_excalidraw] raise
    [AttributeError]. *)
Lemma reader_raises_on_ill_typed_document :
  _read_drawio (lib_of faulty_samples) bad_geometry_xml = Raise ValueError /\
  _read_excalidraw (lib_of faulty_samples) list_json = Raise AttributeError.
Proof. split; vm_compute; reflexivity. Qed.

Section Readers.

Variable lib : pylib.
Variable timestamp : Z.
Variable gen_id : site -> nat -> string.
Variable randint : site -> nat -> Z.

(** C8, as amended. Each reader returns a tagged error for a text that is
    not well-formed XML or JSON.  On a text for which the parser of the
    library returns a tree or a value, the reader returns the document or
    raises: [_read_drawio] then raises nothing but [ValueError] (a geometry
    attribute that is no number), [_read_excalidraw] nothing but
    [AttributeError] or [TypeError] (a value of the wrong type).  What a
    reader raises, [diagram_convert] catches and returns as a tagged
    error. *)
Theorem readers_tagged_or_caught (content : string) :
  (forall msg, ET_fromstring lib content = Malformed msg ->
     _read_drawio lib content = Return (ReadError ("Invalid XML: " ++ msg))) /\
  (forall msg, json_loads lib content = Malformed msg ->
     _read_excalidraw lib content = Return (ReadError ("Invalid JSON: " ++ msg))) /\
  (forall root, ET_fromstring lib content = Parsed root ->
     (exists doc, _read_drawio lib content = Return (ReadOk doc)) \/
     _read_drawio lib content = Raise ValueError) /\
  (forall data, json_loads lib content = Parsed data ->
     (exists doc, _read_excalidraw lib content = Return (ReadOk doc)) \/
     _read_excalidraw lib content = Raise AttributeError \/
     _read_excalidraw lib content = Raise TypeError) /\
  (forall e source_ext target_ext,
     is_drawio_ext source_ext = true -> _read_drawio lib content = Raise e ->
     diagram_convert lib timestamp gen_id randint source_ext target_ext content = Caught e) /\
  (forall e target_ext,
     _read_excalidraw lib content = Raise e ->
     diagram_convert lib timestamp gen_id randint ".excalidraw" target_ext content = Caught e).
Proof.
  refine (conj _ (conj _ (conj _ (conj _ (conj _ _))))).
  - intros msg H. unfold _read_drawio. rewrite H. reflexivity.
  - intros msg H. unfold _read_excalidraw. rewrite H. reflexivity.
  - intros root H. unfold _read_drawio. rewrite H.
    pose proof (read_root_raises lib root) as R.
    destruct (read_root lib root) as [ds|e]; cbn [bind].
    + left. eexists. reflexivity.
    + right. rewrite (R e eq_refl). reflexivity.
  - intros data H. unfold _read_excalidraw. rewrite H.
    pose proof (read_data_raises data) as R.
    destruct (read_data data) as [doc|e]; cbn [bind].
    + left. eexists. reflexivity.
    + right. destruct (R e eq_refl) as [-> | ->]; auto.
  - intros e source_ext target_ext Hext H.
    unfold diagram_convert, read_source. rewrite Hext, H. reflexivity.
  - intros e target_ext H.
    unfold diagram_convert, read_source. rewrite H. reflexivity.
Qed.

End Readers.

Lemma readers_tagged_or_caught_witness :
  diagram_convert (lib_of faulty_samples) sample_time sample_id sample_int
    ".drawio" ".svg" bad_geometry_xml = Caught ValueError.
Proof.
  apply (proj1 (proj2 (proj2 (proj2 (proj2
           (readers_tagged_or_caught (lib_of faulty_samples) sample_time sample_id
              sample_int bad_geometry_xml)))))).
  - reflexivity.
  - vm_compute. reflexivity.
Defined.

(** ** Decoding of draw.io payloads *)


Section Payloads.

Variable lib : pylib.


End Payloads.


(** ** Excalidraw to draw.io *)

(** C2 does not hold of the code: the document with the one text element
    Hello converts to a single cell with a value, and that value is empty;
    the rectangle with Hello as bound text converts to two such cells.  There
    are no edge cells. *)
Theorem hello_label_lost :
  (exists t, excalidraw_to_drawio hello_document = Return t /\
             cell_values t = [""] /\ edge_cells t = []) /\
  (exists t, excalidraw_to_drawio hello_box_document = Return t /\
             cell_values t = [""; ""] /\ edge_cells t = []).
Proof.
  split; eexists; (split; [vm_compute; reflexivity|]); split; reflexivity.
Qed.

(** Whatever its text, a text node read from Excalidraw becomes a cell with
    an empty value: [_create_drawio_xml] reads the key "label", the reader
    writes the key "text". *)
Lemma text_node_value_empty (i : nat) (elem_id text x y w h : pyval) :
  exists a g,
    node_cell i [("id", elem_id); ("type", PStr "text"); ("text", text);
                 ("x", x); ("y", y); ("width", w); ("height", h)] = Return (a, g) /\
    get a "value" = PStr "".
Proof. do 2 eexists. split; reflexivity. Qed.

(** ** Arrows between two nodes *)









Lemma get_or_truthy (d : pydict) (k : string) (dflt : pyval) :
  truthy (get d k) = true -> get_or d k dflt = get d k.
Proof.
  unfold get, get_or. destruct (dict_get d k); [reflexivity | discriminate].
Qed.





Section Bound_arrows.

Variable timestamp : Z.
Variable gen_id : site -> nat -> string.
Variable randint : site -> nat -> Z.



End Bound_arrows.

(** The element generated for a node that states its position and size has
    that position and size. *)
Lemma placed_node_element (timestamp : Z) (gen_id : site -> nat -> string)
    (randint : site -> nat -> Z) (i : nat) (n : pydict) (b : box)
    (elem_id : pyval) (main : pydict) (extra : list pydict) :
  placed_node n b ->
  node_elements timestamp gen_id randint i n = Return (elem_id, main, extra) ->
  get main "x" = PNum (bx b) /\ get main "y" = PNum (by_ b) /\
  get main "width" = PNum (bw b) /\ get main "height" = PNum (bh b).
Proof.
  intros (Hx & Hy & Hw & Hh & _) H. unfold node_elements in H.
  assert (Gx : forall d, get_or n "x" d = PNum (bx b)) by (intro; unfold get_or; rewrite Hx; reflexivity).
  assert (Gy : forall d, get_or n "y" d = PNum (by_ b)) by (intro; unfold get_or; rewrite Hy; reflexivity).
  assert (Gw : forall d, get_or n "width" d = PNum (bw b)) by (intro; unfold get_or; rewrite Hw; reflexivity).
  assert (Gh : forall d, get_or n "height" d = PNum (bh b)) by (intro; unfold get_or; rewrite Hh; reflexivity).
  unfold shape_element in H. rewrite ?Gx, ?Gy, ?Gw, ?Gh in H.
  destruct (eq_str _ "text").
  - destruct (hashable _); inversion H; subst. repeat split; reflexivity.
  - destruct (hashable _); [|discriminate H].
    destruct (truthy _).
    + bind_inv H. inversion H; subst. repeat split; reflexivity.
    + inversion H; subst. repeat split; reflexivity.
Qed.


(** ** Numbers written by [str] are read back by [float] *)




















(** ** What the draw.io reader produces *)

Lemma for_each_forall {A B : Type} (P : B -> Prop) (f : A -> exc B) (l : list A)
    (bs : list B) :
  (forall a b, f a = Return b -> P b) -> for_each f l = Return bs -> Forall P bs.
Proof.
  intro Hf. revert bs. induction l as [|a l IH]; simpl; intros bs H.
  - inversion H. constructor.
  - bind_inv H. bind_inv H. inversion H; subst. constructor; eauto.
Qed.

Lemma Forall_concat {A : Type} (P : A -> Prop) (ls : list (list A)) :
  Forall (Forall P) ls -> Forall P (concat ls).
Proof.
  induction 1; simpl; [constructor | apply Forall_app; auto].
Qed.

Lemma geo_float_shape (g : Element) (k : string) (v : pyval) :
  geo_float g k = Return v -> exists q, v = PFloat q.
Proof.
  unfold geo_float. destruct (attr g k); [destruct (py_float s)|]; intro H;
    inversion H; eauto.
Qed.

Lemma read_geometry_shape (cell : Element) (geo : pydict) :
  read_geometry cell = Return geo -> read_geo geo.
Proof.
  unfold read_geometry. destruct (find_child _ cell); intro H.
  - bind_inv H. bind_inv H. bind_inv H. bind_inv H. inversion H; subst.
    apply geo_float_shape in E, E0, E1, E2.
    destruct E as (x & ->), E0 as (y & ->), E1 as (w & ->), E2 as (h & ->).
    right. eauto 6.
  - inversion H. left. reflexivity.
Qed.

Lemma parse_cell_shape (cell : Element) (ns es : list pydict) :
  parse_cell cell = Return (ns, es) -> Forall drawio_node ns /\ Forall drawio_edge es.
Proof.
  unfold parse_cell.
  destruct (String.eqb _ "0" || String.eqb _ "1") eqn:R.
  { intro H; inversion H; split; constructor. }
  apply orb_false_iff in R. destruct R as [R0 R1].
  apply String.eqb_neq in R0, R1.
  destruct (nonempty (attr cell "source") && nonempty (attr cell "target")) eqn:B.
  - intro H; inversion H; subst. split; constructor; [|constructor].
    apply both_ends_true in B. destruct B as (s & t & Es & Et & Hs & Ht).
    unfold attr_or at 2 3. rewrite Es, Et. do 5 eexists. eauto 6.
  - destruct (negb _ || _).
    + intro H. bind_inv H. inversion H; subst. split; constructor; [|constructor].
      do 4 eexists. split; [reflexivity|]. eauto using read_geometry_shape.
    + intro H; inversion H; split; constructor.
Qed.

Lemma parse_model_shape (root : Element) (ns es : list pydict) :
  _parse_drawio_mxgraphmodel root = Return (ns, es) ->
  Forall drawio_node ns /\ Forall drawio_edge es.
Proof.
  unfold _parse_drawio_mxgraphmodel. intro H. bind_inv H. inversion H; subst.
  assert (F : Forall (fun it => Forall drawio_node (fst it) /\ Forall drawio_edge (snd it)) a).
  { eapply for_each_forall; [|exact E]. intros c [n e] Hc. apply (parse_cell_shape c n e Hc). }
  split; apply Forall_concat, Forall_map; eapply Forall_impl; try exact F; simpl; tauto.
Qed.

Lemma parse_named_shape (name : string) (g : Element) (ds : list Diagram) :
  parse_named name g = Return ds -> Forall drawio_diagram ds.
Proof.
  unfold parse_named. intro H. bind_inv H. destruct a as [ns es]. inversion H; subst.
  constructor; [|constructor]. apply (parse_model_shape g ns es E).
Qed.

Lemma read_root_shape (lib : pylib) (root : Element) (ds : list Diagram) :
  read_root lib root = Return ds -> Forall drawio_diagram ds.
Proof.
  assert (Hc : forall name d r, from_children name d = Return r -> Forall drawio_diagram r).
  { intros name d r. unfold from_children.
    destruct (find_desc _ d); [apply parse_named_shape | intro H; inversion H; constructor]. }
  unfold read_root. destruct (String.eqb (tag root) "mxfile").
  - intro H. bind_inv H. inversion H; subst. apply Forall_concat.
    eapply for_each_forall; [|exact E]. intros d r. unfold read_diagram.
    destruct (nonempty (text d)); [|apply Hc].
    unfold try_except. destruct (ET_fromstring lib _).
    + destruct (parse_named _ a0) eqn:P; [|apply Hc].
      intro X; inversion X; subst. eapply parse_named_shape, P.
    + apply Hc.
  - destruct (String.eqb (tag root) "mxGraphModel");
      [apply parse_named_shape | intro H; inversion H; constructor].
Qed.

(** ** draw.io cells written and read back *)

Lemma for_each_forall2 {A B : Type} (P : A -> B -> Prop) (f : A -> exc B) (l : list A) :
  (forall a, In a l -> exists b, f a = Return b /\ P a b) ->
  exists bs, for_each f l = Return bs /\ Forall2 P l bs.
Proof.
  induction l as [|a l IH]; simpl; intro H.
  - exists []. split; [reflexivity | constructor].
  - destruct (H a (or_introl eq_refl)) as (b & Hb & Pb).
    destruct IH as (bs & Hbs & Pbs); [intros x Hx; apply H; right; exact Hx|].
    exists (b :: bs). rewrite Hb. simpl. rewrite Hbs. simpl.
    split; [reflexivity | constructor; assumption].
Qed.















Section Drawio_round_trip.

Variable lib : pylib.


End Drawio_round_trip.

(** ** What the Excalidraw reader produces *)

Lemma eq_str_true (v : pyval) (lit : string) : eq_str v lit = true -> v = PStr lit.
Proof.
  destruct v; simpl; try discriminate. intro H. apply String.eqb_eq in H. congruence.
Qed.

Lemma read_element_shape (elem : pyval) (ns es : list pydict) (ts : list pyval) :
  read_element elem = Return (ns, es, ts) -> Forall x_node ns /\ Forall x_edge es.
Proof.
  unfold read_element. intro H.
  bind_inv H. rename a into ty. bind_inv H. rename a into id.
  destruct (eq_str ty "arrow" || eq_str ty "line") eqn:A.
  - do 5 bind_inv H. inversion H; subst. split; constructor; [|constructor].
    do 5 eexists. split; [reflexivity|].
    apply orb_true_iff in A. destruct A as [A | A]; apply eq_str_true in A; auto.
  - apply orb_false_iff in A. destruct A as [A1 A2].
    destruct (eq_str ty "text") eqn:T.
    + bind_inv H. destruct (truthy a) eqn:Tx.
      * do 4 bind_inv H. inversion H; subst. split; constructor; [|constructor].
        left. apply eq_str_true in T. subst ty. do 6 eexists. split; [reflexivity | exact Tx].
      * inversion H; subst. split; constructor.
    + do 7 bind_inv H. inversion H; subst. split; constructor; [|constructor].
      right. do 9 eexists. split; [reflexivity|]. auto.
Qed.

Lemma read_data_shape (data : pyval) (doc : excalidraw_doc) :
  read_data data = Return doc -> Forall x_node (x_nodes doc) /\ Forall x_edge (x_edges doc).
Proof.
  unfold read_data. intro H. do 5 bind_inv H. inversion H; subst. cbn [x_nodes x_edges].
  assert (F : Forall (fun it => Forall x_node (fst (fst it)) /\ Forall x_edge (snd (fst it))) a1).
  { eapply for_each_forall; [|exact E1]. intros el [[n e] t] He.
    apply (read_element_shape el n e t He). }
  split; apply Forall_concat, Forall_map; eapply Forall_impl; try exact F; simpl; tauto.
Qed.

(** ** Elements that differ in their bound elements *)

Lemma dict_get_set_other (d : pydict) (k0 k : string) (v : pyval) :
  k <> k0 -> dict_get (dict_set d k0 v) k = dict_get d k.
Proof.
  intro H. induction d as [|[k1 v1] d IH]; simpl.
  - destruct (String.eqb k0 k) eqn:E; [apply String.eqb_eq in E; congruence | reflexivity].
  - destruct (String.eqb k1 k0) eqn:E0; simpl.
    + apply String.eqb_eq in E0. subst k1.
      destruct (String.eqb k0 k) eqn:E; [apply String.eqb_eq in E; congruence | reflexivity].
    + rewrite IH. reflexivity.
Qed.

Lemma same_but_bound_refl (m : pydict) : same_but_bound m m.
Proof. intros k _. reflexivity. Qed.

Lemma same_but_bound_append (ref : pyval) (m m' : pydict) :
  same_but_bound m m' -> same_but_bound m (append_bound ref m').
Proof.
  intros H k Hk. unfold append_bound.
  destruct (dict_get m' "boundElements") as [[]|]; try (apply H, Hk).
  rewrite dict_get_set_other by exact Hk. apply H, Hk.
Qed.

Lemma same_get_or (m m' : pydict) (k : string) (d : pyval) :
  same_but_bound m m' -> k <> "boundElements" -> get_or m' k d = get_or m k d.
Proof. intros H Hk. unfold get_or. rewrite (H k Hk). reflexivity. Qed.

Lemma update_nth_related {A : Type} (R : A -> A -> Prop) (f : A -> A) (j : nat)
    (l l' : list A) :
  (forall a b, R a b -> R a (f b)) -> Forall2 R l l' -> Forall2 R l (update_nth j f l').
Proof.
  intros Hf H. revert j. induction H as [|a b l l' Hab Hl IH]; intro j.
  - destruct j; simpl; constructor.
  - destruct j; simpl; constructor; auto.
Qed.

Lemma add_refs_related (element_map : list (pyval * nat))
    (arrow_bindings : list (pyval * pyval * pyval)) (mains mains' : list pydict) :
  Forall2 same_but_bound mains mains' ->
  Forall2 same_but_bound mains (add_refs element_map arrow_bindings mains').
Proof.
  assert (Hr : forall key arrow_id ms, Forall2 same_but_bound mains ms ->
                 Forall2 same_but_bound mains (add_ref element_map key arrow_id ms)).
  { intros key arrow_id ms H. unfold add_ref.
    destruct (truthy key); [|exact H].
    destruct (kmap_get element_map key); [|exact H].
    apply update_nth_related; [|exact H].
    intros a b. apply same_but_bound_append. }
  unfold add_refs. revert mains'.
  induction arrow_bindings as [|[[arrow_id source_id] target_id] bs IH]; intros mains' H.
  - exact H.
  - simpl. apply IH. apply Hr, Hr, H.
Qed.

Lemma Forall2_refl {A : Type} (R : A -> A -> Prop) (l : list A) :
  (forall a, R a a) -> Forall2 R l l.
Proof. intro H. induction l; constructor; auto. Qed.

(** ** Excalidraw elements written and read back *)

Section Excalidraw_items.

Variable timestamp : Z.
Variable gen_id : site -> nat -> string.
Variable randint : site -> nat -> Z.











End Excalidraw_items.



(** ** Excalidraw documents written and read back *)



Section Round_trip.

Variable lib : pylib.
Variable timestamp : Z.
Variable gen_id : site -> nat -> string.
Variable randint : site -> nat -> Z.



End Round_trip.


(** * Further properties of the readers and generators *)

(** ** What the readers report *)

Lemma count_with_concat (f : Diagram -> list pydict) (ds : list Diagram) :
  count_with f ds = length (concat (map f ds)).
Proof.
  unfold count_with.
  assert (H : forall a, fold_left (fun n d => (n + length (f d))%nat) ds a
                        = (a + length (concat (map f ds)))%nat).
  { induction ds as [|d ds IH]; intro a; cbn [fold_left map concat].
    - cbn [length]. lia.
    - rewrite IH, length_app. lia. }
  apply H.
Qed.

Lemma drawio_reader_shape (lib : pylib) (content : string) (doc : drawio_doc) :
  _read_drawio lib content = Return (ReadOk doc) -> Forall drawio_diagram (diagrams doc).
Proof.
  unfold _read_drawio. intro H. destruct (ET_fromstring lib content); [|discriminate H].
  bind_inv H. inversion H; subst. apply (read_root_shape lib a a0 E).
Qed.

(** X1. A document read by [_read_drawio] never lists a root cell (id 0 or
    1) as a node or an edge; its nodes carry a geometry that is empty or four
    floats, its edges name both ends; and the totals of its metadata count the
    nodes and the edges of all its diagrams. *)
Theorem drawio_reader_invariant (lib : pylib) (content : string) (doc : drawio_doc) :
  _read_drawio lib content = Return (ReadOk doc) ->
  Forall drawio_diagram (diagrams doc) /\
  diagram_count doc = length (diagrams doc) /\
  total_nodes doc = length (concat (map d_nodes (diagrams doc))) /\
  total_edges doc = length (concat (map d_edges (diagrams doc))).
Proof.
  unfold _read_drawio. intro H. destruct (ET_fromstring lib content); [|discriminate H].
  bind_inv H. inversion H; subst. cbn [diagrams diagram_count total_nodes total_edges summarize].
  split; [apply (read_root_shape lib a a0 E)|].
  split; [reflexivity|]. split; apply count_with_concat.
Qed.

Lemma drawio_reader_invariant_witness :
  Forall drawio_diagram (diagrams sample_drawio_doc) /\
  diagram_count sample_drawio_doc = length (diagrams sample_drawio_doc) /\
  total_nodes sample_drawio_doc = length (concat (map d_nodes (diagrams sample_drawio_doc))) /\
  total_edges sample_drawio_doc = length (concat (map d_edges (diagrams sample_drawio_doc))).
Proof.
  apply (drawio_reader_invariant (lib_of round_trip_samples) plain_payload sample_drawio_doc).
  vm_compute. reflexivity.
Defined.

Lemma read_element_counts (elem : pyval) (ns es : list pydict) (ts : list pyval) :
  read_element elem = Return (ns, es, ts) ->
  (length ns + length es <= 1)%nat /\ (length ts <= length ns)%nat.
Proof.
  unfold read_element. intro H. do 2 bind_inv H.
  destruct (eq_str a "arrow" || eq_str a "line").
  - do 5 bind_inv H. inversion H; subst. cbn [length]. lia.
  - destruct (eq_str a "text").
    + bind_inv H. destruct (truthy a1).
      * do 4 bind_inv H. inversion H; subst. cbn [length]. lia.
      * inversion H; subst. cbn [length]. lia.
    + do 7 bind_inv H. inversion H; subst. cbn [length]. lia.
Qed.

Lemma read_elements_counts (elems : list pyval)
    (items : list (list pydict * list pydict * list pyval)) :
  for_each read_element elems = Return items ->
  (length (concat (map (fun it => fst (fst it)) items))
   + length (concat (map (fun it => snd (fst it)) items)) <= length elems)%nat /\
  (length (concat (map snd items))
   <= length (concat (map (fun it => fst (fst it)) items)))%nat.
Proof.
  revert items. induction elems as [|el elems IH]; cbn [for_each]; intros items H.
  - inversion H; subst. cbn [map concat length]. lia.
  - do 2 bind_inv H. inversion H; subst. destruct a as [[ns es] ts].
    destruct (read_element_counts el ns es ts E) as [H1 H2].
    destruct (IH a0 E0) as [H3 H4].
    cbn [map concat fst snd length]. rewrite !length_app. lia.
Qed.

(** X2. A document read by [_read_excalidraw] has nodes that are texts with
    a non-empty text or shapes of a type other than arrow, line and text, and
    edges of type arrow or line; its counts are consistent: nodes and edges
    together are at most the elements, and every reported text belongs to a
    node. *)
Theorem excalidraw_reader_invariant (lib : pylib) (content : string) (doc : excalidraw_doc) :
  _read_excalidraw lib content = Return (ReadOk doc) ->
  Forall x_node (x_nodes doc) /\ Forall x_edge (x_edges doc) /\
  x_node_count doc = length (x_nodes doc) /\ x_edge_count doc = length (x_edges doc) /\
  (x_node_count doc + x_edge_count doc <= x_element_count doc)%nat /\
  (length (x_text_content doc) <= x_node_count doc)%nat.
Proof.
  unfold _read_excalidraw. intro H. destruct (json_loads lib content); [|discriminate H].
  bind_inv H. inversion H; subst.
  destruct (read_data_shape a doc E) as [Hn He].
  split; [exact Hn|]. split; [exact He|].
  unfold read_data in E. do 5 bind_inv E. inversion E; subst.
  cbn [x_nodes x_edges x_node_count x_edge_count x_element_count x_text_content].
  destruct (read_elements_counts a1 a2 E2) as [H1 H2].
  repeat split; assumption.
Qed.

Lemma excalidraw_reader_invariant_witness :
  Forall x_node (x_nodes sample_excalidraw_doc) /\
  Forall x_edge (x_edges sample_excalidraw_doc) /\
  x_node_count sample_excalidraw_doc = length (x_nodes sample_excalidraw_doc) /\
  x_edge_count sample_excalidraw_doc = length (x_edges sample_excalidraw_doc) /\
  (x_node_count sample_excalidraw_doc + x_edge_count sample_excalidraw_doc
   <= x_element_count sample_excalidraw_doc)%nat /\
  (length (x_text_content sample_excalidraw_doc) <= x_node_count sample_excalidraw_doc)%nat.
Proof.
  apply (excalidraw_reader_invariant (lib_of round_trip_samples) line_json
           sample_excalidraw_doc).
  vm_compute. reflexivity.
Defined.

(** ** Connector paths *)

(** X3. The step path is an elbow: it leads from the origin to [(dx, dy)]
    through one bend, along the vertical first when [|dy| > |dx|] and along
    the horizontal first otherwise, and its two legs are at a right
    angle. *)
Theorem step_points_right_angle (dx dy : pynum) :
  exists mx my,
    _generate_step_points dx dy = PList [origin; pt mx my; pt dx dy] /\
    (if Qlt_le_dec (Qabs (numQ dx)) (Qabs (numQ dy))
     then numQ mx == 0 /\ numQ my == numQ dy
     else numQ mx == numQ dx /\ numQ my == 0) /\
    numQ mx * (numQ dx - numQ mx) + numQ my * (numQ dy - numQ my) == 0.
Proof.
  unfold _generate_step_points.
  destruct (num_gtb (num_abs dy) (num_abs dx)) eqn:E.
  - exists (NInt 0), dy. split; [reflexivity|]. apply gtb_abs in E.
    destruct (Qlt_le_dec _ _) as [_|H]; [|exfalso; apply (Qlt_not_le _ _ E H)].
    split; [split; reflexivity|]. simpl numQ. ring.
  - exists dx, (NInt 0). split; [reflexivity|].
    destruct (Qlt_le_dec _ _) as [H|_]; [apply gtb_abs in H; congruence|].
    split; [split; reflexivity|]. simpl numQ. ring.
Qed.

(** ** Arrows and their bindings *)


Section Arrow_bindings.

Variable timestamp : Z.
Variable gen_id : site -> nat -> string.
Variable randint : site -> nat -> Z.



End Arrow_bindings.



(** ** Shapes and their labels *)

Lemma label_font_size_returns (node : pydict) (s : string) :
  is_number (get_or node "fontSize" (PInt 16)) ->
  exists f, label_font_size node (PStr s) = Return f.
Proof.
  intros (b & Hb). unfold label_font_size, py_min. cbn [py_len bind]. rewrite Hb.
  change (as_num (PInt 12)) with (Return (NInt 12)).
  change (as_num (PInt 10)) with (Return (NInt 10)). cbn [bind].
  destruct (30 <? String.length s)%nat; [eexists; reflexivity|].
  destruct (50 <? String.length s)%nat; eexists; reflexivity.
Qed.

(** X6. The font size of the text bound to a shape, for a label of ASCII
    characters (where the length of the string is the number of its
    characters): the size the node states (16 by default) for a label of at
    most 30 characters, and the smaller of that size and 12 for every longer
    label, however long; the reduction to 10 for labels of more than 50
    characters is never reached. *)
Theorem node_label_font (node : pydict) (s : string) (b : pynum) :
  ascii_only s = true ->
  as_num (get_or node "fontSize" (PInt 16)) = Return b ->
  exists f q,
    label_font_size node (PStr s) = Return f /\ as_num f = Return q /\
    numQ q == (if (30 <? String.length s)%nat then Qmin (numQ b) 12 else numQ b).
Proof.
  intros _ Hb. unfold label_font_size. cbn [py_len bind].
  destruct (30 <? String.length s)%nat eqn:L.
  - unfold py_min. rewrite Hb. change (as_num (PInt 12)) with (Return (NInt 12)).
    cbn [bind].
    destruct (num_ltb (NInt 12) b) eqn:E; unfold num_ltb in E.
    + exists (PInt 12), (NInt 12). split; [reflexivity|]. split; [reflexivity|].
      apply num_gtb_lt in E. rewrite Q.min_r; [reflexivity|].
      apply Qlt_le_weak. exact E.
    + exists (get_or node "fontSize" (PInt 16)), b. split; [reflexivity|]. split; [exact Hb|].
      apply num_gtb_le in E. rewrite Q.min_l; [reflexivity | exact E].
  - assert (L' : (50 <? String.length s)%nat = false).
    { apply Nat.ltb_ge. apply Nat.ltb_ge in L. lia. }
    rewrite L'. exists (get_or node "fontSize" (PInt 16)), b.
    split; [reflexivity|]. split; [exact Hb | reflexivity].
Qed.

Lemma node_label_font_witness :
  exists f q,
    label_font_size [] (PStr (label_of_length 51)) = Return f /\ as_num f = Return q /\
    numQ q == (if (30 <? String.length (label_of_length 51))%nat
               then Qmin (numQ (NInt 16)) 12 else numQ (NInt 16)).
Proof.
  apply (node_label_font [] (label_of_length 51) (NInt 16)); reflexivity.
Defined.

Section Labelled_shapes.

Variable timestamp : Z.
Variable gen_id : site -> nat -> string.
Variable randint : site -> nat -> Z.

(** X7. A node that is no text and has a non-empty label becomes a shape
    and a text bound to each other: the id of the text is the id of the shape
    followed by [_text], the text names the shape as its container, the shape
    lists the text as its only bound element, and the text carries the label
    at the position and with the size of the shape. *)
Theorem labelled_shape_container (i : nat) (node : pydict) (s : string) :
  eq_str (get_or node "type" (PStr "rectangle")) "text" = false ->
  get_or node "label" (get_or node "text" (PStr "")) = PStr s -> s <> "" ->
  hashable (get_or node "id" (PStr (gen_id (NodeSite i) 0))) = true ->
  is_number (get_or node "fontSize" (PInt 16)) ->
  exists shape txt,
    node_elements timestamp gen_id randint i node
      = Return (get_or node "id" (PStr (gen_id (NodeSite i) 0)), shape, [txt]) /\
    get shape "id" = get_or node "id" (PStr (gen_id (NodeSite i) 0)) /\
    get txt "id" = PStr (py_str (get shape "id") ++ "_text") /\
    get txt "containerId" = get shape "id" /\
    get shape "boundElements" = PList [PDict [("type", PStr "text"); ("id", get txt "id")]] /\
    get txt "type" = PStr "text" /\ get txt "text" = PStr s /\
    get txt "x" = get shape "x" /\ get txt "y" = get shape "y" /\
    get txt "width" = get shape "width" /\ get txt "height" = get shape "height".
Proof.
  intros Hty Hl Hs Hh Hb.
  destruct (label_font_size_returns node s Hb) as (f & Hf).
  assert (Tl : truthy (PStr s) = true).
  { cbn [truthy]. destruct (String.eqb s "") eqn:E; [|reflexivity].
    apply String.eqb_eq in E. contradiction. }
  assert (Tt : forall x, truthy (PStr (x ++ "_text")) = true)
    by (intros [|c r]; reflexivity).
  unfold node_elements. rewrite Hty, Hl, Hh, Tl, Hf. cbn [bind].
  do 2 eexists. split; [reflexivity|]. repeat split; try reflexivity.
  cbv [get get_or shape_element dict_get String.eqb Ascii.eqb Bool.eqb].
  rewrite Tt. reflexivity.
Qed.

End Labelled_shapes.

Lemma labelled_shape_container_witness :
  exists shape txt,
    node_elements sample_time sample_id sample_int 0 [("id", PStr "a"); ("label", PStr "A")]
      = Return (PStr "a", shape, [txt]) /\
    get shape "id" = PStr "a" /\
    get txt "id" = PStr (py_str (get shape "id") ++ "_text") /\
    get txt "containerId" = get shape "id" /\
    get shape "boundElements" = PList [PDict [("type", PStr "text"); ("id", get txt "id")]] /\
    get txt "type" = PStr "text" /\ get txt "text" = PStr "A" /\
    get txt "x" = get shape "x" /\ get txt "y" = get shape "y" /\
    get txt "width" = get shape "width" /\ get txt "height" = get shape "height".
Proof.
  refine (labelled_shape_container sample_time sample_id sample_int 0
            [("id", PStr "a"); ("label", PStr "A")] "A" eq_refl eq_refl _ eq_refl _).
  - discriminate.
  - eexists. reflexivity.
Defined.

(** ** Arrows registered with the shapes *)

Lemma dict_get_set_same (d : pydict) (k : string) (v : pyval) :
  dict_get (dict_set d k v) k = Some v.
Proof.
  induction d as [|[k1 v1] d IH]; simpl.
  - rewrite String.eqb_refl. reflexivity.
  - destruct (String.eqb k1 k) eqn:E; simpl; rewrite E; [reflexivity | exact IH].
Qed.

Lemma update_nth_at {A : Type} (f : A -> A) (l : list A) (j : nat) (a : A) :
  nth_error l j = Some a -> nth_error (update_nth j f l) j = Some (f a).
Proof.
  revert j. induction l as [|x l IH]; intros [|j]; simpl; try discriminate.
  - intro H. inversion H. reflexivity.
  - apply IH.
Qed.

Lemma update_nth_other {A : Type} (f : A -> A) (l : list A) (j k : nat) :
  k <> j -> nth_error (update_nth j f l) k = nth_error l k.
Proof.
  revert j k. induction l as [|x l IH]; intros [|j] [|k] H; simpl; try reflexivity.
  - contradiction.
  - apply IH. congruence.
Qed.

(** X8. Registering an arrow with the shape at one of its ends appends the
    reference to the arrow to the bound elements of that shape, after those it
    had; no other field of the shape changes and no other element changes at
    all. *)
Theorem arrow_registered (element_map : list (pyval * nat)) (key arrow_id : pyval)
    (mains : list pydict) (j : nat) (m : pydict) (l : list pyval) :
  truthy key = true -> kmap_get element_map key = Some j ->
  nth_error mains j = Some m -> dict_get m "boundElements" = Some (PList l) ->
  exists m',
    nth_error (add_ref element_map key arrow_id mains) j = Some m' /\
    dict_get m' "boundElements"
      = Some (PList (l ++ [PDict [("type", PStr "arrow"); ("id", arrow_id)]])) /\
    same_but_bound m m' /\
    forall k, k <> j -> nth_error (add_ref element_map key arrow_id mains) k = nth_error mains k.
Proof.
  intros Hk Hj Hm Hb. unfold add_ref. rewrite Hk, Hj.
  eexists. split; [apply update_nth_at, Hm|].
  unfold append_bound. rewrite Hb. split; [apply dict_get_set_same|].
  split.
  - intros k Hne. apply dict_get_set_other, Hne.
  - intros k Hne. apply update_nth_other, Hne.
Qed.

Lemma arrow_registered_witness :
  exists m',
    nth_error (add_ref [(PStr "a", 0%nat)] (PStr "a") (PStr "e1")
                 [[("id", PStr "a"); ("boundElements", PList [])]]) 0 = Some m' /\
    dict_get m' "boundElements"
      = Some (PList ([] ++ [PDict [("type", PStr "arrow"); ("id", PStr "e1")]])) /\
    same_but_bound [("id", PStr "a"); ("boundElements", PList [])] m' /\
    forall k, k <> 0%nat ->
      nth_error (add_ref [(PStr "a", 0%nat)] (PStr "a") (PStr "e1")
                   [[("id", PStr "a"); ("boundElements", PList [])]]) k
      = nth_error [[("id", PStr "a"); ("boundElements", PList [])]] k.
Proof.
  apply (arrow_registered [(PStr "a", 0%nat)] (PStr "a") (PStr "e1")
           [[("id", PStr "a"); ("boundElements", PList [])]] 0
           [("id", PStr "a"); ("boundElements", PList [])] []); reflexivity.
Defined.

(** ** The text content of a draw.io document *)

Lemma key_eqb_str (v : string) (x : pyval) : key_eqb (PStr v) x = true -> x = PStr v.
Proof.
  destruct x; simpl; try discriminate. intro H. apply String.eqb_eq in H. congruence.
Qed.

Lemma set_add_spec (s : list pyval) (v : string) :
  NoDup s ->
  NoDup (set_add s (PStr v)) /\
  forall x, In x (set_add s (PStr v)) <-> In x s \/ x = PStr v.
Proof.
  intro Hs. unfold set_add. destruct (existsb (key_eqb (PStr v)) s) eqn:E.
  - apply existsb_exists in E. destruct E as (x & Hin & Hk).
    apply key_eqb_str in Hk. subst x. split; [exact Hs|].
    intro x. split; [auto | intros [H | ->]; assumption].
  - assert (Hn : ~ In (PStr v) s).
    { intro Hin. assert (T : existsb (key_eqb (PStr v)) s = true).
      { apply existsb_exists. exists (PStr v). split; [exact Hin|].
        simpl. apply String.eqb_refl. }
      congruence. }
    split.
    + apply NoDup_app; [exact Hs | repeat constructor; intros [] |].
      intros x Hx [<- | []]. exact (Hn Hx).
    + intro x. rewrite in_app_iff. simpl. intuition congruence.
Qed.

Lemma add_labels_spec (items : list pydict) (s : list pyval) :
  Forall string_label items -> NoDup s ->
  NoDup (add_labels s items) /\
  forall x, In x (add_labels s items) <->
            In x s \/ (truthy x = true /\ exists item, In item items /\ label_of item = x).
Proof.
  intro H. revert s. unfold add_labels.
  induction H as [|item items (v & Hv) _ IH]; intros s Hs; cbn [fold_left].
  - split; [exact Hs|]. intro x. split; [auto | intros [H | (_ & i & [] & _)]; exact H].
  - unfold label_of in Hv. rewrite Hv.
    destruct (truthy (PStr v)) eqn:T.
    + destruct (set_add_spec s v Hs) as [Hnd Hin].
      destruct (IH _ Hnd) as [IH1 IH2]. split; [exact IH1|].
      intro x. rewrite IH2, Hin. split.
      * intros [[H | ->] | (Tx & i & Hi & Hl)]; [auto | | ].
        -- right. split; [exact T|]. exists item. split; [left; reflexivity | exact Hv].
        -- right. split; [exact Tx|]. exists i. split; [right; exact Hi | exact Hl].
      * intros [H | (Tx & i & [<- | Hi] & Hl)]; [auto | | ].
        -- left. right. unfold label_of in Hl. congruence.
        -- right. split; [exact Tx|]. exists i. auto.
    + destruct (IH _ Hs) as [IH1 IH2]. split; [exact IH1|].
      intro x. rewrite IH2. split.
      * intros [H | (Tx & i & Hi & Hl)]; [auto|].
        right. split; [exact Tx|]. exists i. split; [right; exact Hi | exact Hl].
      * intros [H | (Tx & i & [<- | Hi] & Hl)]; [auto | | ].
        -- unfold label_of in Hl. congruence.
        -- right. split; [exact Tx|]. exists i. auto.
Qed.

Lemma collect_text_spec (ds : list Diagram) :
  Forall (fun d => Forall string_label (items_of d)) ds ->
  NoDup (collect_text ds) /\
  forall x, In x (collect_text ds) <-> truthy x = true /\ labels ds x.
Proof.
  unfold collect_text.
  assert (G : forall s, Forall (fun d => Forall string_label (items_of d)) ds -> NoDup s ->
            NoDup (fold_left (fun acc d => add_labels (add_labels acc (d_nodes d)) (d_edges d))
                             ds s) /\
            forall x, In x (fold_left (fun acc d =>
                                         add_labels (add_labels acc (d_nodes d)) (d_edges d))
                                      ds s)
                      <-> In x s \/ (truthy x = true /\ labels ds x)).
  { intros s H. revert s. induction H as [|d ds Hd _ IH]; intros s Hs; cbn [fold_left].
    - split; [exact Hs|]. intro x. split; [auto|].
      intros [H | (_ & d & i & [] & _)]. exact H.
    - unfold items_of in Hd. apply Forall_app in Hd. destruct Hd as [Hn He].
      destruct (add_labels_spec (d_nodes d) s Hn Hs) as [N1 I1].
      destruct (add_labels_spec (d_edges d) _ He N1) as [N2 I2].
      destruct (IH _ N2) as [N3 I3]. split; [exact N3|].
      intro x. rewrite I3, I2, I1. unfold labels, items_of. split.
      + intros [[[H | (T & i & Hi & Hl)] | (T & i & Hi & Hl)] | (T & d' & i & Hd' & Hi & Hl)];
          [auto | | | ]; right; (split; [exact T|]).
        * exists d, i. rewrite in_app_iff. cbn [In]. auto 6.
        * exists d, i. rewrite in_app_iff. cbn [In]. auto 6.
        * exists d', i. cbn [In]. auto 6.
      + intros [H | (T & d' & i & [<- | Hd'] & Hi & Hl)]; [auto | | ].
        * apply in_app_iff in Hi. destruct Hi as [Hi | Hi].
          -- left. left. right. split; [exact T|]. exists i. auto.
          -- left. right. split; [exact T|]. exists i. auto.
        * right. split; [exact T|]. exists d', i. auto. }
  intro H. destruct (G [] H (NoDup_nil _)) as [N I]. split; [exact N|].
  intro x. rewrite I. split; [intros [[] | H0]; exact H0 | auto].
Qed.

(** X9. The text content of a document read by [_read_drawio] is the set
    of the non-empty labels of its nodes and edges: every such label occurs in
    it, once, and nothing else does. *)
Theorem drawio_text_content (lib : pylib) (content : string) (doc : drawio_doc) :
  _read_drawio lib content = Return (ReadOk doc) ->
  NoDup (text_content doc) /\
  forall x, In x (text_content doc) <-> truthy x = true /\ labels (diagrams doc) x.
Proof.
  intro H. pose proof (drawio_reader_shape lib content doc H) as Hd.
  assert (E : text_content doc = collect_text (diagrams doc)).
  { unfold _read_drawio in H. destruct (ET_fromstring lib content); [|discriminate H].
    bind_inv H. inversion H; subst. reflexivity. }
  rewrite E. apply collect_text_spec.
  eapply Forall_impl; [|exact Hd]. intros d [Hn He]. unfold items_of.
  apply Forall_app. split.
  - eapply Forall_impl; [|exact Hn]. intros n (id & value & style & geo & -> & _).
    exists value. reflexivity.
  - eapply Forall_impl; [|exact He]. intros e (id & s & t & value & style & -> & _).
    exists value. reflexivity.
Qed.

Lemma drawio_text_content_witness :
  NoDup (text_content sample_drawio_doc) /\
  forall x, In x (text_content sample_drawio_doc)
            <-> truthy x = true /\ labels (diagrams sample_drawio_doc) x.
Proof.
  apply (drawio_text_content (lib_of round_trip_samples) plain_payload sample_drawio_doc).
  vm_compute. reflexivity.
Defined.

(** ** Conversions *)

Lemma read_data_counts (data : pyval) (doc : excalidraw_doc) :
  read_data data = Return doc ->
  x_node_count doc = length (x_nodes doc) /\ x_edge_count doc = length (x_edges doc).
Proof.
  unfold read_data. intro H. do 5 bind_inv H. inversion H; subst. split; reflexivity.
Qed.

Lemma for_each_raises {A B : Type} (f : A -> exc B) (l : list A) (e0 : exn) :
  (forall a e, f a = Raise e -> e = e0) ->
  Exists (fun a => exists e, f a = Raise e) l ->
  for_each f l = Raise e0.
Proof.
  intros Hf H. induction H as [a l (e & He) | a l _ IH]; cbn [for_each].
  - rewrite He. cbn [bind]. f_equal. apply (Hf a e He).
  - destruct (f a) as [b|e] eqn:E; cbn [bind].
    + rewrite IH. reflexivity.
    + f_equal. apply (Hf a e E).
Qed.

Lemma str_attr_raises (kv : string * pyval) (e : exn) : str_attr kv = Raise e -> e = TypeError.
Proof. unfold str_attr. destruct (snd kv); intro H; inversion H; reflexivity. Qed.

Lemma cell_element_raises (c : pydict * pydict) (e : exn) :
  cell_element c = Raise e -> e = TypeError.
Proof.
  unfold cell_element. intro H.
  destruct (for_each str_attr (fst c)) as [a|e1] eqn:E1; cbn [bind] in H.
  - destruct (for_each str_attr (snd c)) as [g|e2] eqn:E2; cbn [bind] in H; [discriminate H|].
    inversion H; subst.
    apply (raises_only_for_each (fun x => x = TypeError) str_attr (snd c) str_attr_raises e E2).
  - inversion H; subst.
    apply (raises_only_for_each (fun x => x = TypeError) str_attr (fst c) str_attr_raises e E1).
Qed.

Lemma loose_edge_cell_raises (i : nat) (e : pydict) :
  x_edge e -> loose_end e -> exists x, cell_element (edge_cell i e) = Raise x.
Proof.
  intros (id & ty & s & t & p & -> & _) Hl.
  assert (H : for_each str_attr (fst (edge_cell i
                [("id", id); ("type", ty); ("source", s); ("target", t); ("points", p)]))
              = Raise TypeError).
  { apply for_each_raises; [apply str_attr_raises|].
    unfold edge_cell. cbn [fst].
    change (get_or _ "source" (PStr "")) with s. change (get_or _ "target" (PStr "")) with t.
    unfold loose_end in Hl.
    change (get _ "source") with s in Hl. change (get _ "target") with t in Hl.
    do 5 apply Exists_cons_tl.
    destruct Hl as [-> | ->].
    - apply Exists_cons_hd. exists TypeError. reflexivity.
    - apply Exists_cons_tl, Exists_cons_hd. exists TypeError. reflexivity. }
  unfold cell_element. rewrite H. eexists. reflexivity.
Qed.

Lemma enumerate_from_in {A : Type} (l : list A) (s i : nat) (a : A) :
  nth_error l i = Some a -> In ((s + i)%nat, a) (enumerate_from s l).
Proof.
  revert s i. induction l as [|x l IH]; intros s [|i] H; cbn [enumerate_from];
    try discriminate H.
  - inversion H; subst. left. rewrite Nat.add_0_r. reflexivity.
  - right. replace (s + S i)%nat with (S s + i)%nat by lia. apply IH. exact H.
Qed.

Lemma x_node_cell (i : nat) (n : pydict) : x_node n -> exists c, node_cell i n = Return c.
Proof.
  intros [(id & tx & x & y & w & h & -> & _)
         | (id & ty & x & y & w & h & bg & st & be & -> & _)];
    eexists; reflexivity.
Qed.

Section Conversions.

Variable lib : pylib.
Variable timestamp : Z.
Variable gen_id : site -> nat -> string.
Variable randint : site -> nat -> Z.

(** X10. When [diagram_convert] returns the success record that counts
    the converted nodes and edges ([Converted]; the route from SVG to PNG
    returns another record, without counts), it has read a draw.io or an
    Excalidraw source without an error, has written what the generator of the
    target format (draw.io, Excalidraw or SVG, the latter on a canvas of 800
    by 600) makes of all nodes and all edges that were read, the pages of a
    draw.io source merged into the one page Page-1, and reports the counts of
    the reader's metadata. *)
Theorem convert_success_sound (source_ext target_ext content : string) (out : written)
    (n e : nat) :
  diagram_convert lib timestamp gen_id randint source_ext target_ext content
    = Converted out n e ->
  exists nodes edges,
    ((is_drawio_ext source_ext = true /\
      exists doc, _read_drawio lib content = Return (ReadOk doc) /\
                  nodes = concat (map d_nodes (diagrams doc)) /\
                  edges = concat (map d_edges (diagrams doc)) /\
                  n = total_nodes doc /\ e = total_edges doc) \/
     (source_ext = ".excalidraw" /\
      exists doc, _read_excalidraw lib content = Return (ReadOk doc) /\
                  nodes = x_nodes doc /\ edges = x_edges doc /\
                  n = x_node_count doc /\ e = x_edge_count doc)) /\
    ((is_drawio_ext target_ext = true /\
      exists c, out = WText c /\ _create_drawio_xml lib nodes edges "Page-1" = Return c) \/
     (target_ext = ".excalidraw" /\
      exists c, out = WText c /\
                _create_excalidraw_json timestamp gen_id randint lib nodes edges = Return c) \/
     (target_ext = ".svg" /\
      exists parts, out = WSvg parts /\
                    _create_svg nodes edges (NInt 800) (NInt 600) = Return parts)).
Proof.
  unfold diagram_convert. intro H.
  destruct (read_source lib source_ext target_ext content) as [[early | [ns es]]|x] eqn:R;
    cbn [bind] in H; [| |discriminate H].
  - exfalso. subst early. unfold read_source in R.
    destruct (is_drawio_ext source_ext).
    { bind_inv R. destruct a; inversion R. }
    destruct (String.eqb source_ext ".excalidraw").
    { bind_inv R. destruct a; inversion R. }
    destruct (String.eqb source_ext ".svg"); [destruct (negb _)|]; inversion R.
  - assert (Hw : write_target lib timestamp gen_id randint target_ext ns es
                 = Return (Converted out n e)).
    { destruct (write_target _ _ _ _ _ _ _); [congruence | discriminate H]. }
    clear H. exists ns, es. split.
    + unfold read_source in R. destruct (is_drawio_ext source_ext) eqn:Sd.
      * left. split; [reflexivity|]. bind_inv R. destruct a as [msg|doc]; inversion R; subst.
        exists doc. split; [exact E|]. split; [reflexivity|]. split; [reflexivity|].
        unfold _read_drawio in E. destruct (ET_fromstring lib content); [|discriminate E].
        bind_inv E. inversion E; subst. cbn [total_nodes total_edges diagrams summarize].
        rewrite !count_with_concat.
        unfold write_target in Hw.
        repeat match type of Hw with
               | (if ?c then _ else _) = _ => destruct c
               | bind ?m _ = _ => destruct m; cbn [bind] in Hw
               end; inversion Hw; split; reflexivity.
      * destruct (String.eqb source_ext ".excalidraw") eqn:Sx.
        -- right. apply String.eqb_eq in Sx. split; [exact Sx|].
           bind_inv R. destruct a as [msg|doc]; inversion R; subst.
           exists doc. split; [exact E|]. split; [reflexivity|]. split; [reflexivity|].
           unfold _read_excalidraw in E. destruct (json_loads lib content); [|discriminate E].
           bind_inv E. inversion E; subst.
           destruct (read_data_counts a doc E0) as [-> ->].
           unfold write_target in Hw.
           repeat match type of Hw with
                  | (if ?c then _ else _) = _ => destruct c
                  | bind ?m _ = _ => destruct m; cbn [bind] in Hw
                  end; inversion Hw; split; reflexivity.
        -- destruct (String.eqb source_ext ".svg"); [destruct (negb _)|]; inversion R.
    + unfold write_target in Hw. destruct (is_drawio_ext target_ext).
      * left. split; [reflexivity|]. bind_inv Hw. inversion Hw; subst. eauto.
      * destruct (String.eqb target_ext ".excalidraw") eqn:Tx.
        -- right. left. apply String.eqb_eq in Tx. split; [exact Tx|].
           bind_inv Hw. inversion Hw; subst. eauto.
        -- destruct (String.eqb target_ext ".svg") eqn:Ts.
           ++ right. right. apply String.eqb_eq in Ts. split; [exact Ts|].
              bind_inv Hw. inversion Hw; subst. eauto.
           ++ destruct (String.eqb target_ext ".png"); inversion Hw.
Qed.

(** X11. When the reader of the source format reports a text that is no
    XML or no JSON, the conversion returns that error whatever the target
    is, also for a target it would refuse. *)
Theorem convert_reports_reader_error (source_ext target_ext content msg : string) :
  (is_drawio_ext source_ext = true /\ _read_drawio lib content = Return (ReadError msg)) \/
  (source_ext = ".excalidraw" /\ _read_excalidraw lib content = Return (ReadError msg)) ->
  diagram_convert lib timestamp gen_id randint source_ext target_ext content
    = ParseFailed msg.
Proof.
  intros [[Hs Hr] | [-> Hr]]; unfold diagram_convert, read_source.
  - rewrite Hs, Hr. reflexivity.
  - change (is_drawio_ext ".excalidraw") with false.
    change (String.eqb ".excalidraw" ".excalidraw") with true. cbv iota.
    rewrite Hr. reflexivity.
Qed.

(** X12. An Excalidraw document with an arrow or a line that is not bound
    at both ends cannot be converted to draw.io: the end that is [None] is
    written as an attribute of the cell, serialising it raises [TypeError],
    and the conversion ends in its handler for unexpected errors. *)
Theorem loose_arrow_not_convertible (content : string) (doc : excalidraw_doc) :
  _read_excalidraw lib content = Return (ReadOk doc) ->
  Exists loose_end (x_edges doc) ->
  diagram_convert lib timestamp gen_id randint ".excalidraw" ".drawio" content
    = Caught TypeError.
Proof.
  intros Hr Hl.
  assert (Hs : Forall x_node (x_nodes doc) /\ Forall x_edge (x_edges doc)).
  { unfold _read_excalidraw in Hr. destruct (json_loads lib content); [|discriminate Hr].
    bind_inv Hr. inversion Hr; subst. apply (read_data_shape a doc E). }
  destruct Hs as [Xn Xe].
  unfold diagram_convert, read_source.
  change (is_drawio_ext ".excalidraw") with false.
  change (String.eqb ".excalidraw" ".excalidraw") with true. cbv iota.
  rewrite Hr. cbn [bind]. unfold write_target.
  change (is_drawio_ext ".drawio") with true. cbv iota.
  unfold _create_drawio_xml, drawio_tree.
  destruct (for_each_all (fun '(i, node) => node_cell i node) (enumerate (x_nodes doc)))
    as (ncells & ->).
  { apply Forall_forall. intros [i n] Hin. apply x_node_cell.
    rewrite Forall_forall in Xn. eapply Xn, nth_error_In, enumerate_nth, Hin. }
  cbn [bind].
  rewrite (for_each_raises cell_element _ TypeError cell_element_raises); [reflexivity|].
  apply Exists_app. right. apply Exists_exists in Hl. destruct Hl as (e & Hin & Hle).
  destruct (In_nth_error _ _ Hin) as (i & Hi).
  apply Exists_exists. exists (edge_cell i e). split.
  - apply in_map_iff. exists (i, e). split; [reflexivity|].
    apply (enumerate_from_in (x_edges doc) 0 i e Hi).
  - apply loose_edge_cell_raises; [|exact Hle].
    rewrite Forall_forall in Xe. apply Xe, Hin.
Qed.

End Conversions.

Lemma convert_success_sound_witness :
  exists nodes edges,
    ((is_drawio_ext ".drawio" = true /\
      exists doc, _read_drawio (lib_of conversion_samples) plain_payload = Return (ReadOk doc) /\
                  nodes = concat (map d_nodes (diagrams doc)) /\
                  edges = concat (map d_edges (diagrams doc)) /\
                  2%nat = total_nodes doc /\ 1%nat = total_edges doc) \/
     (".drawio" = ".excalidraw" /\
      exists doc, _read_excalidraw (lib_of conversion_samples) plain_payload
                    = Return (ReadOk doc) /\
                  nodes = x_nodes doc /\ edges = x_edges doc /\
                  2%nat = x_node_count doc /\ 1%nat = x_edge_count doc)) /\
    ((is_drawio_ext ".svg" = true /\
      exists c, converted_svg = WText c /\
                _create_drawio_xml (lib_of conversion_samples) nodes edges "Page-1"
                  = Return c) \/
     (".svg" = ".excalidraw" /\
      exists c, converted_svg = WText c /\
                _create_excalidraw_json sample_time sample_id sample_int
                  (lib_of conversion_samples) nodes edges = Return c) \/
     (".svg" = ".svg" /\
      exists parts, converted_svg = WSvg parts /\
                    _create_svg nodes edges (NInt 800) (NInt 600) = Return parts)).
Proof.
  apply (convert_success_sound (lib_of conversion_samples) sample_time sample_id sample_int
           ".drawio" ".svg" plain_payload converted_svg 2 1).
  vm_compute. reflexivity.
Defined.

Lemma convert_reports_reader_error_witness :
  diagram_convert (lib_of conversion_samples) sample_time sample_id sample_int
    ".xml" ".png" "<mxfile" = ParseFailed "Invalid XML: syntax error: line 1, column 0".
Proof.
  apply (convert_reports_reader_error (lib_of conversion_samples) sample_time sample_id
           sample_int ".xml" ".png" "<mxfile" "Invalid XML: syntax error: line 1, column 0").
  left. split; reflexivity.
Defined.

Lemma loose_arrow_not_convertible_witness :
  diagram_convert (lib_of conversion_samples) sample_time sample_id sample_int
    ".excalidraw" ".drawio" loose_arrow_json = Caught TypeError.
Proof.
  apply (loose_arrow_not_convertible (lib_of conversion_samples) sample_time sample_id
           sample_int loose_arrow_json loose_arrow_doc).
  - vm_compute. reflexivity.
  - let l := eval vm_compute in (x_edges loose_arrow_doc) in
    change (x_edges loose_arrow_doc) with l.
    apply Exists_cons_hd. left. reflexivity.
Defined.

(** ** The canvas of the SVG *)

Lemma fold_min_le (r : list pynum) (a : pynum) :
  numQ (fold_left (fun cur x => if num_ltb x cur then x else cur) r a) <= numQ a /\
  forall x, In x r ->
            numQ (fold_left (fun cur x => if num_ltb x cur then x else cur) r a) <= numQ x.
Proof.
  revert a. induction r as [|y r IH]; intro a; cbn [fold_left].
  - split; [apply Qle_refl | intros x []].
  - destruct (num_ltb y a) eqn:E; unfold num_ltb in E.
    + apply num_gtb_lt in E. destruct (IH y) as [H1 H2]. split.
      * eapply Qle_trans; [exact H1 | apply Qlt_le_weak, E].
      * intros x [<- | Hx]; [exact H1 | apply H2, Hx].
    + apply num_gtb_le in E. destruct (IH a) as [H1 H2]. split; [exact H1|].
      intros x [<- | Hx]; [eapply Qle_trans; [exact H1 | exact E] | apply H2, Hx].
Qed.

Lemma fold_max_ge (r : list pynum) (a : pynum) :
  numQ a <= numQ (fold_left (fun cur x => if num_gtb x cur then x else cur) r a) /\
  forall x, In x r ->
            numQ x <= numQ (fold_left (fun cur x => if num_gtb x cur then x else cur) r a).
Proof.
  revert a. induction r as [|y r IH]; intro a; cbn [fold_left].
  - split; [apply Qle_refl | intros x []].
  - destruct (num_gtb y a) eqn:E.
    + apply num_gtb_lt in E. destruct (IH y) as [H1 H2]. split.
      * eapply Qle_trans; [apply Qlt_le_weak, E | exact H1].
      * intros x [<- | Hx]; [exact H1 | apply H2, Hx].
    + apply num_gtb_le in E. destruct (IH a) as [H1 H2]. split; [exact H1|].
      intros x [<- | Hx]; [eapply Qle_trans; [exact E | exact H1] | apply H2, Hx].
Qed.

Lemma min_default_le (xs : list pynum) (d x : pynum) :
  In x xs -> numQ (min_default xs d) <= numQ x.
Proof.
  destruct xs as [|a r]; [intros []|]. cbn [min_default].
  destruct (fold_min_le r a) as [H1 H2]. intros [<- | Hx]; [exact H1 | apply H2, Hx].
Qed.

Lemma max_default_ge (xs : list pynum) (d x : pynum) :
  In x xs -> numQ x <= numQ (max_default xs d).
Proof.
  destruct xs as [|a r]; [intros []|]. cbn [max_default].
  destruct (fold_max_ge r a) as [H1 H2]. intros [<- | Hx]; [exact H1 | apply H2, Hx].
Qed.

Lemma for_each_in {A B : Type} (f : A -> exc B) (l : list A) (bs : list B) (a : A) :
  for_each f l = Return bs -> In a l -> exists b, f a = Return b /\ In b bs.
Proof.
  revert bs. induction l as [|x l IH]; cbn [for_each]; intros bs H Hin; [destruct Hin|].
  do 2 bind_inv H. inversion H; subst. destruct Hin as [<- | Hin].
  - exists a0. split; [exact E | left; reflexivity].
  - destruct (IH a1 E0 Hin) as (b & Hb & Hbs). exists b. split; [exact Hb | right; exact Hbs].
Qed.

Lemma num_max_ge (a b : pynum) :
  numQ a <= numQ (num_max a b) /\ numQ b <= numQ (num_max a b).
Proof.
  rewrite numQ_max. split; [apply Q.le_max_l | apply Q.le_max_r].
Qed.

(** On well-formed input [_create_svg] returns the header for a canvas, the
    parts of the nodes and the parts of the edges; the canvas is computed
    from the least left and top and the greatest right and bottom. *)
Lemma create_svg_parts (nodes edges : list pydict) (width height : pynum) :
  Forall well_formed_node nodes -> Forall well_formed_edge edges ->
  exists xs ys rs bs ps m qs,
    for_each (fun n => num_field n "x" 0) nodes = Return xs /\
    for_each (fun n => num_field n "y" 0) nodes = Return ys /\
    for_each (fun n => x <- num_field n "x" 0 ;; w <- num_field n "width" 120 ;;
                       Return (num_add x w)) nodes = Return rs /\
    for_each (fun n => y <- num_field n "y" 0 ;; h <- num_field n "height" 60 ;;
                       Return (num_add y h)) nodes = Return bs /\
    for_each (fun '(i, node) => svg_node (min_default xs (NInt 0)) (min_default ys (NInt 0))
                                  i node) (enumerate nodes) = Return ps /\
    for_each (svg_edge (min_default xs (NInt 0)) (min_default ys (NInt 0)) m) edges
      = Return qs /\
    _create_svg nodes edges width height =
      Return (svg_header
                (num_max width
                   (num_add (num_sub (max_default rs width) (min_default xs (NInt 0)))
                            (num_mul padding two)))
                (num_max height
                   (num_add (num_sub (max_default bs height) (min_default ys (NInt 0)))
                            (num_mul padding two)))
              ++ concat ps ++ concat qs ++ [SvgLiteral "</svg>"]).
Proof.
  intros Hn He. unfold _create_svg.
  assert (H1 : exists xs, for_each (fun n => num_field n "x" 0) nodes = Return xs).
  { apply for_each_all. eapply Forall_impl; [|exact Hn].
    intros n (Hx & _). apply num_field_ok, Hx. }
  assert (H2 : exists ys, for_each (fun n => num_field n "y" 0) nodes = Return ys).
  { apply for_each_all. eapply Forall_impl; [|exact Hn].
    intros n (_ & Hy & _). apply num_field_ok, Hy. }
  assert (H3 : exists rs,
             for_each (fun n => x <- num_field n "x" 0 ;; w <- num_field n "width" 120 ;;
                                Return (num_add x w)) nodes = Return rs).
  { apply for_each_all. eapply Forall_impl; [|exact Hn].
    intros n (Hx & _ & Hw & _). field_ok Hx "x" 0%Z. field_ok Hw "width" 120%Z.
    eexists; reflexivity. }
  assert (H4 : exists bs,
             for_each (fun n => y <- num_field n "y" 0 ;; h <- num_field n "height" 60 ;;
                                Return (num_add y h)) nodes = Return bs).
  { apply for_each_all. eapply Forall_impl; [|exact Hn].
    intros n (_ & Hy & _ & Hh & _). field_ok Hy "y" 0%Z. field_ok Hh "height" 60%Z.
    eexists; reflexivity. }
  destruct H1 as (xs & E1), H2 as (ys & E2), H3 as (rs & E3), H4 as (bs & E4).
  rewrite E1, E2, E3, E4. cbn [bind].
  set (min_x := min_default xs (NInt 0)). set (min_y := min_default ys (NInt 0)).
  assert (H5 : exists ps, for_each (fun '(i, node) => svg_node min_x min_y i node)
                            (enumerate nodes) = Return ps).
  { apply for_each_all. apply Forall_forall. intros [i n] Hin.
    apply svg_node_ok. rewrite Forall_forall in Hn.
    eapply Hn, nth_error_In, enumerate_nth, Hin. }
  destruct H5 as (ps & E5). rewrite E5. cbn [bind].
  destruct (svg_lookup_ok nodes Hn) as (m & -> & Hm). cbn [bind].
  assert (H6 : exists qs, for_each (svg_edge min_x min_y m) edges = Return qs).
  { apply for_each_all. eapply Forall_impl; [|exact He].
    intros e Hwe. apply (svg_edge_ok nodes min_x min_y m e Hn Hm Hwe). }
  destruct H6 as (qs & E6). rewrite E6. cbn [bind].
  exists xs, ys, rs, bs, ps, m, qs. repeat split; assumption || reflexivity.
Qed.

(** X13. On nodes whose position and size are ints within the bound and
    whose ids can be hashed, on edges whose references can be hashed, and for
    a width and a height that are ints within the bound, [_create_svg]
    returns, and the canvas of the SVG is at least as wide and as high as
    asked for, and wide and high enough for the span of the nodes with a
    padding of 50 on each side: from the left of any node to the right of any
    node, and from the top of any node to the bottom of any node, as the
    bounds read them (a missing position read as 0, a missing size as 120 by
    60). *)
Theorem svg_canvas_fits (nodes edges : list pydict) (width height : pynum) :
  Forall (node_with small_int) nodes -> Forall well_formed_edge edges ->
  small_int width -> small_int height ->
  exists parts view_width view_height,
    _create_svg nodes edges width height = Return parts /\
    canvas parts = Some (view_width, view_height) /\
    numQ width <= view_width /\ numQ height <= view_height /\
    (forall a b xa xb wb,
       In a nodes -> In b nodes -> num_field a "x" 0 = Return xa ->
       num_field b "x" 0 = Return xb -> num_field b "width" 120 = Return wb ->
       numQ xb + numQ wb - numQ xa + 100 <= view_width) /\
    (forall a b ya yb hb,
       In a nodes -> In b nodes -> num_field a "y" 0 = Return ya ->
       num_field b "y" 0 = Return yb -> num_field b "height" 60 = Return hb ->
       numQ yb + numQ hb - numQ ya + 100 <= view_height).
Proof.
  intros Hs He _ _. pose proof (nodes_with_well_formed _ _ Hs) as Hn.
  destruct (create_svg_parts nodes edges width height Hn He)
    as (xs & ys & rs & bs & ps & m & qs & E1 & E2 & E3 & E4 & _ & _ & E).
  eexists. eexists. eexists. split; [exact E|]. split; [reflexivity|].
  split; [apply num_max_ge|]. split; [apply num_max_ge|]. split.
  - intros a b xa xb wb Ha Hb Hxa Hxb Hwb.
    destruct (for_each_in _ _ _ a E1 Ha) as (xa' & Hxa' & Ixa).
    rewrite Hxa in Hxa'. inversion Hxa'; subst xa'.
    destruct (for_each_in _ _ _ b E3 Hb) as (rb & Hrb & Irb).
    cbv beta in Hrb. rewrite Hxb, Hwb in Hrb. cbn [bind] in Hrb. inversion Hrb; subst rb.
    pose proof (min_default_le xs (NInt 0) xa Ixa) as Hmin.
    pose proof (max_default_ge rs width _ Irb) as Hmax. rewrite numQ_add in Hmax.
    eapply Qle_trans; [|apply num_max_ge].
    rewrite numQ_add, numQ_sub. change (numQ (num_mul padding two)) with 100.
    lra.
  - intros a b ya yb hb Ha Hb Hya Hyb Hhb.
    destruct (for_each_in _ _ _ a E2 Ha) as (ya' & Hya' & Iya).
    rewrite Hya in Hya'. inversion Hya'; subst ya'.
    destruct (for_each_in _ _ _ b E4 Hb) as (bb & Hbb & Ibb).
    cbv beta in Hbb. rewrite Hyb, Hhb in Hbb. cbn [bind] in Hbb. inversion Hbb; subst bb.
    pose proof (min_default_le ys (NInt 0) ya Iya) as Hmin.
    pose proof (max_default_ge bs height _ Ibb) as Hmax. rewrite numQ_add in Hmax.
    eapply Qle_trans; [|apply num_max_ge].
    rewrite numQ_add, numQ_sub. change (numQ (num_mul padding two)) with 100.
    lra.
Qed.

Lemma svg_canvas_fits_witness :
  exists parts view_width view_height,
    _create_svg sample_nodes [sample_edge] (NInt 800) (NInt 600) = Return parts /\
    canvas parts = Some (view_width, view_height) /\
    numQ (NInt 800) <= view_width /\ numQ (NInt 600) <= view_height /\
    (forall a b xa xb wb,
       In a sample_nodes -> In b sample_nodes -> num_field a "x" 0 = Return xa ->
       num_field b "x" 0 = Return xb -> num_field b "width" 120 = Return wb ->
       numQ xb + numQ wb - numQ xa + 100 <= view_width) /\
    (forall a b ya yb hb,
       In a sample_nodes -> In b sample_nodes -> num_field a "y" 0 = Return ya ->
       num_field b "y" 0 = Return yb -> num_field b "height" 60 = Return hb ->
       numQ yb + numQ hb - numQ ya + 100 <= view_height).
Proof.
  apply (svg_canvas_fits sample_nodes [sample_edge] (NInt 800) (NInt 600));
    first [ eexists; split; [reflexivity | unfold int_bound; simpl; lia]
          | repeat constructor ].
Defined.

(** ** The nodes and edges in the SVG *)

Lemma for_each_Forall2 {A B : Type} (P : A -> B -> Prop) (f : A -> exc B) (l : list A)
    (bs : list B) :
  for_each f l = Return bs -> (forall a b, In a l -> f a = Return b -> P a b) ->
  Forall2 P l bs.
Proof.
  revert bs. induction l as [|a l IH]; cbn [for_each]; intros bs H Hp.
  - inversion H. constructor.
  - do 2 bind_inv H. inversion H; subst. constructor.
    + apply Hp; [left; reflexivity | exact E].
    + apply IH; [exact E0|]. intros x b Hx. apply Hp. right. exact Hx.
Qed.

Lemma num_field_cases (n : pydict) (k : string) (d : Z) (v : pynum) :
  num_field n k d = Return v ->
  states n k v \/ (dict_get n k = None /\ v = NInt d).
Proof.
  unfold num_field, get_or, states. destruct (dict_get n k) as [x|]; intro H.
  - left. exists x. auto.
  - right. inversion H. auto.
Qed.

Lemma states_num_field (n : pydict) (k : string) (d : Z) (v : pynum) :
  states n k v -> num_field n k d = Return v.
Proof. intros (x & Hx & Hv). unfold num_field, get_or. rewrite Hx. exact Hv. Qed.

Lemma numQ_half_two (a : pynum) : numQ (num_div a two) == numQ a / 2.
Proof. apply numQ_half. Qed.

(** The shape of a node: where it is drawn. *)
Lemma svg_node_drawn (min_x min_y : pynum) (i : nat) (n : pydict) (parts : list svg_part) :
  svg_node min_x min_y i n = Return parts ->
  exists shape rest x0 y0 w h l t r b,
    parts = shape :: rest /\ is_shape shape = true /\
    Forall (fun p => is_shape p = false /\ is_line p = false) rest /\
    num_field n "x" (Z.of_nat i * 150) = Return x0 /\ num_field n "y" 100 = Return y0 /\
    num_field n "width" 120 = Return w /\ num_field n "height" 60 = Return h /\
    shape_box shape = Some (l, t, r, b) /\
    l == numQ x0 - numQ min_x + 50 /\ t == numQ y0 - numQ min_y + 50 /\
    r == l + numQ w /\ b == t + numQ h.
Proof.
  unfold svg_node. intro H. do 4 bind_inv H. rename a into x0, a0 into y0, a1 into w, a2 into h.
  set (x := num_add (num_sub x0 min_x) padding) in *.
  set (y := num_add (num_sub y0 min_y) padding) in *.
  assert (Hx : numQ x == numQ x0 - numQ min_x + 50).
  { unfold x. rewrite numQ_add, numQ_sub. reflexivity. }
  assert (Hy : numQ y == numQ y0 - numQ min_y + 50).
  { unfold y. rewrite numQ_add, numQ_sub. reflexivity. }
  assert (Hr : forall lab : pyval,
             Forall (fun p => is_shape p = false /\ is_line p = false)
                    [SvgNodeLabel (num_add x (num_div w two))
                                  (num_add (num_add y (num_div h two)) (NInt 5)) lab])
    by (intro; repeat constructor).
  destruct (eq_str _ "ellipse" || eq_str _ "circle").
  - destruct (truthy _); inversion H; subst;
      do 10 eexists; (split; [reflexivity|]); (split; [reflexivity|]);
      (split; [first [apply Hr | constructor]|]); repeat (split; [eassumption|]);
      (split; [reflexivity|]);
      rewrite ?numQ_add, ?numQ_half_two; repeat split; unfold Qdiv; change (/ 2) with (1 # 2); lra.
  - destruct (eq_str _ "diamond").
    + destruct (truthy _); inversion H; subst;
        do 10 eexists; (split; [reflexivity|]); (split; [reflexivity|]);
        (split; [first [apply Hr | constructor]|]); repeat (split; [eassumption|]);
        (split; [reflexivity|]); cbn [fst snd];
        rewrite ?numQ_add, ?numQ_half_two; repeat split; unfold Qdiv; change (/ 2) with (1 # 2); lra.
    + destruct (truthy _); inversion H; subst;
        do 10 eexists; (split; [reflexivity|]); (split; [reflexivity|]);
        (split; [first [apply Hr | constructor]|]); repeat (split; [eassumption|]);
        (split; [reflexivity|]);
        repeat split; lra.
Qed.

Lemma svg_edge_drawn (min_x min_y : pynum) (m : list (pyval * pydict)) (e : pydict)
    (q : list svg_part) :
  svg_edge min_x min_y m e = Return q ->
  Forall (fun p => is_shape p = false) q /\ (length (filter is_line q) <= 1)%nat.
Proof.
  unfold svg_edge. intro H. bind_inv H. destruct a as [[s t]|].
  - do 7 bind_inv H. destruct (truthy _); inversion H; subst;
      (split; [repeat constructor | cbn; lia]).
  - inversion H; subst. split; [constructor | cbn; lia].
Qed.

Lemma Forall2_enumerate {A B : Type} (Q : A -> B -> Prop) (l : list A) (s : nat)
    (bs : list B) :
  Forall2 (fun p b => Q (snd p) b) (enumerate_from s l) bs -> Forall2 Q l bs.
Proof.
  revert s bs. induction l as [|a l IH]; intros s bs H; cbn [enumerate_from] in H;
    inversion H; subst; constructor; [assumption | eapply IH; eassumption].
Qed.

Lemma numQ_index (i : nat) (k : Z) : (0 <= k)%Z -> 0 <= numQ (NInt (Z.of_nat i * k)).
Proof. intro H. unfold Qle. simpl. nia. Qed.

(** X14. On nodes whose position and size are ints within the bound and
    whose ids can be hashed, on edges whose references can be hashed, and for
    a width and a height that are ints within the bound, [_create_svg]
    returns, and every node is drawn as one shape that keeps the padding of
    50 to the left and to the top edge of the canvas, also a node without a
    position, which is placed at [(150 i, 100)]; a node that states its
    horizontal position keeps the padding to the right edge, and one that
    states its vertical position keeps it to the bottom edge. *)
Theorem svg_nodes_inside (nodes edges : list pydict) (width height : pynum) :
  Forall (node_with small_int) nodes -> Forall well_formed_edge edges ->
  small_int width -> small_int height ->
  exists view_width view_height ps qs,
    _create_svg nodes edges width height =
      Return (svg_header view_width view_height ++ concat ps ++ concat qs
              ++ [SvgLiteral "</svg>"]) /\
    Forall2 (drawn_inside (numQ view_width) (numQ view_height)) nodes ps.
Proof.
  intros Hsmall He _ _. pose proof (nodes_with_well_formed _ _ Hsmall) as Hn. clear Hsmall.
  destruct (create_svg_parts nodes edges width height Hn He)
    as (xs & ys & rs & bs & ps & m & qs & E1 & E2 & E3 & E4 & E5 & _ & E).
  do 2 eexists. exists ps, qs. split; [exact E|].
  apply (Forall2_enumerate _ nodes 0 ps).
  apply (for_each_Forall2 _ _ _ _ E5). intros [i n] parts Hin Hp. cbn [snd].
  apply enumerate_nth, nth_error_In in Hin.
  destruct (svg_node_drawn _ _ i n parts Hp)
    as (shape & rest & x0 & y0 & w & h & l & t & r & b & -> & Hs & Hrest & Hx0 & Hy0 & Hw & Hh
        & Hbox & Hl & Ht & Hr & Hb).
  exists shape, rest, l, t, r, b.
  assert (Mx : numQ (min_default xs (NInt 0)) <= numQ x0).
  { destruct (num_field_cases _ _ _ _ Hx0) as [S | [N ->]].
    - destruct (for_each_in _ _ _ n E1 Hin) as (x' & Hx' & Ix).
      rewrite (states_num_field _ _ 0 _ S) in Hx'. inversion Hx'; subst x'.
      apply min_default_le, Ix.
    - destruct (for_each_in _ _ _ n E1 Hin) as (x' & Hx' & Ix).
      unfold num_field, get_or in Hx'. rewrite N in Hx'. inversion Hx'; subst x'.
      eapply Qle_trans; [apply (min_default_le xs (NInt 0) _ Ix)|].
      apply (numQ_index i 150). lia. }
  assert (My : numQ (min_default ys (NInt 0)) <= numQ y0).
  { destruct (num_field_cases _ _ _ _ Hy0) as [S | [N ->]].
    - destruct (for_each_in _ _ _ n E2 Hin) as (y' & Hy' & Iy).
      rewrite (states_num_field _ _ 0 _ S) in Hy'. inversion Hy'; subst y'.
      apply min_default_le, Iy.
    - destruct (for_each_in _ _ _ n E2 Hin) as (y' & Hy' & Iy).
      unfold num_field, get_or in Hy'. rewrite N in Hy'. inversion Hy'; subst y'.
      eapply Qle_trans; [apply (min_default_le ys (NInt 0) _ Iy)|].
      unfold Qle. simpl. lia. }
  repeat (split; [first [reflexivity | assumption]|]).
  split; [lra|]. split; [lra|]. split.
  - intros (x & S).
    rewrite (states_num_field _ _ (Z.of_nat i * 150) _ S) in Hx0. inversion Hx0; subst x0.
    destruct (for_each_in _ _ _ n E3 Hin) as (rb & Hrb & Irb). cbv beta in Hrb.
    rewrite (states_num_field _ _ 0 _ S), Hw in Hrb. cbn [bind] in Hrb.
    inversion Hrb; subst rb.
    pose proof (max_default_ge rs width _ Irb) as Hmax. rewrite numQ_add in Hmax.
    eapply Qle_trans; [|apply num_max_ge].
    rewrite numQ_add, numQ_sub. change (numQ (num_mul padding two)) with 100.
    lra.
  - intros (y & S).
    rewrite (states_num_field _ _ 100 _ S) in Hy0. inversion Hy0; subst y0.
    destruct (for_each_in _ _ _ n E4 Hin) as (bb & Hbb & Ibb). cbv beta in Hbb.
    rewrite (states_num_field _ _ 0 _ S), Hh in Hbb. cbn [bind] in Hbb.
    inversion Hbb; subst bb.
    pose proof (max_default_ge bs height _ Ibb) as Hmax. rewrite numQ_add in Hmax.
    eapply Qle_trans; [|apply num_max_ge].
    rewrite numQ_add, numQ_sub. change (numQ (num_mul padding two)) with 100.
    lra.
Qed.

Lemma svg_nodes_inside_witness :
  exists view_width view_height ps qs,
    _create_svg placed_nodes [sample_edge] (NInt 800) (NInt 600) =
      Return (svg_header view_width view_height ++ concat ps ++ concat qs
              ++ [SvgLiteral "</svg>"]) /\
    Forall2 (drawn_inside (numQ view_width) (numQ view_height)) placed_nodes ps.
Proof.
  assert (S : forall z, (Z.abs z <= 1000)%Z -> small_int (NInt z)).
  { intros z Hz. exists z. split; [reflexivity | unfold int_bound; lia]. }
  apply (svg_nodes_inside placed_nodes [sample_edge] (NInt 800) (NInt 600)).
  - repeat constructor; simpl; eexists; (split; [reflexivity | apply S; simpl; lia]).
  - repeat constructor.
  - apply S. simpl. lia.
  - apply S. simpl. lia.
Defined.

Lemma enumerate_from_length {A : Type} (l : list A) (s : nat) :
  length (enumerate_from s l) = length l.
Proof.
  revert s. induction l as [|a l IH]; intro s; cbn [enumerate_from length];
    [reflexivity | f_equal; apply IH].
Qed.

Lemma shape_not_line (p : svg_part) : is_shape p = true -> is_line p = false.
Proof. destruct p; simpl; intro H; congruence. Qed.

Lemma node_parts_counts (ps : list (list svg_part)) :
  Forall (fun parts => exists shape rest,
            parts = shape :: rest /\ is_shape shape = true /\
            Forall (fun p => is_shape p = false /\ is_line p = false) rest) ps ->
  length (filter is_shape (concat ps)) = length ps /\ filter is_line (concat ps) = [].
Proof.
  induction 1 as [|parts ps (shape & rest & -> & Hs & Hr) _ [IH1 IH2]]; [split; reflexivity|].
  assert (R : filter is_shape rest = [] /\ filter is_line rest = []).
  { clear - Hr. induction Hr as [|p rest [H1 H2] _ [I1 I2]]; [split; reflexivity|].
    cbn [filter]. rewrite H1, H2. auto. }
  destruct R as [R1 R2].
  cbn [concat]. rewrite !filter_app. cbn [filter app].
  rewrite Hs, (shape_not_line _ Hs), R1, R2, IH2. cbn [app length]. rewrite IH1.
  split; reflexivity.
Qed.

Lemma edge_parts_counts (qs : list (list svg_part)) :
  Forall (fun q => Forall (fun p => is_shape p = false) q /\
                   (length (filter is_line q) <= 1)%nat) qs ->
  filter is_shape (concat qs) = [] /\ (length (filter is_line (concat qs)) <= length qs)%nat.
Proof.
  induction 1 as [|q qs [Hs Hl] _ [IH1 IH2]]; [split; [reflexivity | cbn; lia]|].
  assert (R : filter is_shape q = []).
  { clear - Hs. induction Hs as [|p q H _ IH]; [reflexivity|]. cbn [filter]. rewrite H. exact IH. }
  cbn [concat]. rewrite !filter_app, R, IH1, length_app. cbn [app length].
  split; [reflexivity | lia].
Qed.

(** What is written for a node is a shape and the text of its label, for an
    edge a line and the text of its label. *)
Lemma svg_node_kinds (min_x min_y : pynum) (i : nat) (n : pydict) (parts : list svg_part) :
  svg_node min_x min_y i n = Return parts ->
  Forall (fun p => is_shape p || is_line p || is_label p = true) parts.
Proof.
  unfold svg_node. intro H. do 4 bind_inv H.
  destruct (eq_str _ "ellipse" || eq_str _ "circle"); [|destruct (eq_str _ "diamond")];
    destruct (truthy _); inversion H; repeat constructor.
Qed.

Lemma svg_edge_kinds (min_x min_y : pynum) (m : list (pyval * pydict)) (e : pydict)
    (parts : list svg_part) :
  svg_edge min_x min_y m e = Return parts ->
  Forall (fun p => is_shape p || is_line p || is_label p = true) parts.
Proof.
  unfold svg_edge. intro H. bind_inv H. destruct a as [[src tgt]|].
  - do 7 bind_inv H. destruct (truthy _); inversion H; repeat constructor.
  - inversion H. constructor.
Qed.

(** X15. On nodes whose position and size are floats or ints within the
    bound and whose ids can be hashed, on edges whose references can be
    hashed, and for a width and a height within the bound, [_create_svg]
    returns the header, a body and the closing tag.  The header is fixed but
    for the size of the canvas; among its lines are the polygon of the
    arrowhead marker and the white rectangle of the background.  The body
    holds exactly one shape (rectangle, ellipse or diamond) for every node and
    at most one line for every edge, and besides them only the texts of
    labels. *)
Theorem svg_one_shape_per_node (nodes edges : list pydict) (width height : pynum) :
  Forall (node_with within_bound) nodes -> Forall well_formed_edge edges ->
  within_bound width -> within_bound height ->
  exists view_width view_height body,
    _create_svg nodes edges width height =
      Return (svg_header view_width view_height ++ body ++ [SvgLiteral "</svg>"]) /\
    length (filter is_shape body) = length nodes /\
    (length (filter is_line body) <= length edges)%nat /\
    Forall (fun p => is_shape p || is_line p || is_label p = true) body.
Proof.
  intros Hr He _ _. pose proof (nodes_with_well_formed _ _ Hr) as Hn. clear Hr.
  destruct (create_svg_parts nodes edges width height Hn He)
    as (xs & ys & rs & bs & ps & m & qs & _ & _ & _ & _ & E5 & E6 & E).
  do 2 eexists. exists (concat ps ++ concat qs).
  split; [rewrite <- app_assoc; exact E|].
  assert (Hps : Forall (fun parts => exists shape rest,
                          parts = shape :: rest /\ is_shape shape = true /\
                          Forall (fun p => is_shape p = false /\ is_line p = false) rest) ps).
  { eapply for_each_forall; [|exact E5]. intros [i n] parts Hp.
    destruct (svg_node_drawn _ _ i n parts Hp)
      as (shape & rest & x0 & y0 & w & h & l & t & r & b & -> & Hs & Hrest & _).
    exists shape, rest. auto. }
  assert (Hqs : Forall (fun q => Forall (fun p => is_shape p = false) q /\
                                 (length (filter is_line q) <= 1)%nat) qs).
  { eapply for_each_forall; [|exact E6]. intros e q Hq. apply (svg_edge_drawn _ _ _ _ _ Hq). }
  destruct (node_parts_counts ps Hps) as [N1 N2].
  destruct (edge_parts_counts qs Hqs) as [Q1 Q2].
  pose proof (for_each_length _ _ _ E5) as L5.
  pose proof (for_each_length _ _ _ E6) as L6.
  pose proof (enumerate_from_length nodes 0) as Le. fold (enumerate nodes) in Le.
  split; [|split].
  - rewrite !filter_app, !length_app, Q1. cbn [length app]. lia.
  - rewrite !filter_app, !length_app, N2. cbn [length app]. lia.
  - apply Forall_app. split; apply Forall_concat.
    + eapply for_each_forall; [|exact E5]. intros [i n] parts Hp.
      apply (svg_node_kinds _ _ _ _ _ Hp).
    + eapply for_each_forall; [|exact E6]. intros e q Hq.
      apply (svg_edge_kinds _ _ _ _ _ Hq).
Qed.

Lemma svg_one_shape_per_node_witness :
  exists view_width view_height body,
    _create_svg sample_nodes [sample_edge; ghost_edge] (NInt 800) (NInt 600) =
      Return (svg_header view_width view_height ++ body ++ [SvgLiteral "</svg>"]) /\
    length (filter is_shape body) = length sample_nodes /\
    (length (filter is_line body) <= length [sample_edge; ghost_edge])%nat /\
    Forall (fun p => is_shape p || is_line p || is_label p = true) body.
Proof.
  apply (svg_one_shape_per_node sample_nodes [sample_edge; ghost_edge] (NInt 800) (NInt 600));
    first [ unfold within_bound, int_bound; lia | repeat constructor ].
Defined.

(** ** What the SVG reader counts *)

Lemma count_of_bump (t k : string) (c : list (string * nat)) :
  count_of (bump t c) k = if String.eqb t k then S (count_of c k) else count_of c k.
Proof.
  unfold count_of. induction c as [|[k0 n] c IH]; cbn [bump table_get].
  - destruct (String.eqb t k); reflexivity.
  - destruct (String.eqb k0 t) eqn:E0; cbn [table_get].
    + apply String.eqb_eq in E0. subst k0. destruct (String.eqb t k); reflexivity.
    + destruct (String.eqb k0 k) eqn:E1; [|exact IH].
      apply String.eqb_eq in E1. subst k0. rewrite String.eqb_sym, E0. reflexivity.
Qed.

Lemma sum_values_from (c : list (string * nat)) (a : nat) :
  fold_left (fun n kv => (n + snd kv)%nat) c a = (a + sum_values c)%nat.
Proof.
  unfold sum_values. revert a. induction c as [|kv c IH]; intro a; cbn [fold_left].
  - lia.
  - rewrite IH, (IH (0 + snd kv)%nat). lia.
Qed.

Lemma sum_values_cons (kv : string * nat) (c : list (string * nat)) :
  sum_values (kv :: c) = (snd kv + sum_values c)%nat.
Proof. unfold sum_values at 1. cbn [fold_left]. rewrite sum_values_from. lia. Qed.

Lemma sum_values_bump (t : string) (c : list (string * nat)) :
  sum_values (bump t c) = S (sum_values c).
Proof.
  induction c as [|[k n] c IH]; cbn [bump]; [reflexivity|].
  destruct (String.eqb k t); rewrite !sum_values_cons; cbn [snd]; [|rewrite IH]; lia.
Qed.

Lemma positive_bump (t : string) (c : list (string * nat)) :
  Forall (fun kv => (0 < snd kv)%nat) c -> Forall (fun kv => (0 < snd kv)%nat) (bump t c).
Proof.
  induction 1 as [|[k n] c H Hc IH]; cbn [bump].
  - repeat constructor.
  - cbn [snd] in H. destruct (String.eqb k t); constructor; try assumption; cbn [snd]; lia.
Qed.

Lemma count_shapes_fold (elems : list Element) (acc : list (string * nat)) :
  (forall k, count_of (fold_left count_step elems acc) k
             = (count_of acc k
                + if is_shape_tag k then length (filter (named k) elems) else 0)%nat) /\
  sum_values (fold_left count_step elems acc)
    = (sum_values acc + length (filter counted elems))%nat /\
  (Forall (fun kv => (0 < snd kv)%nat) acc ->
   Forall (fun kv => (0 < snd kv)%nat) (fold_left count_step elems acc)).
Proof.
  revert acc. induction elems as [|e elems IH]; intro acc; cbn [fold_left filter].
  - split; [|split; [cbn; lia | auto]]. intro k. destruct (is_shape_tag k); cbn; lia.
  - unfold counted at 1. unfold named at 1. unfold count_step at 2 4 6.
    destruct (is_shape_tag (local_name (tag e))) eqn:S.
    + destruct (IH (bump (local_name (tag e)) acc)) as (I1 & I2 & I3).
      split; [|split].
      * intro k. rewrite I1, count_of_bump.
        destruct (String.eqb (local_name (tag e)) k) eqn:E.
        -- apply String.eqb_eq in E. subst k. rewrite S. cbn [length]. lia.
        -- destruct (is_shape_tag k); lia.
      * rewrite I2, sum_values_bump. cbn [length]. lia.
      * intro H. apply I3, positive_bump, H.
    + destruct (IH acc) as (I1 & I2 & I3). split; [|split; assumption].
      intro k. rewrite I1.
      destruct (String.eqb (local_name (tag e)) k) eqn:E; [|reflexivity].
      apply String.eqb_eq in E. subst k. rewrite S. reflexivity.
Qed.

Lemma has_brace_app (p t : string) : has_brace (p ++ String "}" t) = true.
Proof.
  induction p as [|c p IH]; cbn [String.append has_brace].
  - reflexivity.
  - rewrite IH. apply orb_true_r.
Qed.

Lemma local_name_qualified (p t : string) :
  has_brace t = false -> local_name (p ++ String "}" t) = t.
Proof.
  intro H. induction p as [|c p IH]; cbn [String.append local_name].
  - rewrite H. reflexivity.
  - rewrite has_brace_app. exact IH.
Qed.

(** X16. For a text that parses, [_read_svg] counts the elements by their
    tag without the namespace: for each of the nine names it counts (rect,
    circle, ellipse, line, polyline, polygon, path, text, g) the number of
    elements of that local name, for any other name nothing; no count is 0;
    and [total_elements] is the number of all elements counted.  A tag
    qualified by a namespace counts under its local name. *)
Theorem svg_reader_counts (lib : pylib) (content : string) (root : Element) :
  ET_fromstring lib content = Parsed root ->
  exists doc,
    _read_svg lib content = ReadOk doc /\
    s_total_elements doc = length (filter counted (iter_all root)) /\
    (forall t, count_of (s_shape_counts doc) t
               = if is_shape_tag t then length (filter (named t) (iter_all root)) else 0%nat) /\
    Forall (fun kv => (0 < snd kv)%nat) (s_shape_counts doc) /\
    (forall ns t, has_brace t = false -> local_name ("{" ++ ns ++ "}" ++ t) = t).
Proof.
  intro H. unfold _read_svg. rewrite H. eexists. split; [reflexivity|].
  cbn [s_total_elements s_shape_counts read_svg_root].
  destruct (count_shapes_fold (iter_all root) []) as (I1 & I2 & I3).
  fold (count_shapes (iter_all root)) in I1, I2, I3.
  split; [rewrite I2; reflexivity|]. split; [intro t; rewrite I1; reflexivity|].
  split; [apply I3; constructor|].
  intros ns t Ht. apply (local_name_qualified (String "{" ns) t Ht).
Qed.

Lemma svg_reader_counts_witness :
  exists doc,
    _read_svg (lib_of svg_samples) sample_svg_text = ReadOk doc /\
    s_total_elements doc = length (filter counted (iter_all sample_svg)) /\
    (forall t, count_of (s_shape_counts doc) t
               = if is_shape_tag t then length (filter (named t) (iter_all sample_svg))
                 else 0%nat) /\
    Forall (fun kv => (0 < snd kv)%nat) (s_shape_counts doc) /\
    (forall ns t, has_brace t = false -> local_name ("{" ++ ns ++ "}" ++ t) = t).
Proof.
  apply (svg_reader_counts (lib_of svg_samples) sample_svg_text sample_svg). reflexivity.
Defined.

Lemma add_text_spec (s : list string) (v : string) :
  NoDup s -> NoDup (add_text s v) /\ forall x, In x (add_text s v) <-> In x s \/ x = v.
Proof.
  intro Hs. unfold add_text. destruct (existsb (String.eqb v) s) eqn:E.
  - apply existsb_exists in E. destruct E as (x & Hin & Hk).
    apply String.eqb_eq in Hk. subst x. split; [exact Hs|].
    intro x. split; [auto | intros [H | ->]; assumption].
  - assert (Hn : ~ In v s).
    { intro Hin. assert (T : existsb (String.eqb v) s = true).
      { apply existsb_exists. exists v. split; [exact Hin | apply String.eqb_refl]. }
      congruence. }
    split.
    + apply NoDup_app; [exact Hs | repeat constructor; intros [] |].
      intros x Hx [<- | []]. exact (Hn Hx).
    + intro x. rewrite in_app_iff. simpl. intuition congruence.
Qed.

Lemma collect_svg_text_fold (elems : list Element) (acc : list string) :
  NoDup acc ->
  NoDup (fold_left text_step elems acc) /\
  forall x, In x (fold_left text_step elems acc)
            <-> In x acc \/ exists e, In e elems /\ shown_text e = Some x.
Proof.
  revert acc. induction elems as [|e elems IH]; intros acc Ha; cbn [fold_left].
  - split; [exact Ha|]. intro x. split; [auto | intros [H | (e & [] & _)]; exact H].
  - unfold text_step at 2 4. destruct (shown_text e) as [s|] eqn:S.
    + destruct (add_text_spec acc s Ha) as [N I].
      destruct (IH _ N) as [N' I']. split; [exact N'|].
      intro x. rewrite I', I. split.
      * intros [[H | ->] | (e' & He' & Hs)]; [auto | |].
        -- right. exists e. split; [left; reflexivity | exact S].
        -- right. exists e'. split; [right; exact He' | exact Hs].
      * intros [H | (e' & [<- | He'] & Hs)]; [auto | |].
        -- left. right. congruence.
        -- right. exists e'. auto.
    + destruct (IH _ Ha) as [N' I']. split; [exact N'|].
      intro x. rewrite I'. split.
      * intros [H | (e' & He' & Hs)]; [auto|]. right. exists e'. split; [right; exact He' | exact Hs].
      * intros [H | (e' & [<- | He'] & Hs)]; [auto | congruence |]. right. exists e'. auto.
Qed.

(** X17. For a text that parses to a tree whose texts are strings of
    ASCII characters, the text content [_read_svg] reports is the set of the
    stripped texts of the elements whose text is not blank: each occurs once,
    none is empty, and nothing else occurs. *)
Theorem svg_reader_text (lib : pylib) (content : string) (root : Element) :
  ET_fromstring lib content = Parsed root ->
  ascii_texts root ->
  exists doc,
    _read_svg lib content = ReadOk doc /\
    NoDup (s_text_content doc) /\
    (forall x, In x (s_text_content doc) <->
               exists e s, In e (iter_all root) /\ text e = Some s /\
                           strip s = x /\ x <> "") /\
    s_width doc = attr_or root "width" "unknown" /\
    s_height doc = attr_or root "height" "unknown".
Proof.
  intros H _. unfold _read_svg. rewrite H. eexists. split; [reflexivity|].
  cbn [s_text_content s_width s_height read_svg_root].
  destruct (collect_svg_text_fold (iter_all root) [] (NoDup_nil _)) as [N I].
  fold (collect_svg_text (iter_all root)) in N, I.
  split; [exact N|]. split; [|split; reflexivity].
  intro x. rewrite I. split.
  - intros [[] | (e & He & Hs)]. unfold shown_text in Hs.
    destruct (text e) as [s|] eqn:T; [|discriminate Hs].
    destruct (String.eqb s ""); cbn [negb andb] in Hs; [discriminate Hs|].
    destruct (String.eqb (strip s) "") eqn:E; cbn [negb] in Hs; inversion Hs; subst x.
    exists e, s. repeat split; try assumption. apply String.eqb_neq, E.
  - intros (e & s & He & T & <- & Hx). right. exists e. split; [exact He|].
    unfold shown_text. rewrite T.
    assert (E : String.eqb (strip s) "" = false) by (apply String.eqb_neq, Hx).
    rewrite E. destruct (String.eqb s "") eqn:E0; [|reflexivity].
    apply String.eqb_eq in E0. subst s. exfalso. apply Hx. reflexivity.
Qed.

Lemma svg_reader_text_witness :
  exists doc,
    _read_svg (lib_of svg_samples) sample_svg_text = ReadOk doc /\
    NoDup (s_text_content doc) /\
    (forall x, In x (s_text_content doc) <->
               exists e s, In e (iter_all sample_svg) /\ text e = Some s /\
                           strip s = x /\ x <> "") /\
    s_width doc = attr_or sample_svg "width" "unknown" /\
    s_height doc = attr_or sample_svg "height" "unknown".
Proof.
  apply (svg_reader_text (lib_of svg_samples) sample_svg_text sample_svg).
  - reflexivity.
  - repeat constructor; intros s H; inversion H; reflexivity.
Defined.

(** ** The writing tool *)

Lemma dicts_of_list (l : list pydict) : dicts_of (PList (map PDict l)) = Return l.
Proof.
  unfold dicts_of. cbn [py_iter bind].
  induction l as [|d l IH]; cbn [map for_each]; [reflexivity|].
  cbn [bind]. rewrite IH. reflexivity.
Qed.

Section Writing.

Variable lib : pylib.
Variable timestamp : Z.
Variable gen_id : site -> nat -> string.
Variable randint : site -> nat -> Z.

(** X19. Converting a file is writing what was read from it: when the
    source of [diagram_convert] is read into nodes and edges, the conversion
    to a target ends as [diagram_write] does for that suffix on the JSON of
    these nodes and edges, without a page name: in the same written content
    and the same counts, in a refusal of the suffix, or in a handler of
    exceptions. *)
Theorem convert_is_read_then_write (source_ext target_ext content nodes_json edges_json
    : string) (nodes edges : list pydict) :
  read_source lib source_ext target_ext content = Return (inr (nodes, edges)) ->
  json_loads lib nodes_json = Parsed (PList (map PDict nodes)) ->
  json_loads lib edges_json = Parsed (PList (map PDict edges)) ->
  match diagram_convert lib timestamp gen_id randint source_ext target_ext content with
  | Converted out n e =>
      diagram_write lib timestamp gen_id randint target_ext nodes_json edges_json None
        = Wrote out (lstrip_dots target_ext) n e /\
      n = length nodes /\ e = length edges
  | Caught _ =>
      diagram_write lib timestamp gen_id randint target_ext nodes_json edges_json None
        = WriteFailed
  | Refused _ =>
      diagram_write lib timestamp gen_id randint target_ext nodes_json edges_json None
        = WriteUnsupported target_ext
  | ParseFailed _ | Rasterised => False
  end.
Proof.
  intros Hr Hn He. unfold diagram_convert, diagram_write. rewrite Hr, Hn, He. cbn [bind].
  rewrite !dicts_of_list. cbn [bind]. unfold write_target.
  change (page_name None) with "Page-1".
  destruct (is_drawio_ext target_ext).
  { destruct (_create_drawio_xml lib nodes edges "Page-1"); cbn [bind]; auto. }
  destruct (String.eqb target_ext ".excalidraw").
  { destruct (_create_excalidraw_json timestamp gen_id randint lib nodes edges); cbn [bind];
      auto. }
  destruct (String.eqb target_ext ".svg").
  { destruct (_create_svg nodes edges (NInt 800) (NInt 600)); cbn [bind]; auto. }
  destruct (String.eqb target_ext ".png"); reflexivity.
Qed.

End Writing.

Lemma convert_is_read_then_write_witness :
  match diagram_convert (lib_of reread_samples) sample_time sample_id sample_int
          ".drawio" ".svg" plain_payload with
  | Converted out n e =>
      diagram_write (lib_of reread_samples) sample_time sample_id sample_int ".svg"
        read_nodes_json read_edges_json None
        = Wrote out (lstrip_dots ".svg") n e /\
      n = length read_nodes /\ e = length read_edges
  | Caught _ =>
      diagram_write (lib_of reread_samples) sample_time sample_id sample_int ".svg"
        read_nodes_json read_edges_json None = WriteFailed
  | Refused _ =>
      diagram_write (lib_of reread_samples) sample_time sample_id sample_int ".svg"
        read_nodes_json read_edges_json None = WriteUnsupported ".svg"
  | ParseFailed _ | Rasterised => False
  end.
Proof.
  apply (convert_is_read_then_write (lib_of reread_samples) sample_time sample_id sample_int
           ".drawio" ".svg" plain_payload read_nodes_json read_edges_json
           read_nodes read_edges); vm_compute; reflexivity.
Defined.

(** ** Positions in a draw.io file *)

(** X20. The draw.io generator reads position and size of a node from its
    [geometry] entry only: a node without that entry, whatever [x], [y],
    [width] and [height] it states, gets the cell geometry of its index,
    [(150 i, 100)] with the size 120 by 60.  The nodes [_read_excalidraw]
    returns are such nodes. *)
Theorem drawio_position_from_geometry_only (i : nat) (node : pydict) :
  dict_get node "geometry" = None \/ x_node node ->
  exists attrs, node_cell i node = Return (attrs, default_geometry i).
Proof.
  intro H.
  assert (G : dict_get node "geometry" = None).
  { destruct H as [H | [(id & tx & x & y & w & h & -> & _)
                       | (id & ty & x & y & w & h & bg & st & be & -> & _)]];
      [exact H | reflexivity | reflexivity]. }
  unfold node_cell, get_or. rewrite G. cbn [py_get bind].
  eexists. reflexivity.
Qed.

Lemma drawio_position_from_geometry_only_witness :
  exists attrs,
    node_cell 1 (number_node "b" 300 0 100 50) = Return (attrs, default_geometry 1).
Proof.
  apply (drawio_position_from_geometry_only 1 (number_node "b" 300 0 100 50)).
  left. reflexivity.
Defined.

(** ** Lines between shapes in the SVG *)



(** ** Bindings refer to elements *)

Lemma unbound_not_bound (a : pydict) (s : pyval) : unbound a -> ~ binds_to a s.
Proof.
  intros [H1 H2] [(f & H) | (f & H)]; congruence.
Qed.

Lemma same_but_bound_get (m m' : pydict) (k : string) :
  same_but_bound m m' -> k <> "boundElements" -> get m' k = get m k.
Proof. intros H Hk. unfold get. apply same_get_or; assumption. Qed.

Section Bindings.

Variable timestamp : Z.
Variable gen_id : site -> nat -> string.
Variable randint : site -> nat -> Z.

Lemma node_elements_ids (i : nat) (n : pydict) (id : pyval) (main : pydict)
    (extras : list pydict) :
  node_elements timestamp gen_id randint i n = Return (id, main, extras) ->
  get main "id" = get_or n "id" (PStr (gen_id (NodeSite i) 0)) /\
  unbound main /\ Forall unbound extras.
Proof.
  unfold node_elements. intro H.
  destruct (eq_str _ "text").
  - destruct (hashable _); inversion H; subst. repeat split; constructor.
  - destruct (hashable _); [|discriminate H].
    destruct (truthy _).
    + bind_inv H. inversion H; subst. repeat split; repeat constructor.
    + inversion H; subst. repeat split; constructor.
Qed.

Lemma resolve_some (m : list (pyval * pydict)) (s t : pyval) (a b : pydict) :
  resolve m s t = Return (Some (a, b)) -> kmap_get m s = Some a /\ kmap_get m t = Some b.
Proof.
  unfold resolve, kmap_mem. intro H.
  destruct (truthy s && truthy t); [|discriminate H].
  destruct (hashable s); [|discriminate H]. cbn [bind] in H.
  destruct (kmap_get m s) as [a'|]; [|discriminate H].
  destruct (hashable t); [|discriminate H]. cbn [bind] in H.
  destruct (kmap_get m t) as [b'|]; inversion H; subst. auto.
Qed.

Lemma edge_elements_bindings (m : list (pyval * pydict)) (i : nat) (e : pydict)
    (parts : list pydict) (bs : list (pyval * pyval * pyval)) :
  edge_elements timestamp gen_id randint m i e = Return (parts, bs) ->
  forall a s, In a parts -> binds_to a s -> exists v, kmap_get m s = Some v.
Proof.
  unfold edge_elements. intro H. bind_inv H. rename a into bound.
  bind_inv H. destruct a as [[[[ax ay] points] dx] dy].
  destruct bound as [[src tgt]|].
  - destruct (resolve_some _ _ _ _ _ E) as [Ks Kt].
    destruct (binding_focus dx dy) as [f1 f2].
    do 3 bind_inv H.
    destruct (truthy (get_or e "label" (PStr ""))).
    + bind_inv H. inversion H; subst. intros x s [<- | [<- | []]] B.
      * destruct B as [(f & B) | (f & B)]; inversion B; subst; eauto.
      * exfalso. unfold edge_label_element in E4. do 3 bind_inv E4. inversion E4; subst.
        revert B. apply unbound_not_bound. split; reflexivity.
    + inversion H; subst. intros x s [<- | []] B.
      destruct B as [(f & B) | (f & B)]; inversion B; subst; eauto.
  - do 3 bind_inv H.
    destruct (truthy (get_or e "label" (PStr ""))).
    + bind_inv H. inversion H; subst. intros x s [<- | [<- | []]] B; exfalso; revert B;
        apply unbound_not_bound.
      * split; reflexivity.
      * unfold edge_label_element in E4. do 3 bind_inv E4. inversion E4; subst.
        split; reflexivity.
    + inversion H; subst. intros x s [<- | []] B. exfalso. revert B.
      apply unbound_not_bound. split; reflexivity.
Qed.

End Bindings.

Lemma build_lookup_keys_fold (nodes l : list pydict) (m m' : list (pyval * pydict)) :
  (forall n, In n l -> In n nodes) ->
  (forall k v, In (k, v) m ->
     exists n, In n nodes /\ truthy (get n "id") = true /\ k = get n "id") ->
  fold_left (fun acc n =>
               m <- acc ;;
               if truthy (get n "id") then
                 if hashable (get n "id") then Return (kmap_set m (get n "id") n)
                 else Raise TypeError
               else Return m) l (Return m) = Return m' ->
  forall k v, In (k, v) m' ->
    exists n, In n nodes /\ truthy (get n "id") = true /\ k = get n "id".
Proof.
  revert m. induction l as [|n l IH]; intros m Hl Hm H; cbn [fold_left] in H.
  - inversion H; subst. exact Hm.
  - cbn [bind] in H. destruct (truthy (get n "id")) eqn:T.
    + destruct (hashable (get n "id")).
      * apply (IH (kmap_set m (get n "id") n));
          [intros x Hx; apply Hl; right; exact Hx | | exact H].
        intros k v Hin. apply kmap_set_in in Hin.
        destruct Hin as [Hin | (_ & [-> | (v' & Hin)])].
        -- apply (Hm _ _ Hin).
        -- exists n. split; [apply Hl; left; reflexivity | auto].
        -- apply (Hm _ _ Hin).
      * exfalso. clear - H. induction l as [|x l IH]; cbn [fold_left bind] in H;
          [discriminate H | exact (IH H)].
    + apply (IH m); [intros x Hx; apply Hl; right; exact Hx | exact Hm | exact H].
Qed.

Lemma combine_mains (mains : list pydict) (ns : list (pyval * pydict * list pydict)) :
  length mains = length ns ->
  forall a, In a (concat (map (fun '(m, n) => m :: snd n) (combine mains ns))) <->
            In a mains \/ exists r, In r ns /\ In a (snd r).
Proof.
  revert ns. induction mains as [|m mains IH]; intros [|r ns] L; try discriminate L;
    intro a; cbn [combine map concat].
  - split; [intros [] | intros [[] | (r & [] & _)]].
  - cbn [In app length] in *. rewrite in_app_iff, (IH ns (eq_add_S _ _ L)). split.
    + intros [<- | [H | [H | (r' & Hr & Ha)]]]; eauto.
    + intros [[<- | H] | (r' & [<- | Hr] & Ha)]; eauto 6.
Qed.

Lemma for_each_from {A B : Type} (f : A -> exc B) (l : list A) (bs : list B) (b : B) :
  for_each f l = Return bs -> In b bs -> exists a, In a l /\ f a = Return b.
Proof.
  revert bs. induction l as [|x l IH]; cbn [for_each]; intros bs H Hin.
  - inversion H; subst. destruct Hin.
  - do 2 bind_inv H. inversion H; subst. destruct Hin as [<- | Hin].
    + exists x. split; [left; reflexivity | exact E].
    + destruct (IH a0 E0 Hin) as (y & Hy & Hf). exists y. split; [right; exact Hy | exact Hf].
Qed.

Lemma Forall2_to {A B : Type} (R : A -> B -> Prop) (l : list A) (l' : list B) (a : A) :
  Forall2 R l l' -> In a l -> exists b, In b l' /\ R a b.
Proof.
  induction 1 as [|x y l l' Hxy _ IH]; intros [].
  - subst x. exists y. split; [left; reflexivity | exact Hxy].
  - destruct (IH H) as (b & Hb & Hr). exists b. split; [right; exact Hb | exact Hr].
Qed.

Lemma Forall2_from {A B : Type} (R : A -> B -> Prop) (l : list A) (l' : list B) (b : B) :
  Forall2 R l l' -> In b l' -> exists a, In a l /\ R a b.
Proof.
  induction 1 as [|x y l l' Hxy _ IH]; intros [].
  - subst y. exists x. split; [left; reflexivity | exact Hxy].
  - destruct (IH H) as (a & Ha & Hr). exists a. split; [right; exact Ha | exact Hr].
Qed.

Section Binding_integrity.

Variable timestamp : Z.
Variable gen_id : site -> nat -> string.
Variable randint : site -> nat -> Z.

(** X22. In the elements [_create_excalidraw_json] writes, every binding
    refers to an element of the document: when an element is bound at its
    start or at its end to an id, some element carries that id (as a
    dictionary key compares it).  Only arrows are bound; shapes, texts and
    labels have no binding. *)
Theorem bindings_refer_to_elements (nodes edges els : list pydict) :
  excalidraw_elements timestamp gen_id randint nodes edges = Return els ->
  forall a s, In a els -> binds_to a s ->
    get a "type" = PStr "arrow" /\
    exists m, In m els /\ key_eqb (get m "id") s = true.
Proof.
  unfold excalidraw_elements. intro H.
  bind_inv H. rename a into ns. bind_inv H. rename a into lookup. bind_inv H. rename a into es.
  inversion H; subst els. clear H.
  set (mains := add_refs (build_element_map (map (fun n => fst (fst n)) ns))
                         (concat (map snd es)) (map (fun n => snd (fst n)) ns)).
  assert (Rm : Forall2 same_but_bound (map (fun n => snd (fst n)) ns) mains).
  { apply add_refs_related, Forall2_refl, same_but_bound_refl. }
  assert (L : length mains = length ns).
  { rewrite <- (Forall2_length Rm). apply length_map. }
  assert (Hmain : forall m', In m' mains ->
            exists i n id main extras,
              In (i, n) (enumerate nodes) /\
              node_elements timestamp gen_id randint i n = Return (id, main, extras) /\
              same_but_bound main m').
  { intros m' Hm'. destruct (Forall2_from _ _ _ m' Rm Hm') as (main & Hmain & Hs).
    apply in_map_iff in Hmain. destruct Hmain as ([[id main'] extras] & <- & Hr).
    destruct (for_each_from _ _ _ _ E Hr) as ([i n] & Hin & Hf). cbn [fst snd] in *.
    exists i, n, id, main', extras. auto. }
  intros a s Ha B. apply in_app_iff in Ha. destruct Ha as [Ha | Ha].
  - exfalso. revert B. apply unbound_not_bound.
    apply (combine_mains mains ns L) in Ha. destruct Ha as [Ha | (r & Hr & Ha)].
    + destruct (Hmain a Ha) as (i & n & id & main & extras & _ & Hf & Hs).
      destruct (node_elements_ids _ _ _ _ _ _ _ _ Hf) as (_ & [U1 U2] & _).
      split; rewrite (same_but_bound_get _ _ _ Hs); (assumption || discriminate).
    + destruct (for_each_from _ _ _ _ E Hr) as ([i n] & _ & Hf).
      destruct r as [[id main] extras]. cbn [snd] in Ha.
      destruct (node_elements_ids _ _ _ _ _ _ _ _ Hf) as (_ & _ & U).
      rewrite Forall_forall in U. apply U, Ha.
  - apply in_concat in Ha. destruct Ha as (parts & Hp & Ha).
    apply in_map_iff in Hp. destruct Hp as ([parts' bs] & <- & Hq). cbn [fst] in Ha.
    destruct (for_each_from _ _ _ _ E1 Hq) as ([i e] & _ & Hf).
    split.
    { clear - Hf Ha B. unfold edge_elements in Hf. bind_inv Hf. bind_inv Hf.
      destruct a1 as [[[[ax ay] points] dx] dy].
      assert (G : forall x, In x parts' -> binds_to x s -> get x "type" = PStr "arrow").
      { destruct a0 as [[src tgt]|]; [destruct (binding_focus dx dy) as [f1 f2]|];
          do 3 bind_inv Hf; destruct (truthy (get_or e "label" (PStr "")));
          try (bind_inv Hf; unfold edge_label_element in E4; do 3 bind_inv E4;
               inversion E4; subst);
          inversion Hf; subst; intros x [<- | Hx] Bx; try reflexivity;
          try (destruct Hx as [<- | []]); try destruct Hx;
          exfalso; revert Bx; apply unbound_not_bound; split; reflexivity. }
      apply (G a Ha B). }
    destruct (edge_elements_bindings _ _ _ _ _ _ _ _ Hf a s Ha B) as (v & Hv).
    destruct (kmap_get_in _ _ _ Hv) as (k' & Hk' & Hkey).
    unfold build_lookup in E0.
    destruct (build_lookup_keys_fold nodes nodes [] lookup (fun n Hn => Hn)
                (fun k v (F : In (k, v) []) => match F with end) E0 k' v Hk')
      as (n & Hn & Tn & ->).
    destruct (In_nth_error _ _ Hn) as (j & Hj).
    pose proof (enumerate_from_in nodes 0 j n Hj) as Hjn. cbn [Nat.add] in Hjn.
    destruct (for_each_in _ _ _ _ E Hjn) as ([[id main] extras] & Hf' & Hr).
    destruct (node_elements_ids _ _ _ _ _ _ _ _ Hf') as (Hid & _ & _).
    rewrite (get_or_truthy _ _ _ Tn) in Hid.
    assert (Hmain' : In main (map (fun n => snd (fst n)) ns)).
    { apply in_map_iff. exists (id, main, extras). auto. }
    destruct (Forall2_to _ _ _ main Rm Hmain') as (m' & Hm' & Hs).
    exists m'. split.
    + apply in_app_iff. left. apply (combine_mains mains ns L). left. exact Hm'.
    + rewrite (same_but_bound_get _ _ _ Hs), Hid by discriminate. exact Hkey.
Qed.

End Binding_integrity.

Lemma bindings_refer_to_elements_witness :
  get line_arrow "type" = PStr "arrow" /\
  exists m, In m line_elements /\ key_eqb (get m "id") (PStr "r1") = true.
Proof.
  apply (bindings_refer_to_elements first_second sample_id sample_int
           (x_nodes sample_excalidraw_doc) (x_edges sample_excalidraw_doc)
           line_elements).
  - vm_compute. reflexivity.
  - vm_compute. right. right. left. reflexivity.
  - left. eexists. vm_compute. reflexivity.
Defined.

(** ** Edges written to a draw.io file *)

(** X23. What the draw.io reader makes of the cell the draw.io generator
    writes for an edge whose id, ends, label and style are strings: the same
    edge when both ends are non-empty; when an end is missing or empty, a
    node with the label of the edge and a geometry of zeros if the label is
    non-empty, and nothing at all otherwise. *)
Theorem edge_cell_read_back (i : nat) (e : pydict) (id s t value style : string) :
  string_edge i e id s t value style -> id <> "0" -> id <> "1" ->
  exists c,
    cell_element (edge_cell i e) = Return c /\
    parse_cell c =
      Return (if negb (String.eqb s "") && negb (String.eqb t "")
              then ([], [mk_edge id s t value style])
              else if negb (String.eqb value "")
                   then ([mk_node id value style zero_geometry], [])
                   else ([], [])).
Proof.
  intros (Hid & Hs & Ht & Hv & Hst) H0 H1.
  exists (cell_of (edge_attrib id value style s t) [("relative", "1"); ("as", "geometry")]).
  split.
  - unfold edge_cell, cell_element. rewrite Hid, Hs, Ht, Hv, Hst. reflexivity.
  - unfold parse_cell, cell_of, edge_attrib.
    change (attr_or (Elem "mxCell" _ None _) "id" "") with id.
    change (attr_or (Elem "mxCell" _ None _) "value" "") with value.
    change (attr_or (Elem "mxCell" _ None _) "style" "") with style.
    change (attr_or (Elem "mxCell" _ None _) "source" "") with s.
    change (attr_or (Elem "mxCell" _ None _) "target" "") with t.
    change (attr (Elem "mxCell" _ None _) "source") with (Some s).
    change (attr (Elem "mxCell" _ None _) "target") with (Some t).
    change (attr (Elem "mxCell" _ None _) "vertex") with (@None string).
    apply String.eqb_neq in H0, H1. rewrite H0, H1.
    cbn [nonempty orb is_lit].
    destruct (negb (String.eqb s "") && negb (String.eqb t "")); [reflexivity|].
    rewrite orb_false_r. destruct (negb (String.eqb value "")); reflexivity.
Qed.

Lemma edge_cell_read_back_witness :
  exists c,
    cell_element (edge_cell 0 [("id", PStr "e9"); ("target", PStr "b"); ("label", PStr "lost")])
      = Return c /\
    parse_cell c =
      Return (if negb (String.eqb "" "") && negb (String.eqb "b" "")
              then ([], [mk_edge "e9" "" "b" "lost"
                           "edgeStyle=orthogonalEdgeStyle;rounded=0;orthogonalLoop=1;jettySize=auto;html=1;"])
              else if negb (String.eqb "lost" "")
                   then ([mk_node "e9" "lost"
                            "edgeStyle=orthogonalEdgeStyle;rounded=0;orthogonalLoop=1;jettySize=auto;html=1;"
                            zero_geometry], [])
                   else ([], [])).
Proof.
  apply (edge_cell_read_back 0 [("id", PStr "e9"); ("target", PStr "b"); ("label", PStr "lost")]
           "e9" "" "b" "lost"
           "edgeStyle=orthogonalEdgeStyle;rounded=0;orthogonalLoop=1;jettySize=auto;html=1;").
  - repeat split.
  - discriminate.
  - discriminate.
Defined.

(** X24. A text that is XML but whose root is neither [mxfile] nor
    [mxGraphModel] is no error for [_read_drawio]: it is read as an empty
    document, with no diagram, no text and the counts 0; a root
    [mxGraphModel] is read as the single diagram named Main. *)
Theorem drawio_other_roots (lib : pylib) (content : string) (root : Element) :
  ET_fromstring lib content = Parsed root -> tag root <> "mxfile" ->
  (tag root <> "mxGraphModel" ->
   _read_drawio lib content = Return (ReadOk (summarize [])) /\
   diagram_count (summarize []) = 0%nat /\ text_content (summarize []) = []) /\
  (tag root = "mxGraphModel" ->
   forall doc, _read_drawio lib content = Return (ReadOk doc) ->
               exists ns es, diagrams doc = [{| d_nodes := ns; d_edges := es; d_name := "Main" |}]).
Proof.
  intros H Hm. unfold _read_drawio, read_root. rewrite H.
  apply String.eqb_neq in Hm. rewrite Hm. split.
  - intro Hg. apply String.eqb_neq in Hg. rewrite Hg. repeat split.
  - intros Hg doc Hd. rewrite Hg in Hd. cbn [String.eqb Ascii.eqb Bool.eqb] in Hd.
    bind_inv Hd. inversion Hd; subst. unfold parse_named in E. bind_inv E.
    destruct a0 as [ns es]. inversion E; subst. exists ns, es. reflexivity.
Qed.

Lemma drawio_other_roots_witness :
  _read_drawio (lib_of foreign_samples) foreign_xml = Return (ReadOk (summarize [])) /\
  diagram_count (summarize []) = 0%nat /\ text_content (summarize []) = [].
Proof.
  refine (proj1 (drawio_other_roots (lib_of foreign_samples) foreign_xml foreign_tree
                   eq_refl _) _); discriminate.
Defined.
